(** * BLEBonders: the ingestion pipeline and the similarity service

    A shallow embedding of the Python back end:

    - [Database Manager/lambda_function.py], [embeddings.py],
      [bedrock_profile.py]: the ingestion pipeline;
    - [API Similarity Matching/app_similarity.py], [bedrock_agent.py]: the
      similarity and enrichment service.

    Conventions of the embedding.

    - A Python [str] is a [string]; a character is a code point below 256.
    - A value produced by [json.loads] is a [json]; a JSON number is a
      binary64 float (every number the pipeline stores is written with
      [float(x)]), so Python's unbounded [int] is outside the model.
    - A Python exception is a value of [exn]; a computation that may raise
      returns a [result].
    - The object store, the clock and the calls made to the hosted models
      are threaded through a state-and-error monad [M] over a [world]; every
      call that leaves the process is appended to the world's trace.
    - Library functions whose behaviour is fixed outside the repository
      ([json.loads], [json.dumps], [base64.b64decode], [unquote_plus]), the
      hosted services and the configuration are the fields of the class
      [Env]. *)

From Stdlib Require Import ZArith List Ascii String Bool Lia Floats.
From stdpp Require Import gmap strings.

Import ListNotations.
Local Set Warnings "-register-all".
Local Open Scope string_scope.
Local Open Scope list_scope.

(** ** Python strings *)

Module Str.

Definition code (c : ascii) : nat := nat_of_ascii c.

Definition between (lo hi n : nat) : bool := (lo <=? n)%nat && (n <=? hi)%nat.

(** [str.isspace] on a code point below 256. *)
Definition is_space (c : ascii) : bool :=
  let n := code c in
  between 9 13 n || between 28 32 n || (n =? 133)%nat || (n =? 160)%nat.

(** [str.isdigit] on a code point below 256 (the superscripts count). *)
Definition isdigit (c : ascii) : bool :=
  let n := code c in
  between 48 57 n || (n =? 178)%nat || (n =? 179)%nat || (n =? 185)%nat.

(** [str.lower] on one code point below 256. *)
Definition lower_char (c : ascii) : ascii :=
  let n := code c in
  if between 65 90 n || between 192 214 n || between 216 222 n
  then ascii_of_nat (n + 32) else c.

Definition chars (s : string) : list ascii := list_ascii_of_string s.
Definition of_chars (l : list ascii) : string := string_of_list_ascii l.

Fixpoint drop_while (p : ascii -> bool) (l : list ascii) : list ascii :=
  match l with
  | [] => []
  | c :: r => if p c then drop_while p r else l
  end.

Definition lstrip_by (p : ascii -> bool) (s : string) : string :=
  of_chars (drop_while p (chars s)).
Definition rstrip_by (p : ascii -> bool) (s : string) : string :=
  of_chars (rev (drop_while p (rev (chars s)))).
Definition strip_by (p : ascii -> bool) (s : string) : string :=
  rstrip_by p (lstrip_by p s).

(** [s.strip()], [s.rstrip()] and [s.lower()]. *)
Definition strip : string -> string := strip_by is_space.
Definition rstrip : string -> string := rstrip_by is_space.
Definition lower (s : string) : string := of_chars (map lower_char (chars s)).

Definition is_empty (s : string) : bool :=
  match s with EmptyString => true | _ => false end.

(** [sep.join(parts)]. *)
Fixpoint join (sep : string) (parts : list string) : string :=
  match parts with
  | [] => ""
  | [p] => p
  | p :: rest => p +:+ sep +:+ join sep rest
  end.

(** [s.split(sep)] for a separator of one character. *)
Fixpoint split_chars (sep : ascii) (cur : list ascii) (l : list ascii)
  : list (list ascii) :=
  match l with
  | [] => [rev cur]
  | c :: r =>
      if Ascii.eqb c sep then rev cur :: split_chars sep [] r
      else split_chars sep (c :: cur) r
  end.
Definition split (sep : ascii) (s : string) : list string :=
  map of_chars (split_chars sep [] (chars s)).

(** [s.split()]: maximal runs of characters that are not white space. *)
Fixpoint words_chars (cur : list ascii) (l : list ascii) : list (list ascii) :=
  match l with
  | [] => match cur with [] => [] | _ => [rev cur] end
  | c :: r =>
      if is_space c
      then match cur with
           | [] => words_chars [] r
           | _ => rev cur :: words_chars [] r
           end
      else words_chars (c :: cur) r
  end.
Definition words (s : string) : list string :=
  map of_chars (words_chars [] (chars s)).

(** [s.find(c)] and [s.rfind(c)] for one character: [-1] when absent. *)
Fixpoint find_from (c : ascii) (i : Z) (l : list ascii) : Z :=
  match l with
  | [] => (-1)%Z
  | d :: r => if Ascii.eqb d c then i else find_from c (i + 1)%Z r
  end.
Definition find (c : ascii) (s : string) : Z := find_from c 0%Z (chars s).

Fixpoint rfind_from (c : ascii) (i : Z) (best : Z) (l : list ascii) : Z :=
  match l with
  | [] => best
  | d :: r => rfind_from c (i + 1)%Z (if Ascii.eqb d c then i else best) r
  end.
Definition rfind (c : ascii) (s : string) : Z := rfind_from c 0%Z (-1)%Z (chars s).

(** [s[a:b]] for [0 <= a] and [0 <= b]. *)
Definition slice (a b : Z) (s : string) : string :=
  of_chars (firstn (Z.to_nat (b - a)) (skipn (Z.to_nat a) (chars s))).

Definition contains (c : ascii) (s : string) : bool :=
  existsb (Ascii.eqb c) (chars s).

Definition startswith (p s : string) : bool := String.prefix p s.
Definition endswith (p s : string) : bool :=
  String.prefix (of_chars (rev (chars p))) (of_chars (rev (chars s))).

Definition length (s : string) : nat := String.length s.

End Str.

(** ** JSON values, exceptions and results *)

Inductive json : Type :=
| JNull
| JBool (b : bool)
| JNum (x : float)
| JStr (s : string)
| JArr (xs : list json)
| JObj (kv : list (string * json)).

(** The exceptions the code can raise.  [ClientError] is botocore's, with
    the error code of the service's answer. *)
Inductive exn : Type :=
| FileNotFoundError (key : string)
| RuntimeError (msg : string)
| ClientError (code : string)
| ParamValidationError
| AttributeError
| TypeError
| KeyError
| IndexError
| ValueError
| ZeroDivisionError
| JSONDecodeError.

Inductive result (A : Type) : Type :=
| Ok (a : A)
| Raise (e : exn).
Arguments Ok {A} a.
Arguments Raise {A} e.

Definition rbind {A B} (r : result A) (k : A -> result B) : result B :=
  match r with
  | Ok a => k a
  | Raise e => Raise e
  end.

Declare Scope result_scope.
Delimit Scope result_scope with res.
Notation "x <-? r ;; k" := (rbind r (fun x => k))
  (at level 100, r at next level, right associativity) : result_scope.

Fixpoint rmap_list {A B} (f : A -> result B) (l : list A) : result (list B) :=
  match l with
  | [] => Ok []
  | a :: r =>
      match f a with
      | Raise e => Raise e
      | Ok b => match rmap_list f r with
                | Raise e => Raise e
                | Ok bs => Ok (b :: bs)
                end
      end
  end.

Module Py.

(** [d.get(k)] on a dict held as its items in insertion order. *)
Fixpoint lookup (k : string) (kv : list (string * json)) : option json :=
  match kv with
  | [] => None
  | (k', v) :: r => if String.eqb k k' then Some v else lookup k r
  end.

(** [d[k] = v]: replaces the value in place, or appends a new item. *)
Fixpoint store (k : string) (v : json) (kv : list (string * json))
  : list (string * json) :=
  match kv with
  | [] => [(k, v)]
  | (k', v') :: r =>
      if String.eqb k k' then (k', v) :: r else (k', v') :: store k v r
  end.

(** [bool(v)]. *)
Definition truthy (v : json) : bool :=
  match v with
  | JNull => false
  | JBool b => b
  | JNum x => negb (PrimFloat.eqb x 0%float)
  | JStr s => negb (Str.is_empty s)
  | JArr xs => match xs with [] => false | _ => true end
  | JObj kv => match kv with [] => false | _ => true end
  end.

(** [v.get(k, default)]: only a dict has [get]. *)
Definition get (v : json) (k : string) (default : json) : result json :=
  match v with
  | JObj kv => Ok (match lookup k kv with Some x => x | None => default end)
  | _ => Raise AttributeError
  end.

(** [iter(v)]: a list yields its items, a string its characters, a dict
    its keys; nothing else is iterable. *)
Definition iter (v : json) : result (list json) :=
  match v with
  | JArr xs => Ok xs
  | JStr s => Ok (map (fun c => JStr (String c EmptyString)) (Str.chars s))
  | JObj kv => Ok (map (fun p => JStr (fst p)) kv)
  | _ => Raise TypeError
  end.

(** [v[k]] for a string [k]. *)
Definition getitem_key (v : json) (k : string) : result json :=
  match v with
  | JObj kv => match lookup k kv with Some x => Ok x | None => Raise KeyError end
  | _ => Raise TypeError
  end.

(** [v[0]]. *)
Definition getitem_0 (v : json) : result json :=
  match v with
  | JArr [] => Raise IndexError
  | JArr (x :: _) => Ok x
  | JStr s => match s with
              | EmptyString => Raise IndexError
              | String c _ => Ok (JStr (String c EmptyString))
              end
  | JObj _ => Raise KeyError
  | _ => Raise TypeError
  end.

End Py.

(** ** The world outside the process *)

(** The three fixed system prompts of the repository.  A call to the
    text-generation service is recorded with the prompt's name and the texts
    interpolated into the user message. *)
Inductive prompt : Type := ProfilePrompt | SummaryPrompt | IcebreakerPrompt.

Inductive event : Type :=
| S3Head (bucket key : string)
| S3Get (bucket key : string)
| S3Put (bucket key body : string)
| Converse (p : prompt) (args : list string)
| InvokeModel (body : json).

Record world : Type := mkWorld {
  objects : gmap (string * string) string;
  now : Z;
  trace : list event
}.

Definition M (A : Type) : Type := world -> result A * world.

Definition ret {A} (a : A) : M A := fun w => (Ok a, w).
Definition raise {A} (e : exn) : M A := fun w => (Raise e, w).
Definition bind {A B} (m : M A) (k : A -> M B) : M B :=
  fun w => match m w with
           | (Ok a, w') => k a w'
           | (Raise e, w') => (Raise e, w')
           end.
Definition lift {A} (r : result A) : M A := fun w => (r, w).

(** [try: m except <the exceptions h accepts>: ...] *)
Definition try_except {A} (m : M A) (h : exn -> option (M A)) : M A :=
  fun w => match m w with
           | (Ok a, w') => (Ok a, w')
           | (Raise e, w') =>
               match h e with
               | Some k => k w'
               | None => (Raise e, w')
               end
           end.

Declare Scope m_scope.
Delimit Scope m_scope with M.
Notation "x <- m ;; k" := (bind m (fun x => k))
  (at level 100, m at next level, right associativity) : m_scope.
Notation "m ;;; k" := (bind m (fun _ => k))
  (at level 100, right associativity) : m_scope.

Definition log (e : event) (w : world) : world :=
  mkWorld (objects w) (now w) (trace w ++ [e]).

(** The libraries and hosted services the code calls, and its configuration
    (read from the process environment when the module is loaded). *)
Class Env : Type := {
  (** [json.loads]: [None] when it raises [JSONDecodeError] *)
  json_loads : string -> option json;
  (** [json.dumps(v, ensure_ascii=False)] and the same with [indent=2] *)
  json_dumps : json -> string;
  json_dumps_indent : json -> string;
  (** [base64.b64decode(s).decode("utf-8")]: [None] when either step raises *)
  b64decode_utf8 : string -> option string;
  (** [urllib.parse.unquote_plus] *)
  unquote_plus : string -> string;
  (** [str(v)] of a value that is not a string *)
  py_repr : json -> string;
  (** [float(s)] of a string: [None] when it raises [ValueError] *)
  py_float : string -> option float;
  (** [bedrock.converse], given the calls made so far *)
  converse : list event -> prompt -> list string -> result json;
  (** [_bedrock.invoke_model] followed by [resp["body"].read()] *)
  invoke_model : list event -> json -> result string;
  (** [engine.run_vpm] of vpm.py, which drives the hosted transcription job *)
  run_vpm : string -> string -> M json;
  (** the error with which [s3.put_object] is refused, if it is, given the
      calls made so far *)
  put_error : list event -> string -> string -> option exn;
  (** [str(e)] of an exception raised by the interpreter or by a library:
      the message it was given there *)
  exn_text : exn -> string;
  (** [PROFILE_BUCKET], [TITAN_EMBED_DIM] and [TITAN_EMBED_NORMALIZE] *)
  BUCKET : string;
  _DIM : option Z;
  _NORMALIZE : bool
}.

(** ** The object store (boto3's S3 client) and the clock *)

Module S3.

Definition head_object (bucket key : string) : M unit :=
  fun w =>
    let w' := log (S3Head bucket key) w in
    match objects w !! (bucket, key) with
    | Some _ => (Ok tt, w')
    | None => (Raise (ClientError "404"), w')
    end.

Definition get_object (bucket key : string) : M string :=
  fun w =>
    let w' := log (S3Get bucket key) w in
    match objects w !! (bucket, key) with
    | Some body => (Ok body, w')
    | None => (Raise (ClientError "NoSuchKey"), w')
    end.

(** A write, given the error with which the store refuses it, if it does:
    a write that is refused changes no object. *)
Definition put_object_with (refused : option exn) (bucket key body : string) : M unit :=
  fun w =>
    match refused with
    | Some e => (Raise e, log (S3Put bucket key body) w)
    | None =>
        (Ok tt, mkWorld (<[(bucket, key) := body]> (objects w)) (now w)
                        (trace w ++ [S3Put bucket key body]))
    end.

Definition put_object `{Env} (bucket key body : string) : M unit :=
  fun w => put_object_with (put_error (trace w) bucket key) bucket key body w.

End S3.

Module Time.
Definition time : M Z := fun w => (Ok (now w), w).
Definition sleep (seconds : Z) : M unit :=
  fun w => (Ok tt, mkWorld (objects w) (now w + seconds)%Z (trace w)).
End Time.

(** ** embeddings.py *)

Module Embeddings.

(** The filter of the three comprehensions: [s and str(s).strip()].  The
    text [str(s)] of a truthy value that is not a string is never blank. *)
Definition keeps (s : json) : bool :=
  Py.truthy s &&
  match s with
  | JStr t => negb (Str.is_empty (Str.strip t))
  | _ => true
  end.

(** The element of the comprehensions: [s.strip()]. *)
Definition strip_entry (s : json) : result string :=
  match s with
  | JStr t => Ok (Str.strip t)
  | _ => Raise AttributeError
  end.

(** [[s.strip() for s in profile.get(key, []) if s and str(s).strip()]] *)
Definition category (profile : json) (key : string) : result (list string) :=
  (v <-? Py.get profile key (JArr []) ;;
   items <-? Py.iter v ;;
   rmap_list strip_entry (List.filter keeps items))%res.

(** [if entries: parts.append(label + ", ".join(entries))] *)
Definition part (label : string) (entries : list string) : list string :=
  match entries with
  | [] => []
  | _ => [label +:+ Str.join ", " entries]
  end.

Definition _flatten_profile (profile : json) : result string :=
  (hobbies <-? category profile "hobbies" ;;
   traits <-? category profile "personality traits" ;;
   looking <-? category profile "traits looking for " ;;
   let parts := part "hobbies: " hobbies ++ part "personality: " traits
                ++ part "looking_for: " looking in
   Ok (match parts with [] => "" | _ => Str.join " | " parts end))%res.

Section WithEnv.
Context `{Env}.

Definition _titan_body_for_text (text : string) : json :=
  JObj ([("inputText", JStr text)]
        ++ match _DIM with
           | Some d => [("dimensions", JNum (PrimFloat.of_uint63 (Uint63.of_Z d)))]
           | None => []
           end
        ++ [("normalize", JBool _NORMALIZE)]).

(** [float(x)] *)
Definition to_float (x : json) : result float :=
  match x with
  | JNum f => Ok f
  | JBool b => Ok (if b then 1%float else 0%float)
  | JStr s => match py_float s with Some f => Ok f | None => Raise ValueError end
  | _ => Raise TypeError
  end.

(** [[float(x) for x in v]] *)
Definition floats (v : json) : result (list float) :=
  (items <-? Py.iter v ;; rmap_list to_float items)%res.

(** [key in payload] for a string [key]: a key of a dict, an item of a
    list, a substring of a string. *)
Definition contains_key (key : string) (payload : json) : result bool :=
  match payload with
  | JObj kv => Ok (match Py.lookup key kv with Some _ => true | None => false end)
  | JArr xs =>
      Ok (existsb (fun x => match x with JStr s => String.eqb s key | _ => false end) xs)
  | JStr s =>
      Ok (Str.is_empty key
          || existsb (fun i => String.prefix key (Str.slice (Z.of_nat i) (Z.of_nat (String.length s)) s))
                     (seq 0 (String.length s)))
  | _ => Raise TypeError
  end.

Definition _parse_titan_embedding (payload : json) : result (list float) :=
  (has1 <-? contains_key "embedding" payload ;;
   if has1 then (v <-? Py.getitem_key payload "embedding" ;; floats v)
   else
     has2 <-? contains_key "embeddings" payload ;;
     many <-? (if has2 then Py.getitem_key payload "embeddings" else Ok JNull) ;;
     if has2 && Py.truthy many
     then (v <-? Py.getitem_0 many ;; floats v)
     else Raise (RuntimeError "Unexpected Titan payload"))%res.

Definition embed_text (text : string) : M (list float) :=
  fun w =>
    let body := _titan_body_for_text text in
    let w' := log (InvokeModel body) w in
    match invoke_model (trace w) body with
    | Raise e => (Raise e, w')
    | Ok raw =>
        match json_loads raw with
        | None => (Raise JSONDecodeError, w')
        | Some payload => (_parse_titan_embedding payload, w')
        end
    end.

Definition sentinel : string := "hobbies: | personality: | looking_for: ".

Definition embed_profile (profile : json) : M (list float) :=
  (text <- lift (_flatten_profile profile) ;;
   embed_text (if Str.is_empty text then sentinel else text))%M.

(** [isinstance(v, list)] *)
Definition is_list (v : json) : bool :=
  match v with
  | JArr _ => true
  | _ => false
  end.

Definition _parse_titan_embeddings (payload : json) : result (list (list float)) :=
  (has <-? contains_key "embeddings" payload ;;
   many <-? (if has then Py.getitem_key payload "embeddings" else Ok JNull) ;;
   if has && is_list many
   then (vecs <-? Py.iter many ;; rmap_list floats vecs)
   else
     has1 <-? contains_key "embedding" payload ;;
     if has1
     then (v <-? Py.getitem_key payload "embedding" ;;
           single <-? floats v ;;
           Ok [single])
     else Raise (RuntimeError "Unexpected Titan payload (batch)"))%res.

Definition embed_texts (texts : list string) : M (list (list float)) :=
  fun w =>
    let body :=
      JObj ([("inputText", JArr (map JStr texts)); ("normalize", JBool _NORMALIZE)]
            ++ match _DIM with
               | Some d => [("dimensions", JNum (PrimFloat.of_uint63 (Uint63.of_Z d)))]
               | None => []
               end) in
    let w' := log (InvokeModel body) w in
    match invoke_model (trace w) body with
    | Raise e => (Raise e, w')
    | Ok raw =>
        match json_loads raw with
        | None => (Raise JSONDecodeError, w')
        | Some payload => (_parse_titan_embeddings payload, w')
        end
    end.

End WithEnv.

End Embeddings.

(** ** bedrock_profile.py *)

Module BedrockProfile.

Section WithEnv.
Context `{Env}.

(** [resp.get("output", {}).get("message", {}).get("content", []) or []] *)
Definition content_blocks (resp : json) : result json :=
  (o <-? Py.get resp "output" (JObj []) ;;
   m <-? Py.get o "message" (JObj []) ;;
   c <-? Py.get m "content" (JArr []) ;;
   Ok (if Py.truthy c then c else JArr []))%res.

(** [isinstance(b, dict) and "text" in b], with [b["text"]] *)
Definition text_of_block (b : json) : option json :=
  match b with
  | JObj kv => Py.lookup "text" kv
  | _ => None
  end.

Fixpoint filter_map {A B} (f : A -> option B) (l : list A) : list B :=
  match l with
  | [] => []
  | a :: r => match f a with
              | Some b => b :: filter_map f r
              | None => filter_map f r
              end
  end.

(** The parsing policy of [build_profile_from_transcript], on the text
    of the answer: the whole text, else its widest braced slice. *)
Definition parse_profile_text (text : string) : result json :=
  match json_loads text with
  | Some v => Ok v
  | None =>
      let start := Str.find "{" text in
      let end_ := Str.rfind "}" text in
      if (0 <=? start)%Z && (0 <=? end_)%Z
      then match json_loads (Str.slice start (end_ + 1) text) with
           | Some v => Ok v
           | None => Raise JSONDecodeError
           end
      else Raise JSONDecodeError
  end.

(** What [build_profile_from_transcript] does with the service's answer. *)
Definition profile_of_response (resp : json) : result json :=
  (blocks <-? content_blocks resp ;;
   items <-? Py.iter blocks ;;
   match filter_map text_of_block items with
   | [] => Raise (RuntimeError "Bedrock (Nova) response missing text content.")
   | JStr t :: _ => parse_profile_text (Str.strip t)
   | _ :: _ => Raise AttributeError
   end)%res.

Definition call_converse (p : prompt) (args : list string) : M json :=
  fun w => (converse (trace w) p args, log (Converse p args) w).

Definition build_profile_from_transcript (transcript_text : json) : M json :=
  (resp <- call_converse ProfilePrompt
             [match transcript_text with JStr s => s | v => py_repr v end] ;;
   lift (profile_of_response resp))%M.

End WithEnv.

End BedrockProfile.

(** ** bedrock_agent.py *)

Module BedrockAgent.

Definition dquote : ascii := "034"%char.
Definition newline : ascii := "010"%char.

(** The characters [s.strip("`...")] removes (the typographic quotes of the
    source lie above code point 255). *)
Definition is_quote (c : ascii) : bool :=
  Ascii.eqb c "`" || Ascii.eqb c "'" || Ascii.eqb c dquote.

Definition quote_marks : list string :=
  ["```"; String dquote EmptyString; "'"].

Definition _clean_summary (s : string) (max_len : nat) : string :=
  let s := Str.strip s in
  let s := if existsb (fun p => Str.startswith p s) quote_marks
              && existsb (fun p => Str.endswith p s) quote_marks
           then Str.strip_by is_quote s else s in
  let s := Str.join " " (Str.words s) in
  if (max_len <? Str.length s)%nat
  then Str.rstrip (Str.slice 0 (Z.of_nat max_len) s)
  else s.

(** The loop [for b in blocks: if isinstance(b, dict) and "text" in b:
    text += b["text"]]. *)
Fixpoint concat_text (text : string) (blocks : list json) : result string :=
  match blocks with
  | [] => Ok text
  | b :: r =>
      match BedrockProfile.text_of_block b with
      | None => concat_text text r
      | Some (JStr t) => concat_text (text +:+ t) r
      | Some _ => Raise TypeError
      end
  end.

Definition response_text (resp : json) : result string :=
  (blocks <-? BedrockProfile.content_blocks resp ;;
   items <-? Py.iter blocks ;;
   concat_text "" items)%res.

Definition first_isdigit (l : string) : bool :=
  match l with
  | EmptyString => false
  | String c _ => Str.isdigit c
  end.

(** The normalisation of [build_icebreakers_between_profiles]. *)
Definition questions_of_text (text : string) : list string :=
  let lines := List.filter (fun l => negb (Str.is_empty l))
                      (map Str.strip (Str.split newline text)) in
  let questions :=
    List.filter (fun l => first_isdigit l || Str.startswith "-" l || Str.contains "?" l)
           lines in
  let questions := if (List.length questions <? 2)%nat then firstn 2 lines
                   else questions in
  firstn 2 questions.

Section WithEnv.
Context `{Env}.

Definition build_sentence_from_profile (profile : json) : M string :=
  (resp <- BedrockProfile.call_converse SummaryPrompt [json_dumps_indent profile] ;;
   text <- lift (response_text resp) ;;
   ret (_clean_summary text 30))%M.

Definition build_icebreakers_between_profiles (profileA profileB : json)
  : M (list string) :=
  (resp <- BedrockProfile.call_converse IcebreakerPrompt
             [json_dumps_indent profileA; json_dumps_indent profileB] ;;
   text <- lift (response_text resp) ;;
   ret (questions_of_text text))%M.

End WithEnv.

End BedrockAgent.

(** ** Cosine similarity (the local function of [handler]) *)

Module Cosine.

Local Open Scope float_scope.

(** [sum(...)] of floats: additions from left to right, starting at zero
    (CPython 3.12 and later add a correction term for the rounding error,
    which is left out). *)
Definition fsum (l : list float) : float := fold_left PrimFloat.add l 0.

Definition dot (x y : list float) : float :=
  fsum (map (fun p => fst p * snd p) (combine x y)).

Definition sumsq (x : list float) : float := fsum (map (fun p => p * p) x).

(** [math.sqrt]: a domain error below zero. *)
Definition math_sqrt (x : float) : result float :=
  if x <? 0 then Raise ValueError else Ok (PrimFloat.sqrt x).

(** [a / b] on floats: Python raises where IEEE 754 would divide. *)
Definition truediv (a b : float) : result float :=
  if b =? 0 then Raise ZeroDivisionError else Ok (a / b).

Definition _cosine (x y : list float) : result float :=
  let dot := dot x y in
  (nx <-? math_sqrt (sumsq x) ;;
   ny <-? math_sqrt (sumsq y) ;;
   if (nx =? 0) || (ny =? 0) then Ok 0 else truediv dot (nx * ny))%res.

End Cosine.

(** ** Responses of the two entry points *)

(** The constant headers of [_json] are left out. *)
Record response : Type := mkResponse {
  statusCode : Z;
  (** the object that [json.dumps] turns into the body *)
  body : json
}.

(** [str(e)]: the argument the code gave the exception where the code
    raised it, the message of the interpreter or of the library otherwise. *)
Definition str_of_exn `{Env} (e : exn) : string :=
  match e with
  | FileNotFoundError key => key
  | RuntimeError msg => msg
  | _ => exn_text e
  end.

(** ** app_similarity.py *)

Module AppSimilarity.

Definition _json (obj : json) (code : Z) : response := mkResponse code obj.

Definition error_body (msg : string) : json := JObj [("error", JStr msg)].

(** [(name or "").strip().lower()] *)
Definition _sanitize (name : json) : result string :=
  if Py.truthy name
  then match name with
       | JStr s => Ok (Str.lower (Str.strip s))
       | _ => Raise AttributeError
       end
  else Ok "".

(** The items of a vector as numbers: anything else makes the arithmetic of
    [_cosine] raise [TypeError]. *)
Definition number (v : json) : result float :=
  match v with
  | JNum f => Ok f
  | JBool b => Ok (if b then 1%float else 0%float)
  | _ => Raise TypeError
  end.

Definition cosine_json (v1 v2 : json) : result float :=
  (xs <-? Py.iter v1 ;;
   ys <-? Py.iter v2 ;;
   x <-? rmap_list number xs ;;
   y <-? rmap_list number ys ;;
   Cosine._cosine x y)%res.

Section WithEnv.
Context `{Env}.

Definition _head_exists (key : string) : M bool :=
  try_except (S3.head_object BUCKET key ;;; ret true)%M
             (fun _ => Some (ret false)).

Definition _load_s3_json (key : string) : M json :=
  (found <- _head_exists key ;;
   if negb found then raise (FileNotFoundError key)
   else
     body <- S3.get_object BUCKET key ;;
     match json_loads body with
     | Some v => ret v
     | None => raise JSONDecodeError
     end)%M.

Definition _load_vector (profile_name : string) : M json :=
  _load_s3_json ("profiles/" +:+ profile_name +:+ "/vector.json").

Definition _load_profile (profile_name : string) : M json :=
  _load_s3_json ("profiles/" +:+ profile_name +:+ "/profile.json").

(** Step 6, for one profile: the profile and its sentence, or [None] for
    both when the profile's file is missing. *)
Definition load_and_summarise (name : string) : M (json * json) :=
  try_except
    (prof <- _load_profile name ;;
     sentence <- BedrockAgent.build_sentence_from_profile prof ;;
     ret (prof, JStr sentence))%M
    (fun e => match e with
              | FileNotFoundError _ => Some (ret (JNull, JNull))
              | _ => None
              end).

(** Step 7. *)
Definition icebreakers_for (prof_a prof_b : json) : M json :=
  if Py.truthy prof_a && Py.truthy prof_b
  then try_except
         (qs <- BedrockAgent.build_icebreakers_between_profiles prof_a prof_b ;;
          ret (JArr (map JStr qs)))%M
         (fun _ => Some (ret JNull))
  else ret JNull.

(** Step 1: the body, decoded when the event says it is base64. *)
Definition decode_body (event : json) : result json :=
  (body <-? Py.get event "body" (JStr "") ;;
   flag <-? Py.get event "isBase64Encoded" JNull ;;
   if Py.truthy flag
   then match body with
        | JStr s => match b64decode_utf8 s with
                    | Some t => Ok (JStr t)
                    | None => Raise ValueError
                    end
        | _ => Raise TypeError
        end
   else Ok body)%res.

(** Step 2: [json.loads(body)], [None] when it raises. *)
Definition parse_body (body : json) : option json :=
  match body with
  | JStr s => json_loads s
  | _ => None
  end.

(** Step 4: both vectors, or the 404 answer naming the missing file. *)
Definition load_vectors (a b : string) : M (response + json * json) :=
  try_except
    (v1 <- _load_vector a ;;
     v2 <- _load_vector b ;;
     ret (inr (v1, v2)))%M
    (fun e => match e with
              | FileNotFoundError miss =>
                  Some (ret (inl (_json (error_body ("Vector file not found: " +:+ miss)) 404)))
              | _ => None
              end).

Definition handler (event : json) : M response :=
  try_except
    (body <- lift (decode_body event) ;;
     match parse_body body with
     | None => ret (_json (error_body "Invalid JSON body") 400)
     | Some payload =>
         pa <- lift (Py.get payload "profileA" JNull) ;;
         a <- lift (_sanitize pa) ;;
         pb <- lift (Py.get payload "profileB" JNull) ;;
         b <- lift (_sanitize pb) ;;
         if Str.is_empty a || Str.is_empty b
         then ret (_json (error_body "profileA and profileB are required") 400)
         else
           vs <- load_vectors a b ;;
           match vs with
           | inl not_found => ret not_found
           | inr (v1, v2) =>
               score <- lift (cosine_json v1 v2) ;;
               sa <- load_and_summarise a ;;
               sb <- load_and_summarise b ;;
               icebreakers <- icebreakers_for (fst sa) (fst sb) ;;
               ret (_json (JObj [("ok", JBool true);
                                 ("similarity", JNum score);
                                 ("summaries", JObj (Py.store b (snd sb) [(a, snd sa)]));
                                 ("icebreakers", icebreakers)]) 200)
           end
     end)%M
    (fun e => Some (ret (_json (error_body (str_of_exn e)) 500))).

End WithEnv.

End AppSimilarity.

(** ** lambda_function.py *)

Module LambdaFunction.

(** [os.path.basename] *)
Definition basename (p : string) : string :=
  Str.slice (Str.rfind "/" p + 1) (Z.of_nat (String.length p)) p.

(** The first component of [os.path.splitext]: the text before the last
    dot, unless only dots come before it. *)
Definition splitext_root (p : string) : string :=
  let sep_index := Str.rfind "/" p in
  let dot_index := Str.rfind "." p in
  if (sep_index <? dot_index)%Z
     && existsb (fun c => negb (Ascii.eqb c "."))
                (Str.chars (Str.slice (sep_index + 1) dot_index p))
  then Str.slice 0 dot_index p
  else p.

Definition _base_name (key : string) : string := splitext_root (basename key).

Definition not_found_code (code : string) : bool :=
  String.eqb code "404" || String.eqb code "NotFound" || String.eqb code "NoSuchKey".

(** The loop of [wait_for_s3_key], run for at most [polls] rounds. *)
Fixpoint wait_loop (polls : nat) (bucket key : string) (start timeout interval : Z)
  : M bool :=
  fun w =>
    if (now w - start <? timeout)%Z
    then match polls with
         | O => (Ok false, w)
         | S n =>
             match S3.head_object bucket key w with
             | (Ok _, w1) => (Ok true, w1)
             | (Raise (ClientError code), w1) =>
                 if not_found_code code
                 then (Time.sleep interval ;;; wait_loop n bucket key start timeout interval)%M w1
                 else (Raise (ClientError code), w1)
             | (Raise e, w1) => (Raise e, w1)
             end
         end
    else (Ok false, w).

(** With a clock that moves only when the process sleeps, round [k] starts
    at [start + k * interval]: [timeout / interval + 1] rounds are never
    all used. *)
Definition wait_for_s3_key (bucket key : string) (timeout interval : Z) : M bool :=
  (start <- Time.time ;;
   wait_loop (Z.to_nat (timeout / interval) + 1) bucket key start timeout interval)%M.

(** The text of a transcript artifact: a direct [transcript] field, else
    the nested result of the speech-to-text service. *)
Definition transcript_of_payload (payload : json) : result json :=
  let nested :=
    (r <-? Py.getitem_key payload "results" ;;
     ts <-? Py.getitem_key r "transcripts" ;;
     t <-? Py.getitem_0 ts ;;
     Py.getitem_key t "transcript")%res in
  match payload with
  | JObj kv => match Py.lookup "transcript" kv with
               | Some t => Ok t
               | None => nested
               end
  | _ => nested
  end.

(** [stripped and stripped[0] not in "{["] *)
Definition plain_text (stripped : string) : bool :=
  match stripped with
  | EmptyString => false
  | String c _ => negb (Ascii.eqb c "{" || Ascii.eqb c "[")
  end.

(** A value passed as [Key=] must be a string. *)
Definition as_key (v : json) : result string :=
  match v with
  | JStr s => Ok s
  | _ => Raise ParamValidationError
  end.

Section WithEnv.
Context `{Env}.

Definition loads (text : string) : result json :=
  match json_loads text with
  | Some v => Ok v
  | None => Raise JSONDecodeError
  end.

(** Step 1 of [_load_transcript_text]. *)
Definition inline_transcript (vpm_result : json) : option string :=
  match vpm_result with
  | JObj kv =>
      match Py.lookup "transcript" kv with
      | Some (JStr t) => if Str.is_empty (Str.strip t) then None else Some t
      | _ => None
      end
  | _ => None
  end.

(** Step 2: [Some] text when the referenced file yields one, [None] to
    fall through. *)
Definition referenced_transcript (bucket : string) (vpm_result : json)
  : M (option json) :=
  match vpm_result with
  | JObj kv =>
      let tkey := match Py.lookup "transcriptKey" kv with
                  | Some v => v
                  | None => JNull
                  end in
      if Py.truthy tkey
      then
        (k <- lift (as_key tkey) ;;
         wait_for_s3_key bucket k 60 2 ;;;
         body <- S3.get_object bucket k ;;
         let stripped := Str.strip body in
         if plain_text stripped then ret (Some (JStr stripped))
         else
           try_except
             (payload <- lift (loads body) ;;
              t <- lift (transcript_of_payload payload) ;;
              ret (Some t))
             (fun _ => Some (ret None)))%M
      else ret None
  | _ => ret None
  end.

(** Steps 3 and 4. *)
Definition conventional_transcript (bucket base : string) : M json :=
  let txt_key := "transcripts/" +:+ base +:+ ".txt" in
  let json_key := "transcripts/" +:+ base +:+ ".json" in
  (found_txt <- wait_for_s3_key bucket txt_key 5 1 ;;
   found <- (if found_txt then ret true
             else wait_for_s3_key bucket json_key 120 3) ;;
   if negb found
   then raise (RuntimeError ("Transcript not found in time: s3://" +:+ bucket
                             +:+ "/" +:+ txt_key +:+ " or " +:+ json_key))
   else
     try_except
       (body <- S3.get_object bucket txt_key ;; ret (JStr body))
       (fun _ => Some
          (body <- S3.get_object bucket json_key ;;
           payload <- lift (loads body) ;;
           lift (transcript_of_payload payload))))%M.

Definition _load_transcript_text (bucket orig_key : string) (vpm_result : json)
  : M json :=
  let base := _base_name orig_key in
  match inline_transcript vpm_result with
  | Some t => ret (JStr t)
  | None =>
      (r <- referenced_transcript bucket vpm_result ;;
       match r with
       | Some t => ret t
       | None => conventional_transcript bucket base
       end)%M
  end.

Definition _save_profile_and_vector (bucket profile_name : string)
           (profile : json) (vector : list float) : M json :=
  let base_folder := "profiles/" +:+ profile_name +:+ "/" in
  let profile_key := base_folder +:+ "profile.json" in
  let vector_key := base_folder +:+ "vector.json" in
  (S3.put_object bucket profile_key (json_dumps_indent profile) ;;;
   S3.put_object bucket vector_key (json_dumps (JArr (map JNum vector))) ;;;
   ret (JObj [("profile_key", JStr profile_key); ("vector_key", JStr vector_key)]))%M.

(** [len(v)] *)
Definition len (v : json) : result nat :=
  match v with
  | JStr s => Ok (String.length s)
  | JArr xs => Ok (List.length xs)
  | JObj kv => Ok (List.length kv)
  | _ => Raise TypeError
  end.

(** [event["Records"][0]], its bucket name and its key. *)
Definition record_of_event (event : json) : result (json * json) :=
  (recs <-? Py.getitem_key event "Records" ;;
   rec <-? Py.getitem_0 recs ;;
   s3 <-? Py.getitem_key rec "s3" ;;
   bk <-? Py.getitem_key s3 "bucket" ;;
   bucket <-? Py.getitem_key bk "name" ;;
   s3' <-? Py.getitem_key rec "s3" ;;
   obj <-? Py.getitem_key s3' "object" ;;
   key <-? Py.getitem_key obj "key" ;;
   Ok (bucket, key))%res.

Definition lambda_handler (event : json) : M response :=
  (bk <- lift (record_of_event event) ;;
   key <- lift (match snd bk with
                | JStr k => Ok (unquote_plus k)
                | _ => Raise TypeError
                end) ;;
   let profile_name := _base_name key in
   bucket <- lift (match fst bk with
                   | JStr b => Ok b
                   | _ => Raise ParamValidationError
                   end) ;;
   vpm_result <- run_vpm bucket key ;;
   transcript_text <- _load_transcript_text bucket key vpm_result ;;
   lift (len transcript_text) ;;;
   profile <- BedrockProfile.build_profile_from_transcript transcript_text ;;
   vector <- Embeddings.embed_profile profile ;;
   saved <- _save_profile_and_vector bucket profile_name profile vector ;;
   ret (mkResponse 200
          (JObj [("ok", JBool true);
                 ("bucket", JStr bucket);
                 ("profile_name", JStr profile_name);
                 ("saved", saved)])))%M.

End WithEnv.

End LambdaFunction.

(** ** Scenarios

    Concrete libraries, services and bucket contents, used to run the code
    on explicit inputs.  [dumps] writes the JSON text Python writes for
    values built from strings that need no escape, lists, dicts, booleans,
    [None] and the numbers [0.0] and [1.0]; [loads] reads back the texts [dumps] writes for the
    values of [universe]. *)

Module Scenario.

Definition quoted (s : string) : string :=
  String BedrockAgent.dquote (s +:+ String BedrockAgent.dquote EmptyString).

Definition float_text (x : float) : string :=
  if PrimFloat.eqb x 1 then "1.0" else if PrimFloat.eqb x 0 then "0.0" else "NaN".

Fixpoint dumps (v : json) : string :=
  match v with
  | JNull => "null"
  | JBool b => if b then "true" else "false"
  | JNum x => float_text x
  | JStr s => quoted s
  | JArr xs => "[" +:+ Str.join ", " (map dumps xs) +:+ "]"
  | JObj kv =>
      "{" +:+ Str.join ", " (map (fun '(k, x) => quoted k +:+ ": " +:+ dumps x) kv) +:+ "}"
  end.

Definition nl : string := String BedrockAgent.newline EmptyString.

Fixpoint pad (depth : nat) : string :=
  match depth with
  | O => ""
  | S d => "  " +:+ pad d
  end.

Fixpoint dumps_indent (depth : nat) (v : json) : string :=
  match v with
  | JArr ((_ :: _) as xs) =>
      "[" +:+ nl
      +:+ Str.join ("," +:+ nl)
            (map (fun x => pad (S depth) +:+ dumps_indent (S depth) x) xs)
      +:+ nl +:+ pad depth +:+ "]"
  | JObj ((_ :: _) as kv) =>
      "{" +:+ nl
      +:+ Str.join ("," +:+ nl)
            (map (fun '(k, x) => pad (S depth) +:+ quoted k +:+ ": "
                                 +:+ dumps_indent (S depth) x) kv)
      +:+ nl +:+ pad depth +:+ "}"
  | _ => dumps v
  end.

Definition profile0 : json :=
  JObj [("hobbies", JArr [JStr "chess"]);
        ("personality traits", JArr [JStr "funny"]);
        ("traits looking for ", JArr [JStr "kind"])].

Definition vector0 : json := JArr [JNum 1; JNum 0].
Definition vector1 : json := JArr [JNum 0; JNum 1].

Definition request (a b : string) : json :=
  JObj [("profileA", JStr a); ("profileB", JStr b)].

Definition universe : list json :=
  [profile0; vector0; vector1; JObj [("embedding", vector0)];
   request "alice" "bob"; request "Alice" "Alice"; request "alice" " ";
   JObj [("profileA", JStr ""); ("profileB", JNum 1)];
   JObj [("results", JObj [("transcripts", JArr [JObj [("transcript", JStr "I like chess")]])])]].

Definition loads (text : string) : option json :=
  List.find (fun v => String.eqb (dumps v) text || String.eqb (dumps_indent 0 v) text)
            universe.

(** [unquote_plus] on a text without percent escapes. *)
Definition plus_to_space (s : string) : string :=
  Str.of_chars (map (fun c => if Ascii.eqb c "+" then " "%char else c) (Str.chars s)).

(** An answer of the text-generation service with one text block. *)
Definition answer (text : string) : json :=
  JObj [("output", JObj [("message", JObj [("content", JArr [JObj [("text", JStr text)]])])])].

(** A transcription run that succeeds: it leaves the text next to the
    recording and names that file. *)
Definition transcribe (text : string) (bucket key : string) : M json :=
  let out := "transcripts/" +:+ LambdaFunction._base_name key +:+ ".txt" in
  (S3.put_object_with None bucket out text ;;;
   ret (JObj [("ok", JBool true); ("transcriptKey", JStr out)]))%M.

Definition throttled : result json := Raise (ClientError "ThrottlingException").
Definition summary_ok : result json := Ok (answer "Chess-loving and funny").
Definition icebreakers_ok : result json :=
  Ok (answer ("1. Do you both play chess?" +:+ nl +:+ "2. Who makes you laugh?")).

(** An answer whose first line has 86 characters. *)
Definition long_question : string :=
  "1. If you could plan a weekend trip together, would it be somewhere sporty or musical?".
Definition icebreakers_long : result json :=
  Ok (answer (long_question +:+ nl +:+ "2. Who makes you laugh?")).

(** The messages of the exceptions that reach [str(e)] in the scenarios: a
    refusal of the text-generation service, in the format of botocore; a
    method missing on a float; a base64 text that is not padded.  No other
    exception reaches it there. *)
Definition message (e : exn) : string :=
  match e with
  | ClientError code =>
      "An error occurred (" +:+ code
      +:+ ") when calling the Converse operation: Too many requests, please wait before trying again."
  | AttributeError => "'float' object has no attribute 'strip'"
  | ValueError => "Incorrect padding"
  | _ => "error"
  end.

(** The environment of the scenarios, given what the text-generation
    service answers to the summary call and to the icebreaker call. *)
Definition env (summary icebreakers : result json) : Env := {|
  json_loads := loads;
  json_dumps := dumps;
  json_dumps_indent := dumps_indent 0;
  b64decode_utf8 := fun _ => None;
  unquote_plus := plus_to_space;
  py_repr := dumps;
  py_float := fun _ => None;
  converse := fun _ p _ =>
    match p with
    | ProfilePrompt => Ok (answer (dumps profile0))
    | SummaryPrompt => summary
    | IcebreakerPrompt => icebreakers
    end;
  invoke_model := fun _ _ => Ok (dumps (JObj [("embedding", vector0)]));
  run_vpm := transcribe "I like chess";
  put_error := fun _ _ _ => None;
  exn_text := message;
  BUCKET := "bond-audio-uploads";
  _DIM := None;
  _NORMALIZE := true
|}.

Definition bucket_of (items : list (string * string)) : world :=
  mkWorld (list_to_map (map (fun '(k, v) => (("bond-audio-uploads", k), v)) items)) 0 [].

(** Both users have a vector; only alice has a profile. *)
Definition stored : world :=
  bucket_of [("profiles/alice/vector.json", dumps vector0);
             ("profiles/bob/vector.json", dumps vector1);
             ("profiles/alice/profile.json", dumps_indent 0 profile0)].

(** Both users have a vector and a profile. *)
Definition stored_both : world :=
  bucket_of [("profiles/alice/vector.json", dumps vector0);
             ("profiles/bob/vector.json", dumps vector1);
             ("profiles/alice/profile.json", dumps_indent 0 profile0);
             ("profiles/bob/profile.json", dumps_indent 0 profile0)].

Definition api_event (payload : json) : json := JObj [("body", JStr (dumps payload))].

Definition upload_event (key : string) : json :=
  JObj [("Records",
         JArr [JObj [("s3", JObj [("bucket", JObj [("name", JStr "bond-audio-uploads")]);
                                  ("object", JObj [("key", JStr key)])])]])].

(** What a run leaves behind: its answer and the calls it made. *)
Definition outcome {A} (r : result A * world) : result A * list event :=
  (fst r, trace (snd r)).

End Scenario.

(** ** Vocabulary of the statements *)

Module Spec.

(** An entry that is a blank string: empty, or white space only. *)
Definition blank_entry (v : json) : bool :=
  match v with
  | JStr t => Str.is_empty (Str.strip t)
  | _ => false
  end.

(** A category that is absent, or a list of blank entries. *)
Definition blank_category (kv : list (string * json)) (key : string) : bool :=
  match Py.lookup key kv with
  | None => true
  | Some (JArr xs) => forallb blank_entry xs
  | Some _ => false
  end.

(** A profile whose three categories are all blank. *)
Definition blank_profile (profile : json) : bool :=
  match profile with
  | JObj kv =>
      blank_category kv "hobbies" && blank_category kv "personality traits"
      && blank_category kv "traits looking for "
  | _ => false
  end.

(** The norm [_cosine] computes for one vector. *)
Definition norm (x : list float) : float := PrimFloat.sqrt (Cosine.sumsq x).

Definition is_zero (f : float) : bool := PrimFloat.eqb f 0.

(** A vector whose computed norm is zero, and a vector of zeros. *)
Definition zero_norm (x : list float) : bool := is_zero (norm x).
Definition all_zero (x : list float) : bool := forallb is_zero x.

(** The sum, from left to right and starting at zero, of the terms at the
    indices below [n]. *)
Fixpoint sum_below (n : nat) (term : nat -> float) : float :=
  match n with
  | O => 0%float
  | S k => (sum_below k term + term k)%float
  end.

(** The component of a vector at an index. *)
Definition component (x : list float) (i : nat) : float := List.nth i x 0%float.

(** The dot product over the index pairs below [n], and the norm over the
    whole of a vector. *)
Definition dot_below (n : nat) (x y : list float) : float :=
  sum_below n (fun i => (component x i * component y i)%float).

Definition full_norm (x : list float) : float :=
  PrimFloat.sqrt (sum_below (List.length x) (fun i => (component x i * component x i)%float)).



(** The parsing policy of the extractor, in the words of the design: the
    whole text first; failing that, the text from the first opening brace
    to the last closing brace; failing that, an error. *)
Inductive extraction : Type :=
| Extracted (profile : json)
| ExtractionFailed.

Fixpoint first_index (c : ascii) (l : list ascii) : option nat :=
  match l with
  | [] => None
  | d :: r => if Ascii.eqb d c then Some 0
              else option_map S (first_index c r)
  end.

Definition last_index (c : ascii) (l : list ascii) : option nat :=
  option_map (fun i => List.length l - 1 - i) (first_index c (rev l)).

Definition braced (text : string) : option string :=
  match first_index "{" (Str.chars text), last_index "}" (Str.chars text) with
  | Some i, Some j =>
      Some (Str.of_chars (firstn (j + 1 - i) (skipn i (Str.chars text))))
  | _, _ => None
  end.

Definition extract (loads : string -> option json) (text : string) : extraction :=
  match loads text with
  | Some v => Extracted v
  | None =>
      match braced text with
      | Some inner => match loads inner with
                      | Some v => Extracted v
                      | None => ExtractionFailed
                      end
      | None => ExtractionFailed
      end
  end.

(** An answer of the text-generation service in the format of the Converse
    interface: its content blocks are at [output.message.content]. *)
Definition content_of (resp : json) : option (list json) :=
  match resp with
  | JObj r =>
      match Py.lookup "output" r with
      | Some (JObj o) =>
          match Py.lookup "message" o with
          | Some (JObj m) =>
              match Py.lookup "content" m with
              | Some (JArr blocks) => Some blocks
              | _ => None
              end
          | _ => None
          end
      | _ => None
      end
  | _ => None
  end.

(** The text of the first block that has one, if any block has. *)
Fixpoint first_text (blocks : list json) : option json :=
  match blocks with
  | [] => None
  | JObj kv :: rest =>
      match Py.lookup "text" kv with
      | Some t => Some t
      | None => first_text rest
      end
  | _ :: rest => first_text rest
  end.

(** The full text of an answer: the texts of its blocks, one after the
    other. *)
Fixpoint full_text (blocks : list json) : string :=
  match blocks with
  | [] => ""
  | JObj kv :: rest =>
      match Py.lookup "text" kv with
      | Some (JStr t) => t +:+ full_text rest
      | _ => full_text rest
      end
  | _ :: rest => full_text rest
  end.

(** A job result without a usable inline text: it is not a dict, or its
    [transcript] field is missing, is not a string, or is blank. *)
Definition no_inline_text (vpm_result : json) : bool :=
  match vpm_result with
  | JObj kv =>
      match Py.lookup "transcript" kv with
      | Some (JStr t) => Str.is_empty (Str.strip t)
      | _ => true
      end
  | _ => true
  end.

(** A job result that names no transcript file: not a dict, or a dict
    whose [transcriptKey] is missing or falsy. *)
Definition names_no_file (vpm_result : json) : bool :=
  match vpm_result with
  | JObj kv => match Py.lookup "transcriptKey" kv with
               | Some v => negb (Py.truthy v)
               | None => true
               end
  | _ => true
  end.

(** The artifact of the speech-to-text service: no [transcript] field of
    its own, and the text at [results.transcripts[0].transcript]. *)
Definition nested_transcript (payload : json) : option json :=
  match payload with
  | JObj kv =>
      match Py.lookup "transcript" kv, Py.lookup "results" kv with
      | None, Some (JObj results) =>
          match Py.lookup "transcripts" results with
          | Some (JArr (JObj first :: _)) => Py.lookup "transcript" first
          | _ => None
          end
      | _, _ => None
      end
  | _ => None
  end.

(** The non-empty stripped lines of a text. *)
Definition stripped_lines (text : string) : list string :=
  List.filter (fun l => negb (Str.is_empty l))
         (map Str.strip (Str.split BedrockAgent.newline text)).

End Spec.

(** Signs and magnitudes of binary64 values, read on [spec_float]. *)

Module SF.

Local Open Scope Z_scope.

(** Not below zero: a NaN and both zeros count. *)
Definition sf_nonneg (s : spec_float) : bool :=
  match s with
  | S754_finite true _ _ | S754_infinity true => false
  | _ => true
  end.

Definition sf_is_zero (s : spec_float) : bool :=
  match s with S754_zero _ => true | _ => false end.

(** The range of a square root: never a finite number below 2^-537. *)
Definition sf_root_range (s : spec_float) : bool :=
  match s with
  | S754_finite _ m e => -536 <=? Zdigits2 (Zpos m) + e
  | _ => true
  end.

End SF.

(** What a computation leaves of the world. *)

Module Frame.

Definition is_put (e : event) : bool :=
  match e with
  | S3Put _ _ _ => true
  | _ => false
  end.

(** From [w] to [w'] nothing was written: the store holds the same objects,
    and the trace has grown by events that are not writes. *)
Definition reads_only (w w' : world) : Prop :=
  objects w' = objects w
  /\ exists evs, trace w' = trace w ++ evs /\ forallb (fun e => negb (is_put e)) evs = true.

(** A computation that never writes. *)
Definition read_only {A} (m : M A) : Prop :=
  forall w, reads_only w (snd (m w)).

(** A computation all of whose results satisfy [Q]. *)
Definition returns {A} (m : M A) (Q : A -> Prop) : Prop :=
  forall w a w', m w = (Ok a, w') -> Q a.

(** A text in which every white-space character is a plain space. *)
Definition plain_spaces (s : string) : bool :=
  forallb (fun c => negb (Str.is_space c) || Ascii.eqb c " ") (Str.chars s).

(** What [drop_while] returns starts with a character that fails the test. *)
Definition head_fails (p : ascii -> bool) (l : list ascii) : Prop :=
  match l with
  | [] => True
  | c :: _ => p c = false
  end.

(** [strip] on the characters. *)
Definition strip_chars (p : ascii -> bool) (l : list ascii) : list ascii :=
  rev (Str.drop_while p (rev (Str.drop_while p l))).

(** A word: not empty, and free of white space. *)
Definition is_word (w : list ascii) : Prop :=
  w <> [] /\ forallb (fun c => negb (Str.is_space c)) w = true.

(** Steps 1 to 3 of [handler]: the two sanitized names a request carries,
    when its body decodes and parses and both fields sanitize. *)
Definition names_of_event `{Env} (event : json) : option (string * string) :=
  match AppSimilarity.decode_body event with
  | Ok body =>
      match AppSimilarity.parse_body body with
      | Some payload =>
          match Py.get payload "profileA" JNull, Py.get payload "profileB" JNull with
          | Ok pa, Ok pb =>
              match AppSimilarity._sanitize pa, AppSimilarity._sanitize pb with
              | Ok a, Ok b => Some (a, b)
              | _, _ => None
              end
          | _, _ => None
          end
      | None => None
      end
  | Raise _ => None
  end.

(** The keys under which the similarity service looks a name up. *)
Definition vector_key (name : string) : string := "profiles/" +:+ name +:+ "/vector.json".
Definition profile_key (name : string) : string := "profiles/" +:+ name +:+ "/profile.json".

(** The status of an answer, when there is one. *)
Definition statusCode_of (r : result response * world) : option Z :=
  match fst r with
  | Ok resp => Some (statusCode resp)
  | Raise _ => None
  end.


End Frame.

(** ** Further scenarios *)

Module Cases.

(** Both users have a vector; nobody has a profile. *)
Definition vectors_only : world :=
  Scenario.bucket_of [("profiles/alice/vector.json", Scenario.dumps Scenario.vector0);
                      ("profiles/bob/vector.json", Scenario.dumps Scenario.vector1)].

(** A request whose body is flagged as base64 and is not base64: three
    characters, so the padding is wrong. *)
Definition base64_event : json :=
  JObj [("body", JStr "abc"); ("isBase64Encoded", JBool true)].

(** A job result that carries no text and names no file. *)
Definition silent_result : json := JObj [("ok", JBool false)].

(** The environment of the scenarios, with a transcription run that leaves
    nothing in the bucket. *)
Definition silent_env : Env := {|
  json_loads := Scenario.loads;
  json_dumps := Scenario.dumps;
  json_dumps_indent := Scenario.dumps_indent 0;
  b64decode_utf8 := fun _ => None;
  unquote_plus := Scenario.plus_to_space;
  py_repr := Scenario.dumps;
  py_float := fun _ => None;
  converse := fun _ _ _ => Scenario.summary_ok;
  invoke_model := fun _ _ => Ok (Scenario.dumps (JObj [("embedding", Scenario.vector0)]));
  run_vpm := fun _ _ => ret silent_result;
  put_error := fun _ _ _ => None;
  exn_text := Scenario.message;
  BUCKET := "bond-audio-uploads";
  _DIM := None;
  _NORMALIZE := true
|}.

(** An answer of the text-generation service whose text, the profile of
    the scenarios, comes in two blocks. *)
Definition split_blocks : list json :=
  let text := Scenario.dumps Scenario.profile0 in
  [JObj [("text", JStr (Str.slice 0 40 text))];
   JObj [("text", JStr (Str.slice 40 (Z.of_nat (String.length text)) text))]].

Definition split_answer : json :=
  JObj [("output", JObj [("message", JObj [("content", JArr split_blocks)])])].

(** The environment of the scenarios, with that answer to every call. *)
Definition split_env : Env := {|
  json_loads := Scenario.loads;
  json_dumps := Scenario.dumps;
  json_dumps_indent := Scenario.dumps_indent 0;
  b64decode_utf8 := fun _ => None;
  unquote_plus := Scenario.plus_to_space;
  py_repr := Scenario.dumps;
  py_float := fun _ => None;
  converse := fun _ _ _ => Ok split_answer;
  invoke_model := fun _ _ => Ok (Scenario.dumps (JObj [("embedding", Scenario.vector0)]));
  run_vpm := Scenario.transcribe "I like chess";
  put_error := fun _ _ _ => None;
  exn_text := Scenario.message;
  BUCKET := "bond-audio-uploads";
  _DIM := None;
  _NORMALIZE := true
|}.

(** The environment of the scenarios, with a store that refuses the write
    of a vector file. *)
Definition half_written_env : Env := {|
  json_loads := Scenario.loads;
  json_dumps := Scenario.dumps;
  json_dumps_indent := Scenario.dumps_indent 0;
  b64decode_utf8 := fun _ => None;
  unquote_plus := Scenario.plus_to_space;
  py_repr := Scenario.dumps;
  py_float := fun _ => None;
  converse := fun _ _ _ => Ok (Scenario.answer (Scenario.dumps Scenario.profile0));
  invoke_model := fun _ _ => Ok (Scenario.dumps (JObj [("embedding", Scenario.vector0)]));
  run_vpm := Scenario.transcribe "I like chess";
  put_error := fun _ _ key =>
    if Str.endswith "/vector.json" key then Some (ClientError "SlowDown") else None;
  exn_text := Scenario.message;
  BUCKET := "bond-audio-uploads";
  _DIM := None;
  _NORMALIZE := true
|}.

(** A summary answer of 45 characters, with a doubled space. *)
Definition wordy_summary : result json :=
  Ok (Scenario.answer "Adventurous,  outgoing and very fond of chess").

End Cases.

(** * Properties *)

(** ** The embedding on small inputs *)

Example sanitize_trims_and_lowers :
  AppSimilarity._sanitize (JStr "  Alice ") = Ok "alice"
  /\ AppSimilarity._sanitize JNull = Ok ""
  /\ AppSimilarity._sanitize (JStr "   ") = Ok ""
  /\ AppSimilarity._sanitize (JNum 5) = Raise AttributeError.
Proof. repeat split. Qed.

Example base_name_of_key :
  LambdaFunction._base_name "uploads/My.Voice.mp3" = "My.Voice"
  /\ LambdaFunction._base_name "bob.mp3" = "bob"
  /\ LambdaFunction._base_name "uploads/.hidden" = ".hidden"
  /\ LambdaFunction._base_name "uploads/ Alice .mp3" = " Alice ".
Proof. repeat split. Qed.

Example flatten_of_full_profile :
  Embeddings._flatten_profile
    (JObj [("hobbies", JArr [JStr " chess "; JStr ""; JStr "music"]);
           ("personality traits", JArr [JStr "funny"]);
           ("traits looking for ", JArr [JStr "kind"; JNull])])
  = Ok "hobbies: chess, music | personality: funny | looking_for: kind"
  /\ Embeddings._flatten_profile (JObj [("hobbies", JArr [JNum 1])]) = Raise AttributeError
  /\ Embeddings._flatten_profile (JArr []) = Raise AttributeError.
Proof. repeat split. Qed.

Example clean_summary_strips_and_caps :
  BedrockAgent._clean_summary "  'Adventurous   & outgoing'  " 30 = "Adventurous & outgoing"
  /\ BedrockAgent._clean_summary "A label that is far longer than thirty characters" 30
     = "A label that is far longer tha".
Proof. repeat split. Qed.

Example questions_of_plain_lines :
  BedrockAgent.questions_of_text
    ("Here you go" +:+ Scenario.nl +:+ "  " +:+ Scenario.nl +:+ "Tea or coffee"
     +:+ Scenario.nl +:+ "Cats or dogs")
  = ["Here you go"; "Tea or coffee"]
  /\ BedrockAgent.questions_of_text "" = [].
Proof. repeat split. Qed.

Example similarity_of_orthogonal_vectors :
  Cosine._cosine [1%float; 0%float] [0%float; 1%float] = Ok 0%float
  /\ Cosine._cosine [3%float; 4%float] [3%float; 4%float] = Ok 1%float.
Proof. split; vm_compute; reflexivity. Qed.

(** ** Flattening and embedding a profile *)

Section Flatten.

Import Embeddings.

Lemma category_ext (p q : list (string * json)) (key : string) :
  Py.lookup key p = Py.lookup key q ->
  category (JObj p) key = category (JObj q) key.
Proof. intros E. unfold category, Py.get. now rewrite E. Qed.

Lemma lookup_store_ne (k k' : string) (v : json) (kv : list (string * json)) :
  k <> k' -> Py.lookup k' (Py.store k v kv) = Py.lookup k' kv.
Proof.
  intros Hne. induction kv as [|[k0 v0] kv IH]; simpl.
  - destruct (String.eqb k' k) eqn:E; [apply String.eqb_eq in E; congruence | reflexivity].
  - destruct (String.eqb k k0) eqn:E0; simpl.
    + apply String.eqb_eq in E0. subst k0.
      destruct (String.eqb k' k) eqn:E; [apply String.eqb_eq in E; congruence | reflexivity].
    + now rewrite IH.
Qed.

(** C10: the flattened text depends on a profile only through the entries
    stored under the exact keys "hobbies", "personality traits" and
    "traits looking for " (with its trailing space): two profiles that agree
    on these three keys flatten alike, whatever else they hold, so entries
    stored under "traits looking for" without the space do not contribute. *)
Theorem flatten_reads_three_keys (p q : list (string * json)) :
  Py.lookup "hobbies" p = Py.lookup "hobbies" q ->
  Py.lookup "personality traits" p = Py.lookup "personality traits" q ->
  Py.lookup "traits looking for " p = Py.lookup "traits looking for " q ->
  _flatten_profile (JObj p) = _flatten_profile (JObj q).
Proof.
  intros H1 H2 H3. unfold _flatten_profile.
  now rewrite (category_ext p q _ H1), (category_ext p q _ H2), (category_ext p q _ H3).
Qed.

(** Sought traits filed under the key without the trailing space are left
    out: adding them to a profile changes nothing, and here the profile
    flattens to its hobbies alone. *)
Lemma flatten_reads_three_keys_witness :
  let p := [("hobbies", JArr [JStr "chess"])] in
  let q := Py.store "traits looking for" (JArr [JStr "kind"]) p in
  _flatten_profile (JObj q) = _flatten_profile (JObj p)
  /\ _flatten_profile (JObj q) = Ok "hobbies: chess".
Proof.
  split; [apply flatten_reads_three_keys; reflexivity | reflexivity].
Defined.

Lemma flatten_ignores_other_keys (k : string) (v : json) (kv : list (string * json)) :
  k <> "hobbies" -> k <> "personality traits" -> k <> "traits looking for " ->
  _flatten_profile (JObj (Py.store k v kv)) = _flatten_profile (JObj kv).
Proof.
  intros H1 H2 H3. unfold _flatten_profile.
  now rewrite !(category_ext (Py.store k v kv) kv) by now apply lookup_store_ne.
Qed.

End Flatten.

Section EmbedProfile.

Import Embeddings.
Context `{Env}.

Lemma blank_entry_dropped (v : json) : Spec.blank_entry v = true -> keeps v = false.
Proof.
  destruct v; try discriminate.
  unfold Spec.blank_entry, keeps. intros ->. apply andb_false_r.
Qed.

Lemma blank_entries_dropped (xs : list json) :
  forallb Spec.blank_entry xs = true -> List.filter keeps xs = [].
Proof.
  induction xs as [|x xs IH]; [reflexivity|].
  cbn [forallb List.filter]. intros [Hx Hxs]%andb_prop.
  now rewrite (blank_entry_dropped x Hx), IH.
Qed.

Lemma blank_category_empty (kv : list (string * json)) (key : string) :
  Spec.blank_category kv key = true -> category (JObj kv) key = Ok [].
Proof.
  unfold Spec.blank_category, category, Py.get, rbind, Py.iter.
  destruct (Py.lookup key kv) as [[]|]; try discriminate; [|reflexivity].
  intros Hb. now rewrite (blank_entries_dropped _ Hb).
Qed.

Lemma blank_profile_flattens_to_empty (p : json) :
  Spec.blank_profile p = true -> _flatten_profile p = Ok "".
Proof.
  destruct p; try discriminate. unfold Spec.blank_profile.
  intros [[H1 H2]%andb_prop H3]%andb_prop. unfold _flatten_profile.
  now rewrite (blank_category_empty _ _ H1), (blank_category_empty _ _ H2),
    (blank_category_empty _ _ H3).
Qed.

Lemma embed_text_trace (text : string) (w : world) :
  trace (snd (embed_text text w)) = trace w ++ [InvokeModel (_titan_body_for_text text)].
Proof.
  unfold embed_text.
  destruct (invoke_model (trace w) (_titan_body_for_text text)) as [raw|e]; [|reflexivity].
  destruct (json_loads raw); reflexivity.
Qed.

(** C3, as the code has it: a profile whose three categories are empty or
    hold only blank entries flattens to the empty string; [embed_profile]
    then sends the fixed sentinel, which is not empty, to the embedding
    service in its place. *)
Theorem blank_profile_embeds_sentinel (p : json) (w : world) :
  Spec.blank_profile p = true ->
  _flatten_profile p = Ok ""
  /\ embed_profile p w = embed_text sentinel w
  /\ trace (snd (embed_profile p w))
     = trace w ++ [InvokeModel (_titan_body_for_text sentinel)]
  /\ sentinel <> "".
Proof.
  intros Hb. pose proof (blank_profile_flattens_to_empty p Hb) as Hf.
  assert (He : embed_profile p w = embed_text sentinel w).
  { unfold embed_profile, bind, lift. now rewrite Hf. }
  repeat split; [exact Hf | exact He | rewrite He; apply embed_text_trace | discriminate].
Qed.

(** Whatever the profile, the text [embed_profile] sends is never empty. *)
Lemma embed_profile_sends_nonempty_text (p : json) (w : world) (text : string) :
  In (InvokeModel (_titan_body_for_text text)) (trace (snd (embed_profile p w))) ->
  ~ In (InvokeModel (_titan_body_for_text text)) (trace w) ->
  text <> "".
Proof.
  unfold embed_profile, bind, lift.
  destruct (_flatten_profile p) as [t|e]; simpl; [|tauto].
  rewrite embed_text_trace. intros [Hin|[Heq|[]]]%in_app_or Hnot; [tauto|].
  unfold _titan_body_for_text in Heq.
  assert (text = if Str.is_empty t then sentinel else t) as -> by (now inversion Heq).
  destruct t; simpl; discriminate.
Qed.

End EmbedProfile.

(** The specification's wording fails on the empty profile: [_flatten_profile]
    itself returns the empty string, not the sentinel. *)
Lemma flatten_empty_profile_is_not_sentinel :
  let p := JObj [("hobbies", JArr []); ("personality traits", JArr [JStr " "]);
                 ("traits looking for ", JArr [])] in
  Spec.blank_profile p = true
  /\ Embeddings._flatten_profile p = Ok ""
  /\ Embeddings._flatten_profile p <> Ok Embeddings.sentinel.
Proof. repeat split. discriminate. Qed.

Lemma blank_profile_embeds_sentinel_witness :
  let p := JObj [("hobbies", JArr []); ("personality traits", JArr [JStr " "]);
                 ("traits looking for ", JArr [])] in
  let E := Scenario.env Scenario.summary_ok Scenario.icebreakers_ok in
  let w := Scenario.bucket_of [] in
  Embeddings._flatten_profile p = Ok ""
  /\ @Embeddings.embed_profile E p w = @Embeddings.embed_text E Embeddings.sentinel w
  /\ trace (snd (@Embeddings.embed_profile E p w))
     = trace w ++ [InvokeModel (@Embeddings._titan_body_for_text E Embeddings.sentinel)]
  /\ Embeddings.sentinel <> "".
Proof.
  intros p E w. apply (@blank_profile_embeds_sentinel E p w). reflexivity.
Defined.

(** ** Icebreakers *)

Section Icebreakers.

Import BedrockAgent.

Lemma in_firstn {A} (n : nat) (l : list A) (a : A) : In a (firstn n l) -> In a l.
Proof.
  intros Hin. rewrite <- (firstn_skipn n l). apply in_or_app. now left.
Qed.

Lemma questions_at_most_two (text : string) :
  (List.length (questions_of_text text) <= 2)%nat.
Proof. unfold questions_of_text. apply firstn_le_length. Qed.

Lemma questions_are_lines (text : string) (q : string) :
  In q (questions_of_text text) -> In q (Spec.stripped_lines text).
Proof.
  unfold questions_of_text, Spec.stripped_lines. intros Hin%in_firstn.
  destruct (_ <? 2)%nat.
  - now apply in_firstn in Hin.
  - now apply filter_In in Hin.
Qed.

Lemma stripped_line_not_empty (text : string) (q : string) :
  In q (Spec.stripped_lines text) -> q <> "".
Proof.
  unfold Spec.stripped_lines. intros [_ Hq]%filter_In ->. discriminate.
Qed.

Context `{Env}.

(** C8, as the code has it: when the icebreaker builder returns, it returns
    at most two strings, and each of them is a non-empty stripped line of
    the text the generation service answered; nothing bounds the length of
    such a line (the limit of 70 characters is only asked of the service in
    the prompt). *)
Theorem icebreakers_are_two_lines_at_most
        (profileA profileB : json) (w w' : world) (qs : list string) :
  build_icebreakers_between_profiles profileA profileB w = (Ok qs, w') ->
  exists resp text,
    converse (trace w) IcebreakerPrompt
             [json_dumps_indent profileA; json_dumps_indent profileB] = Ok resp
    /\ response_text resp = Ok text
    /\ (List.length qs <= 2)%nat
    /\ Forall (fun q => In q (Spec.stripped_lines text) /\ q <> "") qs.
Proof.
  unfold build_icebreakers_between_profiles, bind, BedrockProfile.call_converse, lift, ret.
  destruct (converse _ _ _) as [resp|e] eqn:Hresp; [|discriminate].
  destruct (response_text resp) as [text|e] eqn:Htext; [|discriminate].
  intros [= <- _]. exists resp, text. split; [reflexivity|]. split; [exact Htext|]. split.
  - apply questions_at_most_two.
  - apply List.Forall_forall. intros q Hq%questions_are_lines.
    split; [exact Hq | now apply stripped_line_not_empty in Hq].
Qed.

End Icebreakers.

Lemma icebreakers_are_two_lines_at_most_witness :
  let E := Scenario.env Scenario.summary_ok Scenario.icebreakers_ok in
  let w := Scenario.bucket_of [] in
  exists resp text,
    @converse E (trace w) IcebreakerPrompt
      [@json_dumps_indent E Scenario.profile0; @json_dumps_indent E Scenario.profile0] = Ok resp
    /\ BedrockAgent.response_text resp = Ok text
    /\ (List.length ["1. Do you both play chess?"; "2. Who makes you laugh?"] <= 2)%nat
    /\ Forall (fun q => In q (Spec.stripped_lines text) /\ q <> "")
              ["1. Do you both play chess?"; "2. Who makes you laugh?"].
Proof.
  intros E w.
  apply (@icebreakers_are_two_lines_at_most E Scenario.profile0 Scenario.profile0 w
           (log (Converse IcebreakerPrompt
                   [@json_dumps_indent E Scenario.profile0;
                    @json_dumps_indent E Scenario.profile0]) w)).
  reflexivity.
Defined.

(** The specification's wording fails when the service answers with a long line:
    the builder returns it whole, 86 characters here. *)
Lemma icebreaker_longer_than_70 :
  let E := Scenario.env Scenario.summary_ok Scenario.icebreakers_long in
  fst (@BedrockAgent.build_icebreakers_between_profiles E Scenario.profile0 Scenario.profile0
         (Scenario.bucket_of []))
  = Ok [Scenario.long_question; "2. Who makes you laugh?"]
  /\ String.length Scenario.long_question = 86%nat
  /\ ~ (String.length Scenario.long_question <= 70)%nat.
Proof. repeat split. simpl. lia. Qed.

(** ** Profile extraction *)

Section Extraction.

Import BedrockProfile.

Lemma first_index_lt (c : ascii) (l : list ascii) (k : nat) :
  Spec.first_index c l = Some k -> (k < List.length l)%nat.
Proof.
  revert k. induction l as [|d r IH]; simpl; [discriminate|].
  intros k. destruct (Ascii.eqb d c).
  - intros [= <-]. lia.
  - destruct (Spec.first_index c r) as [k'|]; simpl; [|discriminate].
    intros [= <-]. specialize (IH k' eq_refl). lia.
Qed.

Lemma first_index_app (c d : ascii) (l : list ascii) :
  Spec.first_index c (l ++ [d])
  = match Spec.first_index c l with
    | Some k => Some k
    | None => if Ascii.eqb d c then Some (List.length l) else None
    end.
Proof.
  induction l as [|a r IH]; simpl.
  - now destruct (Ascii.eqb d c).
  - destruct (Ascii.eqb a c); [reflexivity|]. rewrite IH.
    destruct (Spec.first_index c r); simpl; [reflexivity|].
    now destruct (Ascii.eqb d c).
Qed.

Lemma find_from_first_index (c : ascii) (l : list ascii) (i : Z) :
  Str.find_from c i l
  = match Spec.first_index c l with
    | Some k => (i + Z.of_nat k)%Z
    | None => (-1)%Z
    end.
Proof.
  revert i. induction l as [|d r IH]; intros i; simpl; [reflexivity|].
  destruct (Ascii.eqb d c); [lia|]. rewrite IH.
  destruct (Spec.first_index c r); simpl; lia.
Qed.

Lemma rfind_from_last_index (c : ascii) (l : list ascii) (i best : Z) :
  Str.rfind_from c i best l
  = match Spec.last_index c l with
    | Some j => (i + Z.of_nat j)%Z
    | None => best
    end.
Proof.
  revert i best. induction l as [|d r IH]; intros i best; [reflexivity|].
  cbn [Str.rfind_from]. rewrite IH. unfold Spec.last_index.
  cbn [rev]. rewrite first_index_app, length_rev. cbn [List.length].
  destruct (Spec.first_index c (rev r)) as [k|] eqn:Hk; cbn [option_map].
  - apply first_index_lt in Hk. rewrite length_rev in Hk. lia.
  - destruct (Ascii.eqb d c); cbn [option_map]; [|reflexivity].
    replace (S (List.length r) - 1 - List.length r)%nat with 0%nat by lia. lia.
Qed.

Context `{Env}.

(** The slicing of the source and the policy of the design are the same
    function of the text. *)
Lemma parse_profile_text_refines (text : string) :
  parse_profile_text text
  = match Spec.extract json_loads text with
    | Spec.Extracted v => Ok v
    | Spec.ExtractionFailed => Raise JSONDecodeError
    end.
Proof.
  unfold parse_profile_text, Spec.extract, Spec.braced.
  destruct (json_loads text); [reflexivity|].
  unfold Str.find, Str.rfind. rewrite find_from_first_index, rfind_from_last_index.
  destruct (Spec.first_index "{" (Str.chars text)) as [i|].
  - destruct (Spec.last_index "}" (Str.chars text)) as [j|].
    + replace ((0 <=? 0 + Z.of_nat i)%Z && (0 <=? 0 + Z.of_nat j)%Z) with true
        by (symmetry; apply andb_true_intro; split; apply Z.leb_le; lia).
      unfold Str.slice.
      replace (Z.to_nat (0 + Z.of_nat j + 1 - (0 + Z.of_nat i))) with (j + 1 - i)%nat by lia.
      replace (Z.to_nat (0 + Z.of_nat i)) with i by lia.
      now destruct (json_loads _).
    + now rewrite andb_false_r.
  - reflexivity.
Qed.

Lemma first_text_filter_map (blocks : list json) :
  Spec.first_text blocks
  = match filter_map text_of_block blocks with
    | [] => None
    | t :: _ => Some t
    end.
Proof.
  induction blocks as [|b rest IH]; [reflexivity|].
  destruct b as [| | | | |kv]; cbn [Spec.first_text filter_map text_of_block]; try exact IH.
  destruct (Py.lookup "text" kv); [reflexivity | exact IH].
Qed.

Lemma no_text_in_strings {A} (f : A -> string) (l : list A) :
  filter_map text_of_block (map (fun a => JStr (f a)) l) = [].
Proof. induction l as [|a l IH]; [reflexivity | exact IH]. Qed.

(** C5: on an answer in the format of the Converse interface, the extractor
    takes the text of the first block that has one, stripped, and not the
    full text of the answer.  It first parses the whole of that text, then,
    if that fails, the text from its first opening brace to its last closing
    brace, and raises the parse error when both fail (or when a brace is
    missing): it returns a profile only when one of the two parses produced
    it.  An answer without a text block raises, and so does every answer that
    is not in the format: no profile is ever made up. *)
Theorem extraction_follows_parsing_policy
        (transcript_text : json) (w : world) (resp : json) :
  converse (trace w) ProfilePrompt
           [match transcript_text with JStr s => s | v => py_repr v end] = Ok resp ->
  (forall blocks,
      Spec.content_of resp = Some blocks ->
      fst (build_profile_from_transcript transcript_text w)
      = match Spec.first_text blocks with
        | Some (JStr t) =>
            match Spec.extract json_loads (Str.strip t) with
            | Spec.Extracted v => Ok v
            | Spec.ExtractionFailed => Raise JSONDecodeError
            end
        | Some _ => Raise AttributeError
        | None => Raise (RuntimeError "Bedrock (Nova) response missing text content.")
        end)
  /\ (Spec.content_of resp = None ->
      exists e, fst (build_profile_from_transcript transcript_text w) = Raise e).
Proof.
  intros Hresp.
  assert (Hrun : fst (build_profile_from_transcript transcript_text w)
                 = profile_of_response resp).
  { unfold build_profile_from_transcript, bind, call_converse, lift.
    now rewrite Hresp. }
  rewrite Hrun. clear Hrun Hresp. unfold profile_of_response, content_blocks, Spec.content_of.
  destruct resp as [| | | | |r]; try solve [split; [discriminate | cbn; eauto]].
  cbn [Py.get rbind].
  destruct (Py.lookup "output" r) as [[| | | | |o]|];
    try solve [split; [discriminate | cbn; eauto]].
  cbn [Py.get rbind].
  destruct (Py.lookup "message" o) as [[| | | | |m]|];
    try solve [split; [discriminate | cbn; eauto]].
  cbn [Py.get rbind].
  destruct (Py.lookup "content" m) as [[|[]|f|[|c t]|[|b rest]|[|kv1 kvs]]|];
    try solve [split; [discriminate | cbn; eauto]].
  - split; [discriminate|]. intros _. cbn [Py.truthy]. destruct (negb _); cbn; eauto.
  - split; [discriminate|]. intros _.
    cbn [Py.truthy Str.is_empty negb Py.iter rbind]. rewrite no_text_in_strings. eauto.
  - split; [|discriminate]. intros blocks [= <-]. reflexivity.
  - split; [|discriminate]. intros blocks [= <-].
    cbn [Py.truthy Py.iter rbind]. rewrite first_text_filter_map.
    destruct (filter_map text_of_block (b :: rest)) as [|[] items]; try reflexivity.
    apply parse_profile_text_refines.
  - split; [discriminate|]. intros _.
    cbn [Py.truthy Py.iter rbind]. rewrite no_text_in_strings. eauto.
Qed.

End Extraction.

Lemma extraction_follows_parsing_policy_witness :
  let E := Scenario.env Scenario.summary_ok Scenario.icebreakers_ok in
  let w := Scenario.bucket_of [] in
  let answer := Scenario.dumps Scenario.profile0 in
  (forall blocks,
      Spec.content_of (Scenario.answer answer) = Some blocks ->
      fst (@BedrockProfile.build_profile_from_transcript E (JStr "I like chess") w)
      = match Spec.first_text blocks with
        | Some (JStr t) =>
            match Spec.extract (@json_loads E) (Str.strip t) with
            | Spec.Extracted v => Ok v
            | Spec.ExtractionFailed => Raise JSONDecodeError
            end
        | Some _ => Raise AttributeError
        | None => Raise (RuntimeError "Bedrock (Nova) response missing text content.")
        end)
  /\ (Spec.content_of (Scenario.answer answer) = None ->
      exists e, fst (@BedrockProfile.build_profile_from_transcript E (JStr "I like chess") w)
                = Raise e).
Proof.
  intros E w answer.
  apply (@extraction_follows_parsing_policy E (JStr "I like chess") w
           (Scenario.answer answer)).
  reflexivity.
Defined.

(** The specification's wording fails on an answer whose text comes in two blocks:
    the full text of the answer is the profile and parses, but the extractor
    reads the first block only, finds no closing brace in it and raises. *)
Lemma answer_in_two_blocks_is_not_parsed :
  let E := Cases.split_env in
  let run := @BedrockProfile.build_profile_from_transcript E (JStr "I like chess")
               (Scenario.bucket_of []) in
  Spec.content_of Cases.split_answer = Some Cases.split_blocks
  /\ Spec.extract (@json_loads E) (Spec.full_text Cases.split_blocks)
     = Spec.Extracted Scenario.profile0
  /\ fst run = Raise JSONDecodeError
  /\ fst run <> Ok Scenario.profile0.
Proof. repeat split; try discriminate; vm_compute; reflexivity. Qed.

(** ** The similarity request *)

Section SimilarityRequest.

Import AppSimilarity.
Context `{Env}.



End SimilarityRequest.



(** C1, on the code: alice and bob both have a stored vector and alice has a
    stored profile.  When the text-generation service answers the summary
    call, the request succeeds with similarity 0.0; when the same call raises
    (here a throttling error), the same request is answered 500 and carries
    no similarity: the handler's [except FileNotFoundError] does not catch
    it, unlike the [except Exception] around the icebreaker call. *)
Theorem summary_failure_fails_the_request :
  let event := Scenario.api_event (Scenario.request "alice" "bob") in
  fst (@AppSimilarity.handler (Scenario.env Scenario.summary_ok Scenario.icebreakers_ok)
         event Scenario.stored)
  = Ok (mkResponse 200
          (JObj [("ok", JBool true);
                 ("similarity", JNum 0);
                 ("summaries", JObj [("alice", JStr "Chess-loving and funny"); ("bob", JNull)]);
                 ("icebreakers", JNull)]))
  /\ fst (@AppSimilarity.handler (Scenario.env Scenario.throttled Scenario.icebreakers_ok)
            event Scenario.stored)
     = Ok (mkResponse 500
             (JObj [("error",
                     JStr ("An error occurred (ThrottlingException) when calling the "
                           +:+ "Converse operation: Too many requests, please wait "
                           +:+ "before trying again."))])).
Proof. split; vm_compute; reflexivity. Qed.

(** The sibling path: a failing icebreaker call is caught and the field is
    null, and a missing profile gives a null summary; both requests succeed. *)
Example icebreaker_failure_degrades_to_null :
  fst (@AppSimilarity.handler (Scenario.env Scenario.summary_ok Scenario.throttled)
         (Scenario.api_event (Scenario.request "alice" "bob")) Scenario.stored_both)
  = Ok (mkResponse 200
          (JObj [("ok", JBool true);
                 ("similarity", JNum 0);
                 ("summaries", JObj [("alice", JStr "Chess-loving and funny");
                                     ("bob", JStr "Chess-loving and funny")]);
                 ("icebreakers", JNull)])).
Proof. vm_compute. reflexivity. Qed.

(** ** The ingestion run *)

Section Ingestion.

Import LambdaFunction.
Context `{Env}.

Lemma append_inv_head (s a b : string) : s +:+ a = s +:+ b -> a = b.
Proof. induction s as [|c s IH]; simpl; [tauto | intros [= Heq]; auto]. Qed.

(** A run of [_save_profile_and_vector] that returns has left both files in
    the bucket, under the one folder of the name it was given. *)
Lemma save_stores_both (bucket name : string) (profile : json) (vector : list float)
      (w w' : world) (saved : json) :
  _save_profile_and_vector bucket name profile vector w = (Ok saved, w') ->
  let folder := "profiles/" +:+ name +:+ "/" in
  saved = JObj [("profile_key", JStr (folder +:+ "profile.json"));
                ("vector_key", JStr (folder +:+ "vector.json"))]
  /\ objects w' !! (bucket, folder +:+ "profile.json") = Some (json_dumps_indent profile)
  /\ objects w' !! (bucket, folder +:+ "vector.json")
     = Some (json_dumps (JArr (map JNum vector))).
Proof.
  unfold _save_profile_and_vector, bind, S3.put_object, S3.put_object_with, ret.
  destruct (put_error (trace w) _ _); [discriminate|]. cbn [trace].
  destruct (put_error _ _ _); [discriminate|].
  intros [= <- <-]. split; [reflexivity|]. cbn [objects]. split.
  - rewrite lookup_insert_ne; [apply lookup_insert_eq|].
    intros [= Heq%append_inv_head]. discriminate.
  - apply lookup_insert_eq.
Qed.

(** A run of [lambda_handler] that succeeds has stored the two files under
    the base name of the decoded key, as that name stands. *)
Lemma lambda_handler_stores_under_base_name (event : json) (w w' : world) (resp : response) :
  lambda_handler event w = (Ok resp, w') ->
  exists bucket key,
    record_of_event event = Ok (JStr bucket, JStr key)
    /\ let name := _base_name (unquote_plus key) in
       let folder := "profiles/" +:+ name +:+ "/" in
       body resp
       = JObj [("ok", JBool true);
               ("bucket", JStr bucket);
               ("profile_name", JStr name);
               ("saved",
                JObj [("profile_key", JStr (folder +:+ "profile.json"));
                      ("vector_key", JStr (folder +:+ "vector.json"))])]
       /\ is_Some (objects w' !! (bucket, folder +:+ "profile.json"))
       /\ is_Some (objects w' !! (bucket, folder +:+ "vector.json")).
Proof.
  unfold lambda_handler, bind, lift, ret.
  destruct (record_of_event event) as [[vb vk]|e]; [|discriminate].
  cbn [fst snd]. destruct vk as [| | |key| |]; try discriminate.
  destruct vb as [| | |bucket| |]; try discriminate.
  destruct (run_vpm bucket (unquote_plus key) w) as [[vpm_result|e] w1]; [|discriminate].
  destruct (_load_transcript_text _ _ vpm_result w1) as [[text|e] w2]; [|discriminate].
  destruct (len text); [|discriminate].
  destruct (BedrockProfile.build_profile_from_transcript text w2) as [[profile|e] w3];
    [|discriminate].
  destruct (Embeddings.embed_profile profile w3) as [[vector|e] w4]; [|discriminate].
  destruct (_save_profile_and_vector _ _ profile vector w4) as [[saved|e] w5] eqn:Hsave;
    [|discriminate].
  destruct (save_stores_both _ _ _ _ _ _ _ Hsave) as [-> [Hp Hv]].
  cbn [fst snd] in *. intros [= <- <-].
  exists bucket, key. split; [reflexivity|]. cbn zeta.
  split; [reflexivity|]. split; eexists; eassumption.
Qed.

End Ingestion.

(** C2, on the code: the recording "uploads/Alice.mp3" is ingested without
    error and its profile and vector are both stored under "profiles/Alice/";
    the similarity service, asked for "Alice", sanitizes the name to "alice",
    looks for "profiles/alice/vector.json" and answers 404. *)
Theorem uppercase_recording_is_stored_out_of_reach :
  let E := Scenario.env Scenario.summary_ok Scenario.icebreakers_ok in
  let run := @LambdaFunction.lambda_handler E (Scenario.upload_event "uploads/Alice.mp3")
               (Scenario.bucket_of []) in
  fst run
  = Ok (mkResponse 200
          (JObj [("ok", JBool true);
                 ("bucket", JStr "bond-audio-uploads");
                 ("profile_name", JStr "Alice");
                 ("saved", JObj [("profile_key", JStr "profiles/Alice/profile.json");
                                 ("vector_key", JStr "profiles/Alice/vector.json")])]))
  /\ AppSimilarity._sanitize (JStr "Alice") = Ok "alice"
  /\ fst (@AppSimilarity.handler E (Scenario.api_event (Scenario.request "Alice" "Alice"))
            (snd run))
     = Ok (mkResponse 404
             (JObj [("error", JStr "Vector file not found: profiles/alice/vector.json")])).
Proof. repeat split; vm_compute; reflexivity. Qed.

(** ** Transcript resolution *)

Section TranscriptResolution.

Import LambdaFunction.

Lemma wait_loop_missing (polls : nat) (bucket key : string) (start timeout interval : Z)
      (w : world) :
  objects w !! (bucket, key) = None ->
  exists w', wait_loop polls bucket key start timeout interval w = (Ok false, w')
             /\ objects w' = objects w.
Proof.
  revert w. induction polls as [|n IH]; intros w Hnone; cbn [wait_loop].
  - destruct (_ <? _)%Z; eauto.
  - destruct (_ <? _)%Z; [|eauto].
    unfold S3.head_object. rewrite Hnone. cbn [not_found_code String.eqb orb].
    unfold bind, Time.sleep.
    match goal with |- context [wait_loop n _ _ _ _ _ ?w1] =>
      destruct (IH w1) as [w' [Hrun Hobj]]; [exact Hnone|]
    end.
    exists w'. split; [exact Hrun | exact Hobj].
Qed.

Lemma wait_missing (bucket key : string) (timeout interval : Z) (w : world) :
  objects w !! (bucket, key) = None ->
  exists w', wait_for_s3_key bucket key timeout interval w = (Ok false, w')
             /\ objects w' = objects w.
Proof.
  intros Hnone. unfold wait_for_s3_key, bind, Time.time.
  now apply wait_loop_missing.
Qed.

Lemma wait_present (bucket key body : string) (timeout interval : Z) (w : world) :
  objects w !! (bucket, key) = Some body -> (0 < timeout)%Z ->
  wait_for_s3_key bucket key timeout interval w = (Ok true, log (S3Head bucket key) w).
Proof.
  intros Hsome Hpos. unfold wait_for_s3_key, bind, Time.time.
  rewrite Nat.add_1_r. cbn [wait_loop].
  replace (now w - now w <? timeout)%Z with true by (symmetry; apply Z.ltb_lt; lia).
  unfold S3.head_object. now rewrite Hsome.
Qed.

(** More rounds than [wait_for_s3_key] allows change nothing: by the time
    they are used up the time is out. *)
Lemma wait_loop_enough (n extra : nat) (bucket key : string) (start timeout interval : Z)
      (w : world) :
  (0 < interval)%Z ->
  (timeout <= now w - start + Z.of_nat n * interval)%Z ->
  wait_loop (n + extra) bucket key start timeout interval w
  = wait_loop n bucket key start timeout interval w.
Proof.
  intros Hpos. revert w. induction n as [|n IH]; intros w Hfuel.
  - cbn [Nat.add]. destruct extra; cbn [wait_loop];
      replace (now w - start <? timeout)%Z with false by (symmetry; apply Z.ltb_ge; lia);
      reflexivity.
  - cbn [Nat.add wait_loop]. destruct (_ <? _)%Z; [|reflexivity].
    destruct (S3.head_object bucket key w) as [[|[]] w1] eqn:Hhead; try reflexivity.
    destruct (not_found_code code); [|reflexivity].
    unfold bind, Time.sleep. apply IH. cbn [now].
    assert (now w1 = now w) as ->.
    { unfold S3.head_object in Hhead. destruct (objects w !! _); now inversion Hhead. }
    lia.
Qed.

Lemma wait_for_s3_key_rounds (extra : nat) (bucket key : string) (timeout interval : Z)
      (w : world) :
  (0 < interval)%Z -> (0 <= timeout)%Z ->
  wait_loop (Z.to_nat (timeout / interval) + 1 + extra) bucket key (now w) timeout interval w
  = wait_for_s3_key bucket key timeout interval w.
Proof.
  intros Hpos Hnonneg. unfold wait_for_s3_key, bind, Time.time.
  apply wait_loop_enough; [exact Hpos|].
  pose proof (Z.div_pos timeout interval Hnonneg Hpos).
  pose proof (Z.mul_succ_div_gt timeout interval Hpos). nia.
Qed.

Lemma transcript_of_nested (payload t : json) :
  Spec.nested_transcript payload = Some t -> transcript_of_payload payload = Ok t.
Proof.
  unfold Spec.nested_transcript, transcript_of_payload.
  destruct payload as [| | | | |kv]; try discriminate.
  destruct (Py.lookup "transcript" kv); [discriminate|].
  cbn [Py.getitem_key rbind].
  destruct (Py.lookup "results" kv) as [[| | | | |results]|]; try discriminate.
  cbn [Py.getitem_key rbind].
  destruct (Py.lookup "transcripts" results) as [[| | | |[|[| | | | |first] rest]|]|];
    try discriminate.
  cbn [Py.getitem_0 Py.getitem_key rbind]. now intros ->.
Qed.

Context `{Env}.

Lemma no_inline_text_passes (vpm_result : json) :
  Spec.no_inline_text vpm_result = true -> inline_transcript vpm_result = None.
Proof.
  unfold Spec.no_inline_text, inline_transcript.
  destruct vpm_result as [| | | | |kv]; try reflexivity.
  destruct (Py.lookup "transcript" kv) as [[| | |t| |]|]; try reflexivity.
  now intros ->.
Qed.

(** C4, as the code has it.  First: an inline transcript that is not blank
    (not empty once stripped) is returned as it is, and the world is left
    untouched: no transcript key and no conventional key is looked up.
    Second: when the job result carries no usable inline text and names no
    file, the plain-text file of the recording is missing and its JSON file
    holds the artifact of the speech-to-text service, the text returned is
    the one at [results.transcripts[0].transcript].  Third: when the job
    result carries no usable inline text and names a file that exists and
    holds that artifact, the text returned is again the nested one. *)
Theorem transcript_resolution_order
        (bucket orig_key : string) (vpm_result : json) (w : world) :
  (forall kv t,
      vpm_result = JObj kv ->
      Py.lookup "transcript" kv = Some (JStr t) ->
      Str.strip t <> "" ->
      _load_transcript_text bucket orig_key vpm_result w = (Ok (JStr t), w))
  /\ (forall body payload t,
         Spec.no_inline_text vpm_result = true ->
         Spec.names_no_file vpm_result = true ->
         objects w !! (bucket, "transcripts/" +:+ _base_name orig_key +:+ ".txt") = None ->
         objects w !! (bucket, "transcripts/" +:+ _base_name orig_key +:+ ".json")
         = Some body ->
         json_loads body = Some payload ->
         Spec.nested_transcript payload = Some t ->
         fst (_load_transcript_text bucket orig_key vpm_result w) = Ok t)
  /\ (forall kv key body payload t,
         vpm_result = JObj kv ->
         Spec.no_inline_text vpm_result = true ->
         Py.lookup "transcriptKey" kv = Some (JStr key) ->
         key <> "" ->
         objects w !! (bucket, key) = Some body ->
         Str.startswith "{" (Str.strip body) = true ->
         json_loads body = Some payload ->
         Spec.nested_transcript payload = Some t ->
         fst (_load_transcript_text bucket orig_key vpm_result w) = Ok t).
Proof.
  split; [|split].
  - intros kv t -> Hlook Hstrip. unfold _load_transcript_text, inline_transcript.
    rewrite Hlook. destruct (Str.strip t) eqn:Hs; [contradiction|]. reflexivity.
  - intros body payload t Hinline%no_inline_text_passes Hnofile Htxt Hjson Hloads Hnested.
    unfold _load_transcript_text. rewrite Hinline.
    assert (Href : referenced_transcript bucket vpm_result w = (Ok None, w)).
    { unfold referenced_transcript, Spec.names_no_file in *.
      destruct vpm_result as [| | | | |kv]; try reflexivity.
      destruct (Py.lookup "transcriptKey" kv) as [v|]; [|reflexivity].
      apply negb_true_iff in Hnofile. now rewrite Hnofile. }
    unfold bind at 1. rewrite Href. unfold conventional_transcript.
    destruct (wait_missing bucket _ 5 1 w Htxt) as [w1 [Hwait1 Hobj1]].
    unfold bind at 1. rewrite Hwait1.
    assert (Hjson1 : objects w1 !! (bucket, "transcripts/" +:+ _base_name orig_key +:+ ".json")
                     = Some body) by now rewrite Hobj1.
    unfold bind at 1. rewrite (wait_present _ _ _ 120 3 w1 Hjson1) by lia.
    cbn [negb]. unfold try_except, bind, S3.get_object, log, lift, ret. cbn [objects].
    rewrite Hobj1, Htxt. cbn [objects]. rewrite Hjson.
    unfold loads. rewrite Hloads, (transcript_of_nested _ _ Hnested). reflexivity.
  - intros kv key body payload t -> Hinline%no_inline_text_passes Hkey Hne Hobj Hbrace
           Hloads Hnested.
    unfold _load_transcript_text. rewrite Hinline. unfold bind at 1.
    unfold referenced_transcript. rewrite Hkey.
    destruct key as [|c key]; [congruence|]. cbn [Py.truthy Str.is_empty negb as_key].
    unfold bind at 1, lift at 1. unfold bind at 1.
    rewrite (wait_present bucket _ body 60 2 w Hobj) by lia.
    unfold bind at 1, S3.get_object. cbn [objects log]. rewrite Hobj.
    assert (Hplain : plain_text (Str.strip body) = false).
    { unfold Str.startswith in Hbrace. destruct (Str.strip body) as [|d rest]; [reflexivity|].
      cbn [String.prefix] in Hbrace. cbn [plain_text].
      destruct (Ascii.ascii_dec "{"%char d) as [<-|]; [reflexivity | discriminate]. }
    rewrite Hplain. unfold try_except, bind, lift, ret, loads.
    rewrite Hloads, (transcript_of_nested _ _ Hnested). reflexivity.
Qed.

End TranscriptResolution.

Lemma transcript_resolution_order_witness :
  let E := Scenario.env Scenario.summary_ok Scenario.icebreakers_ok in
  let artifact :=
    JObj [("results", JObj [("transcripts", JArr [JObj [("transcript", JStr "I like chess")]])])] in
  let w := Scenario.bucket_of [("transcripts/a.json", Scenario.dumps artifact)] in
  @LambdaFunction._load_transcript_text E "bond-audio-uploads" "uploads/a.mp3"
    (JObj [("transcript", JStr "I like chess"); ("transcriptKey", JStr "transcripts/a.txt")]) w
  = (Ok (JStr "I like chess"), w)
  /\ fst (@LambdaFunction._load_transcript_text E "bond-audio-uploads" "uploads/a.mp3"
            (JObj [("ok", JBool false)]) w)
     = Ok (JStr "I like chess")
  /\ fst (@LambdaFunction._load_transcript_text E "bond-audio-uploads" "uploads/a.mp3"
            (JObj [("ok", JBool true); ("transcriptKey", JStr "transcripts/a.json")]) w)
     = Ok (JStr "I like chess").
Proof.
  intros E artifact w. split; [|split].
  - apply (proj1 (@transcript_resolution_order E "bond-audio-uploads" "uploads/a.mp3" _ w)
             [("transcript", JStr "I like chess"); ("transcriptKey", JStr "transcripts/a.txt")]);
      [reflexivity | reflexivity | discriminate].
  - apply (proj1 (proj2 (@transcript_resolution_order E "bond-audio-uploads" "uploads/a.mp3"
                           _ w))
             (Scenario.dumps artifact) artifact); reflexivity.
  - apply (proj2 (proj2 (@transcript_resolution_order E "bond-audio-uploads" "uploads/a.mp3"
                           _ w))
             [("ok", JBool true); ("transcriptKey", JStr "transcripts/a.json")]
             "transcripts/a.json" (Scenario.dumps artifact) artifact);
      [reflexivity | reflexivity | reflexivity | discriminate | reflexivity..].
Defined.

(** The specification's wording fails on an inline text that is not empty but blank:
    it is passed over, the bucket is consulted, and the text of the
    conventional file is returned instead. *)
Lemma blank_inline_transcript_is_passed_over :
  let E := Scenario.env Scenario.summary_ok Scenario.icebreakers_ok in
  let w := Scenario.bucket_of [("transcripts/a.txt", "I like chess")] in
  let run := @LambdaFunction._load_transcript_text E "bond-audio-uploads" "uploads/a.mp3"
               (JObj [("transcript", JStr " ")]) w in
  " " <> ""
  /\ fst run = Ok (JStr "I like chess")
  /\ fst run <> Ok (JStr " ")
  /\ trace (snd run) = [S3Head "bond-audio-uploads" "transcripts/a.txt";
                        S3Get "bond-audio-uploads" "transcripts/a.txt"].
Proof. repeat split; try discriminate; vm_compute; reflexivity. Qed.

(** The artifact alone is not enough when the job result names a file: the
    named file is missing, the read of it raises, and the artifact at the
    conventional key is never consulted. *)
Example artifact_is_not_reached_past_a_missing_named_file :
  let E := Scenario.env Scenario.summary_ok Scenario.icebreakers_ok in
  let artifact :=
    JObj [("results", JObj [("transcripts", JArr [JObj [("transcript", JStr "I like chess")]])])] in
  let w := Scenario.bucket_of [("transcripts/a.json", Scenario.dumps artifact)] in
  fst (@LambdaFunction._load_transcript_text E "bond-audio-uploads" "uploads/a.mp3"
         (JObj [("ok", JBool true); ("transcriptKey", JStr "transcripts/a.txt")]) w)
  = Raise (ClientError "NoSuchKey").
Proof. vm_compute. reflexivity. Qed.

(** ** Binary64 arithmetic *)

Section Binary64.

Local Open Scope Z_scope.

Lemma ltb_zero (x : float) : (x <? 0)%float = negb (SF.sf_nonneg (Prim2SF x)).
Proof.
  rewrite FloatAxioms.ltb_spec. change (Prim2SF 0) with (S754_zero false).
  now destruct (Prim2SF x) as [[]|[]| |[] m e].
Qed.

Lemma eqb_zero (x : float) : (x =? 0)%float = SF.sf_is_zero (Prim2SF x).
Proof.
  rewrite FloatAxioms.eqb_spec. change (Prim2SF 0) with (S754_zero false).
  now destruct (Prim2SF x) as [[]|[]| |[] m e].
Qed.

Lemma round_aux_nonneg (m e : Z) (l : location) :
  SF.sf_nonneg (binary_round_aux prec emax false m e l) = true.
Proof.
  unfold binary_round_aux.
  destruct (shr_fexp prec emax m e l) as [mrs e1].
  destruct (shr_fexp prec emax _ e1 loc_Exact) as [mrs' e2].
  destruct (shr_m mrs'); [reflexivity| |reflexivity].
  now destruct (e2 <=? emax - prec).
Qed.

Lemma mul_self_nonneg (s : spec_float) : SF.sf_nonneg (SF64mul s s) = true.
Proof.
  destruct s as [[]|[]| |[] m e]; try reflexivity; apply round_aux_nonneg.
Qed.

Lemma add_nonneg (a b : spec_float) :
  SF.sf_nonneg a = true -> SF.sf_nonneg b = true -> SF.sf_nonneg (SF64add a b) = true.
Proof.
  destruct a as [[]|[]| |[] ma ea], b as [[]|[]| |[] mb eb];
    try discriminate; try reflexivity.
  intros _ _. unfold SF64add, SFadd. cbn [cond_Zopp].
  set (a := fst (shl_align ma ea (Z.min ea eb))).
  set (b := fst (shl_align mb eb (Z.min ea eb))).
  change (Z.pos a + Z.pos b) with (Z.pos (a + b)).
  unfold binary_normalize, binary_round.
  destruct (shl_align (a + b) _ _). apply round_aux_nonneg.
Qed.

Lemma digits2_size (p : positive) : digits2_pos p = Pos.size p.
Proof. induction p; cbn [digits2_pos Pos.size]; now rewrite ?IHp. Qed.

Lemma Zdigits2_log2 (p : positive) : Zdigits2 (Zpos p) = Z.log2 (Zpos p) + 1.
Proof.
  unfold Zdigits2. rewrite digits2_size.
  destruct p; simpl; rewrite ?Pos2Z.inj_succ; lia.
Qed.

Lemma Zdigits2_log2_pos (m : Z) : 0 < m -> Zdigits2 m = Z.log2 m + 1.
Proof. destruct m; try lia. intros _. apply Zdigits2_log2. Qed.

Lemma iter_pos_iter {A} (f : A -> A) (p : positive) (x : A) :
  SpecFloat.iter_pos f p x = Pos.iter f x p.
Proof.
  revert x. induction p as [p IH|p IH|]; intros x; simpl.
  - rewrite !IH. simpl. now rewrite !Pos.iter_swap.
  - now rewrite !IH.
  - reflexivity.
Qed.

Lemma shr_1_m (mrs : shr_record) :
  0 <= shr_m mrs -> shr_m (shr_1 mrs) = Z.div2 (shr_m mrs).
Proof.
  destruct mrs as [m r s]. simpl. destruct m as [|[p|p|]|p]; try reflexivity; lia.
Qed.

Lemma shr_m_iter (p : positive) (mrs : shr_record) :
  0 <= shr_m mrs ->
  shr_m (SpecFloat.iter_pos shr_1 p mrs) = Z.shiftr (shr_m mrs) (Zpos p).
Proof.
  intros Hm. rewrite iter_pos_iter.
  change (Z.shiftr (shr_m mrs) (Z.pos p)) with (Pos.iter Z.div2 (shr_m mrs) p).
  revert mrs Hm. induction p using Pos.peano_ind; intros mrs Hm.
  - simpl. now apply shr_1_m.
  - rewrite !Pos.iter_succ. rewrite shr_1_m.
    + now rewrite IHp.
    + rewrite IHp by exact Hm.
      change (Pos.iter Z.div2 (shr_m mrs) p) with (Z.shiftr (shr_m mrs) (Zpos p)).
      now apply Z.shiftr_nonneg.
Qed.

Lemma shr_record_of_loc_m (m : Z) (l : location) : shr_m (shr_record_of_loc m l) = m.
Proof. now destruct l as [|[]]. Qed.

(** A mantissa whose top bit lies above the smallest subnormal keeps it
    through [shr_fexp]. *)
Lemma shr_fexp_keeps (m e : Z) (l : location) :
  0 < m -> -1073 <= Zdigits2 m + e ->
  0 < shr_m (fst (shr_fexp prec emax m e l))
  /\ Zdigits2 (shr_m (fst (shr_fexp prec emax m e l))) + snd (shr_fexp prec emax m e l)
     = Zdigits2 m + e.
Proof.
  intros Hm Hbig. unfold shr_fexp, shr.
  rewrite (Zdigits2_log2_pos m Hm) in *.
  unfold fexp, emin, prec, emax.
  destruct (Z.max (Z.log2 m + 1 + e - 53) (3 - 1024 - 53) - e) as [|p|p] eqn:Hn; cbn [fst snd].
  - rewrite shr_record_of_loc_m, (Zdigits2_log2_pos m Hm). lia.
  - rewrite shr_m_iter by (rewrite shr_record_of_loc_m; lia).
    rewrite shr_record_of_loc_m.
    assert (Hp : Zpos p <= Z.log2 m) by lia.
    assert (Hsh : 0 < Z.shiftr m (Zpos p)).
    { rewrite Z.shiftr_div_pow2 by lia.
      apply Z.div_str_pos. split; [apply Z.pow_pos_nonneg; lia|].
      transitivity (2 ^ Z.log2 m); [apply Z.pow_le_mono_r; lia | apply Z.log2_spec; lia]. }
    split; [exact Hsh|].
    rewrite (Zdigits2_log2_pos _ Hsh), Z.log2_shiftr by lia. lia.
  - rewrite shr_record_of_loc_m, (Zdigits2_log2_pos m Hm). lia.
Qed.

Lemma round_nearest_even_ge (m : Z) (l : location) :
  m <= round_nearest_even m l <= m + 1.
Proof. unfold round_nearest_even. destruct l as [|[]]; try destruct (Z.even m); lia. Qed.

Lemma Zdigits2_mono (a b : Z) : 0 < a -> a <= b -> Zdigits2 a <= Zdigits2 b.
Proof.
  intros Ha Hab. rewrite !Zdigits2_log2_pos by lia.
  pose proof (Z.log2_le_mono a b Hab). lia.
Qed.

(** Rounding such a mantissa never gives zero, and never brings the top bit
    down. *)
Lemma round_aux_keeps (s : bool) (m e : Z) (l : location) :
  0 < m -> -1073 <= Zdigits2 m + e ->
  match binary_round_aux prec emax s m e l with
  | S754_finite _ m' e' => Zdigits2 m + e <= Zdigits2 (Zpos m') + e'
  | S754_infinity _ => True
  | _ => False
  end.
Proof.
  intros Hm Hbig. unfold binary_round_aux.
  destruct (shr_fexp_keeps m e l Hm Hbig) as [Hpos1 Hsum1].
  destruct (shr_fexp prec emax m e l) as [mrs1 e1]. cbn [fst snd] in *.
  pose proof (round_nearest_even_ge (shr_m mrs1) (loc_of_shr_record mrs1)) as Hr.
  set (m2 := round_nearest_even (shr_m mrs1) (loc_of_shr_record mrs1)) in *.
  assert (Hm2 : 0 < m2) by lia.
  pose proof (Zdigits2_mono (shr_m mrs1) m2 Hpos1 (proj1 Hr)) as Hd.
  assert (Hbig2 : -1073 <= Zdigits2 m2 + e1) by lia.
  destruct (shr_fexp_keeps m2 e1 loc_Exact Hm2 Hbig2) as [Hpos2 Hsum2].
  destruct (shr_fexp prec emax m2 e1 loc_Exact) as [mrs2 e2]. cbn [fst snd] in *.
  destruct (shr_m mrs2) as [|m'|m']; try lia.
  destruct (e2 <=? emax - prec); [lia | exact I].
Qed.

Lemma round_aux_root_range (s : bool) (m e : Z) (l : location) :
  0 < m -> -536 <= Zdigits2 m + e ->
  SF.sf_root_range (binary_round_aux prec emax s m e l) = true.
Proof.
  intros Hm Hbig. pose proof (round_aux_keeps s m e l Hm ltac:(lia)) as Hr.
  destruct (binary_round_aux prec emax s m e l) as [| | |sr mr er]; try reflexivity.
  cbn [SF.sf_root_range]. apply Z.leb_le. lia.
Qed.

Lemma sqrt_root_range (s : spec_float) :
  valid_binary s = true -> SF.sf_root_range (SF64sqrt s) = true.
Proof.
  destruct s as [[]|[]| |[] m e]; try reflexivity.
  intros Hvalid. unfold SF64sqrt, SFsqrt, SFsqrt_core_binary.
  cbn [SpecFloat.valid_binary] in Hvalid. unfold bounded, canonical_mantissa in Hvalid.
  apply andb_prop in Hvalid as [Hcan _]. apply Z.eqb_eq in Hcan.
  change (Z.pos (digits2_pos m)) with (Zdigits2 (Zpos m)) in Hcan.
  rewrite Zdigits2_log2 in *. unfold fexp, emin, prec, emax in *.
  pose proof (Z.log2_nonneg (Zpos m)) as Hlog.
  set (e' := Z.min (Z.max (Z.div2 (Z.log2 (Z.pos m) + 1 + e + 1) - 53) (3 - 1024 - 53))
                   (Z.div2 e)).
  assert (He : -1074 <= e) by lia.
  assert (Hdiv : 2 * Z.div2 e <= e).
  { rewrite Z.div2_div. pose proof (Z.mul_div_le e 2). lia. }
  assert (Hdiv' : -537 <= Z.div2 e).
  { rewrite Z.div2_div. apply Z.div_le_lower_bound; lia. }
  assert (He'lo : -1074 <= e') by (unfold e'; lia).
  assert (He'hi : 2 * e' <= e) by (unfold e'; lia).
  set (m' := match e - 2 * e' with
             | 0 => Z.pos m
             | Z.pos _ => Z.shiftl (Z.pos m) (e - 2 * e')
             | Z.neg _ => 0
             end).
  assert (Hm' : 2 ^ (e - 2 * e') <= m').
  { unfold m'. destruct (e - 2 * e') as [|p|p] eqn:Hs; try lia.
    rewrite Z.shiftl_mul_pow2 by lia.
    assert (0 < 2 ^ Z.pos p) by (apply Z.pow_pos_nonneg; lia). nia. }
  assert (Hm'pos : 0 < m').
  { assert (0 < 2 ^ (e - 2 * e')) by (apply Z.pow_pos_nonneg; lia). lia. }
  pose proof (Z.sqrtrem_sqrt m') as Hq.
  destruct (Z.sqrtrem m') as [q r]. cbn [fst] in Hq. subst q.
  assert (Hqpos : 0 < Z.sqrt m') by (apply Z.sqrt_pos; lia).
  assert (Hbig : -536 <= Zdigits2 (Z.sqrt m') + e').
  { rewrite Zdigits2_log2_pos by exact Hqpos.
    pose proof (Z.log2_nonneg (Z.sqrt m')).
    destruct (Z_le_gt_dec (-537) e') as [|Hsmall]; [lia|].
    set (k := -537 - e').
    assert (Hk : 2 ^ k <= Z.sqrt m').
    { apply Z.sqrt_le_square; [lia | apply Z.pow_nonneg; lia |].
      rewrite <- Z.pow_add_r by (unfold k; lia).
      transitivity (2 ^ (e - 2 * e')); [apply Z.pow_le_mono_r; unfold k; lia | exact Hm']. }
    apply Z.log2_le_pow2 in Hk; [unfold k in Hk; lia | exact Hqpos]. }
  apply round_aux_root_range; [exact Hqpos | exact Hbig].
Qed.

Lemma mul_root_range_not_zero (a b : spec_float) :
  SF.sf_root_range a = true -> SF.sf_root_range b = true ->
  SF.sf_is_zero a = false -> SF.sf_is_zero b = false ->
  SF.sf_is_zero (SF64mul a b) = false.
Proof.
  destruct a as [sa|sa| |sa ma ea], b as [sb|sb| |sb mb eb];
    try discriminate; try reflexivity.
  cbn [SF.sf_root_range SF.sf_is_zero]. intros Ha%Z.leb_le Hb%Z.leb_le _ _.
  unfold SF64mul, SFmul.
  rewrite !Zdigits2_log2 in *.
  assert (Hprod : -1073 <= Zdigits2 (Z.pos (ma * mb)) + (ea + eb)).
  { rewrite Zdigits2_log2, Pos2Z.inj_mul.
    pose proof (Z.log2_mul_below (Zpos ma) (Zpos mb) ltac:(lia) ltac:(lia)). lia. }
  pose proof (round_aux_keeps (xorb sa sb) (Z.pos (ma * mb)) (ea + eb) loc_Exact
                ltac:(lia) Hprod) as Hr.
  revert Hr. now destruct (binary_round_aux _ _ _ _ _ _).
Qed.

Local Open Scope float_scope.

Lemma mul_self_not_negative (x : float) : (x * x <? 0) = false.
Proof. now rewrite ltb_zero, mul_spec, mul_self_nonneg. Qed.

Lemma add_not_negative (a b : float) :
  (a <? 0) = false -> (b <? 0) = false -> (a + b <? 0) = false.
Proof.
  rewrite !ltb_zero, add_spec. intros Ha%negb_false_iff Hb%negb_false_iff.
  now rewrite add_nonneg.
Qed.

Lemma sqrt_product_not_zero (a b : float) :
  (sqrt a =? 0) = false -> (sqrt b =? 0) = false -> (sqrt a * sqrt b =? 0) = false.
Proof.
  rewrite !eqb_zero, mul_spec, !sqrt_spec. intros Ha Hb.
  apply mul_root_range_not_zero; try assumption;
    apply sqrt_root_range, Prim2SF_valid.
Qed.

End Binary64.

(** ** Cosine similarity *)

Section CosineProperties.

Import Cosine.
Local Open Scope float_scope.

Lemma fold_add_not_negative (l : list float) (acc : float) :
  (acc <? 0) = false ->
  (forall v, In v l -> (v <? 0) = false) ->
  (fold_left PrimFloat.add l acc <? 0) = false.
Proof.
  revert acc. induction l as [|v l IH]; intros acc Hacc Hl; [exact Hacc|].
  cbn [fold_left]. apply IH.
  - apply add_not_negative; [exact Hacc | apply Hl; now left].
  - intros u Hu. apply Hl. now right.
Qed.

Lemma sumsq_not_negative (x : list float) : (sumsq x <? 0) = false.
Proof.
  unfold sumsq, fsum. apply fold_add_not_negative; [reflexivity|].
  intros v [u [<- _]]%in_map_iff. apply mul_self_not_negative.
Qed.

(** [math.sqrt] never sees a negative sum of squares. *)
Lemma math_sqrt_sumsq (x : list float) : math_sqrt (sumsq x) = Ok (Spec.norm x).
Proof. unfold math_sqrt. now rewrite sumsq_not_negative. Qed.

Lemma fold_add_zeros (l : list float) (acc : float) :
  Prim2SF acc = S754_zero false ->
  (forall v, In v l -> Prim2SF v = S754_zero false) ->
  Prim2SF (fold_left PrimFloat.add l acc) = S754_zero false.
Proof.
  revert acc. induction l as [|v l IH]; intros acc Hacc Hl; [exact Hacc|].
  cbn [fold_left]. apply IH.
  - rewrite add_spec, Hacc, (Hl v) by now left. reflexivity.
  - intros u Hu. apply Hl. now right.
Qed.

Lemma all_zero_zero_norm (x : list float) :
  Spec.all_zero x = true -> Spec.zero_norm x = true.
Proof.
  intros Hall. unfold Spec.zero_norm, Spec.is_zero, Spec.norm.
  rewrite eqb_zero, sqrt_spec.
  assert (Hsum : Prim2SF (sumsq x) = S754_zero false).
  { unfold sumsq, fsum. apply fold_add_zeros; [reflexivity|].
    intros v [u [<- Hu]]%in_map_iff.
    unfold Spec.all_zero in Hall. rewrite forallb_forall in Hall.
    specialize (Hall u Hu). unfold Spec.is_zero in Hall. rewrite eqb_zero in Hall.
    rewrite mul_spec. now destruct (Prim2SF u) as [[]| | |]. }
  now rewrite Hsum.
Qed.

Lemma cosine_unfolded (x y : list float) :
  _cosine x y
  = if Spec.is_zero (Spec.norm x) || Spec.is_zero (Spec.norm y) then Ok 0
    else Ok (dot x y / (Spec.norm x * Spec.norm y)).
Proof.
  unfold _cosine. rewrite !math_sqrt_sumsq. cbn [rbind]. unfold Spec.is_zero, Spec.norm.
  destruct (PrimFloat.sqrt (sumsq x) =? 0) eqn:Hx; [reflexivity|].
  destruct (PrimFloat.sqrt (sumsq y) =? 0) eqn:Hy; [reflexivity|].
  cbn [orb]. unfold truediv.
  now rewrite (sqrt_product_not_zero (sumsq x) (sumsq y) Hx Hy).
Qed.

(** C6: when the norm computed for either vector is zero, and so whenever
    either vector holds only zeros, [_cosine] returns exactly 0.0: neither
    [math.sqrt] nor the division raises. *)
Theorem cosine_of_zero_norm (x y : list float) :
  Spec.zero_norm x = true \/ Spec.zero_norm y = true
  \/ Spec.all_zero x = true \/ Spec.all_zero y = true ->
  _cosine x y = Ok 0.
Proof.
  intros Hzero.
  assert (Hnorm : Spec.zero_norm x = true \/ Spec.zero_norm y = true).
  { destruct Hzero as [Hx|[Hy|[Hx|Hy]]];
      [now left | now right | left | right]; now apply all_zero_zero_norm. }
  rewrite cosine_unfolded. unfold Spec.zero_norm in Hnorm.
  destruct Hnorm as [-> | ->]; [reflexivity | now rewrite orb_true_r].
Qed.

Lemma sum_below_ext (n : nat) (f g : nat -> float) :
  (forall i, (i < n)%nat -> f i = g i) -> Spec.sum_below n f = Spec.sum_below n g.
Proof.
  induction n as [|n IH]; intros Hfg; [reflexivity|].
  cbn [Spec.sum_below]. rewrite IH, (Hfg n) by (intros; try apply Hfg; lia). reflexivity.
Qed.

(** The additions of [sum], read by index. *)
Lemma fsum_by_index (l : list float) :
  fsum l = Spec.sum_below (List.length l) (fun i => List.nth i l 0).
Proof.
  unfold fsum. induction l as [|a l IH] using rev_ind; [reflexivity|].
  rewrite fold_left_app, length_app, Nat.add_1_r. cbn [fold_left List.length Spec.sum_below].
  rewrite IH, nth_middle. f_equal.
  apply sum_below_ext. intros i Hi. now rewrite app_nth1.
Qed.

Lemma nth_products (x y : list float) (i : nat) :
  (i < List.length (combine x y))%nat ->
  List.nth i (map (fun p => fst p * snd p) (combine x y)) 0
  = Spec.component x i * Spec.component y i.
Proof.
  unfold Spec.component. revert y i.
  induction x as [|a x IH]; intros [|b y] i; cbn [combine List.length]; try lia.
  destruct i as [|i]; [reflexivity|]. intros Hi. cbn [map List.nth]. apply IH. lia.
Qed.

Lemma nth_squares (x : list float) (i : nat) :
  (i < List.length x)%nat ->
  List.nth i (map (fun p => p * p) x) 0 = Spec.component x i * Spec.component x i.
Proof.
  unfold Spec.component. revert i.
  induction x as [|a x IH]; intros i; cbn [List.length]; [lia|].
  destruct i as [|i]; [reflexivity|]. intros Hi. cbn [map List.nth]. apply IH. lia.
Qed.

Lemma dot_by_index (x y : list float) :
  dot x y = Spec.dot_below (Nat.min (List.length x) (List.length y)) x y.
Proof.
  unfold dot, Spec.dot_below. rewrite fsum_by_index, length_map, length_combine.
  apply sum_below_ext. intros i Hi. apply nth_products. now rewrite length_combine.
Qed.

Lemma norm_by_index (x : list float) : Spec.norm x = Spec.full_norm x.
Proof.
  unfold Spec.norm, Spec.full_norm, sumsq. rewrite fsum_by_index, length_map. f_equal.
  apply sum_below_ext. intros i Hi. now apply nth_squares.
Qed.

(** C9: [_cosine] returns a number for every pair of vectors, whatever
    their lengths, equal or not, and raises nothing.  The number is zero
    when a norm is zero; otherwise it is the quotient of the dot product,
    which is the sum of the products of the components at the indices below
    the shorter length, by the product of the two norms, each the square
    root of the sum of the squares of all the components of its vector. *)
Theorem cosine_total_with_truncated_dot (x y : list float) :
  let n := Nat.min (List.length x) (List.length y) in
  _cosine x y
  = Ok (if Spec.is_zero (Spec.full_norm x) || Spec.is_zero (Spec.full_norm y) then 0
        else Spec.dot_below n x y / (Spec.full_norm x * Spec.full_norm y)).
Proof.
  intros n. rewrite cosine_unfolded, dot_by_index, !norm_by_index. fold n.
  now destruct (_ || _).
Qed.

(** Three components against one: the dot product uses the first pair
    only, the first norm all three components. *)
Example cosine_of_mismatched_lengths :
  _cosine [3; 4; 12] [2] = Ok (6 / (13 * 2))
  /\ _cosine [3; 4; 12] [2] = _cosine [2] [3; 4; 12].
Proof. split; vm_compute; reflexivity. Qed.

End CosineProperties.

Lemma cosine_of_zero_norm_witness :
  Cosine._cosine [0%float; (-0)%float] [1%float; 2%float] = Ok 0%float.
Proof.
  apply (cosine_of_zero_norm [0%float; (-0)%float] [1%float; 2%float]).
  right. right. left. vm_compute. reflexivity.
Defined.

(** * Further properties of the code *)

(** ** Strings *)

Section StringFacts.

Lemma chars_of_chars (l : list ascii) : Str.chars (Str.of_chars l) = l.
Proof. apply list_ascii_of_string_of_list_ascii. Qed.

Lemma of_chars_chars (s : string) : Str.of_chars (Str.chars s) = s.
Proof. apply string_of_list_ascii_of_string. Qed.

Lemma length_chars (s : string) : List.length (Str.chars s) = String.length s.
Proof. induction s as [|c s IH]; simpl; [reflexivity | now rewrite IH]. Qed.

Lemma length_of_chars (l : list ascii) : String.length (Str.of_chars l) = List.length l.
Proof. now rewrite <- length_chars, chars_of_chars. Qed.

Lemma chars_append (a b : string) : Str.chars (a +:+ b) = Str.chars a ++ Str.chars b.
Proof. induction a as [|c a IH]; simpl; [reflexivity | now rewrite IH]. Qed.

Lemma drop_while_length (p : ascii -> bool) (l : list ascii) :
  (List.length (Str.drop_while p l) <= List.length l)%nat.
Proof. induction l as [|c l IH]; simpl; [lia | destruct (p c); simpl; lia]. Qed.

Lemma drop_while_incl (p : ascii -> bool) (l : list ascii) (c : ascii) :
  In c (Str.drop_while p l) -> In c l.
Proof.
  induction l as [|d l IH]; simpl; [tauto|].
  destruct (p d); simpl; tauto.
Qed.

Lemma drop_while_head (p : ascii -> bool) (l : list ascii) :
  Frame.head_fails p (Str.drop_while p l).
Proof.
  induction l as [|c l IH]; simpl; [exact I|].
  destruct (p c) eqn:Hc; [exact IH | exact Hc].
Qed.

Lemma drop_while_fixed (p : ascii -> bool) (l : list ascii) :
  Frame.head_fails p l -> Str.drop_while p l = l.
Proof. destruct l as [|c l]; simpl; [reflexivity | now intros ->]. Qed.

Lemma drop_while_split (p : ascii -> bool) (l : list ascii) :
  exists pre, l = pre ++ Str.drop_while p l /\ forallb p pre = true.
Proof.
  induction l as [|c l [pre [Hl Hpre]]]; simpl.
  - now exists [].
  - destruct (p c) eqn:Hc.
    + exists (c :: pre). simpl. rewrite Hc, Hpre. split; [now f_equal | reflexivity].
    + now exists [].
Qed.

Lemma drop_while_map (p : ascii -> bool) (f : ascii -> ascii) (l : list ascii) :
  (forall c, p (f c) = p c) ->
  Str.drop_while p (map f l) = map f (Str.drop_while p l).
Proof.
  intros Hp. induction l as [|c l IH]; simpl; [reflexivity|].
  rewrite Hp. now destruct (p c).
Qed.

Lemma strip_by_chars (p : ascii -> bool) (s : string) :
  Str.strip_by p s = Str.of_chars (Frame.strip_chars p (Str.chars s)).
Proof. unfold Str.strip_by, Str.rstrip_by, Str.lstrip_by. now rewrite chars_of_chars. Qed.

Lemma strip_chars_incl (p : ascii -> bool) (l : list ascii) (c : ascii) :
  In c (Frame.strip_chars p l) -> In c l.
Proof.
  unfold Frame.strip_chars. intros Hin%in_rev%drop_while_incl%in_rev.
  now apply drop_while_incl in Hin.
Qed.

Lemma strip_chars_head (p : ascii -> bool) (l : list ascii) :
  Frame.head_fails p (Frame.strip_chars p l).
Proof.
  unfold Frame.strip_chars.
  pose proof (drop_while_head p l) as Hm.
  destruct (drop_while_split p (rev (Str.drop_while p l))) as [pre [Hsplit _]].
  set (m := Str.drop_while p l) in *. set (r := Str.drop_while p (rev m)) in *.
  assert (Hm' : m = rev r ++ rev pre).
  { rewrite <- rev_app_distr, <- Hsplit. now rewrite rev_involutive. }
  destruct (rev r) as [|c t]; [exact I|].
  rewrite Hm' in Hm. exact Hm.
Qed.

Lemma strip_chars_idempotent (p : ascii -> bool) (l : list ascii) :
  Frame.strip_chars p (Frame.strip_chars p l) = Frame.strip_chars p l.
Proof.
  pose proof (strip_chars_head p l) as Hhead.
  unfold Frame.strip_chars at 1.
  rewrite (drop_while_fixed p (Frame.strip_chars p l) Hhead).
  unfold Frame.strip_chars. rewrite rev_involutive.
  now rewrite (drop_while_fixed p _ (drop_while_head p _)).
Qed.

Lemma strip_chars_map (p : ascii -> bool) (f : ascii -> ascii) (l : list ascii) :
  (forall c, p (f c) = p c) ->
  Frame.strip_chars p (map f l) = map f (Frame.strip_chars p l).
Proof.
  intros Hp. unfold Frame.strip_chars.
  now rewrite (drop_while_map p f l Hp), <- map_rev, (drop_while_map p f _ Hp), map_rev.
Qed.

Lemma strip_idempotent (s : string) : Str.strip (Str.strip s) = Str.strip s.
Proof.
  unfold Str.strip. rewrite !strip_by_chars, chars_of_chars.
  now rewrite strip_chars_idempotent.
Qed.

Lemma is_space_lower (c : ascii) : Str.is_space (Str.lower_char c) = Str.is_space c.
Proof. destruct c as [[] [] [] [] [] [] [] []]; reflexivity. Qed.

Lemma lower_char_idempotent (c : ascii) :
  Str.lower_char (Str.lower_char c) = Str.lower_char c.
Proof. destruct c as [[] [] [] [] [] [] [] []]; reflexivity. Qed.

Lemma sanitized_is_fixed (s : string) :
  Str.lower (Str.strip (Str.lower (Str.strip s))) = Str.lower (Str.strip s).
Proof.
  unfold Str.lower, Str.strip. rewrite !strip_by_chars, !chars_of_chars.
  rewrite (strip_chars_map _ _ _ is_space_lower), strip_chars_idempotent, map_map.
  f_equal. apply map_ext. intros c. apply lower_char_idempotent.
Qed.

End StringFacts.

(** X1: sanitizing is idempotent: an identifier that [_sanitize] returned is
    returned unchanged when it is sanitized again, so the names a response
    reports can be sent back as they are. *)
Theorem sanitize_idempotent (name : json) (a : string) :
  AppSimilarity._sanitize name = Ok a ->
  AppSimilarity._sanitize (JStr a) = Ok a.
Proof.
  unfold AppSimilarity._sanitize.
  destruct (Py.truthy name) eqn:Htruthy.
  - destruct name; try discriminate. intros [= <-].
    destruct (Py.truthy (JStr (Str.lower (Str.strip s)))) eqn:Ha.
    + now rewrite sanitized_is_fixed.
    + cbn [Py.truthy] in Ha. destruct (Str.lower (Str.strip s)); [reflexivity | discriminate].
  - intros [= <-]. reflexivity.
Qed.

Lemma sanitize_idempotent_witness :
  AppSimilarity._sanitize (JStr "alice") = Ok "alice".
Proof. apply (sanitize_idempotent (JStr "  Alice ") "alice"). reflexivity. Defined.

(** ** Summaries and icebreakers *)

Section SummaryFacts.

Import BedrockAgent.

Lemma length_rstrip_by (p : ascii -> bool) (s : string) :
  (String.length (Str.rstrip_by p s) <= String.length s)%nat.
Proof.
  unfold Str.rstrip_by. rewrite length_of_chars, length_rev.
  etransitivity; [apply drop_while_length|]. now rewrite length_rev, length_chars.
Qed.

Lemma length_slice_0 (n : nat) (s : string) :
  (String.length (Str.slice 0 (Z.of_nat n) s) <= n)%nat.
Proof.
  unfold Str.slice. rewrite length_of_chars.
  etransitivity; [apply firstn_le_length | lia].
Qed.

Lemma rstrip_chars_head (p : ascii -> bool) (m : list ascii) :
  Frame.head_fails p m -> Frame.head_fails p (rev (Str.drop_while p (rev m))).
Proof.
  intros Hm. destruct (drop_while_split p (rev m)) as [pre [Hsplit _]].
  set (r := Str.drop_while p (rev m)) in *.
  assert (Hm' : m = rev r ++ rev pre).
  { rewrite <- rev_app_distr, <- Hsplit. now rewrite rev_involutive. }
  destruct (rev r) as [|c t]; [exact I|].
  rewrite Hm' in Hm. exact Hm.
Qed.

Lemma strip_chars_fixed (p : ascii -> bool) (l : list ascii) :
  Frame.head_fails p l -> Frame.head_fails p (rev l) -> Frame.strip_chars p l = l.
Proof.
  intros Hl Hr. unfold Frame.strip_chars.
  now rewrite (drop_while_fixed p l Hl), (drop_while_fixed p _ Hr), rev_involutive.
Qed.

Lemma forallb_rev {A} (q : A -> bool) (l : list A) : forallb q (rev l) = forallb q l.
Proof.
  induction l as [|a l IH]; [reflexivity|].
  cbn [rev forallb]. rewrite forallb_app, IH. cbn [forallb].
  now rewrite andb_true_r, andb_comm.
Qed.

Lemma words_chars_are_words (l cur : list ascii) :
  forallb (fun c => negb (Str.is_space c)) cur = true ->
  Forall Frame.is_word (Str.words_chars cur l).
Proof.
  revert cur. induction l as [|c l IH]; intros cur Hcur; cbn [Str.words_chars].
  - destruct cur as [|d cur]; constructor; [|constructor].
    split; [intros Hnil%(f_equal (@List.length _)); rewrite length_rev in Hnil; discriminate|].
    now rewrite forallb_rev.
  - destruct (Str.is_space c) eqn:Hc.
    + destruct cur as [|d cur]; [now apply IH|].
      constructor; [|now apply IH].
      split; [intros Hnil%(f_equal (@List.length _)); rewrite length_rev in Hnil; discriminate|].
      now rewrite forallb_rev.
    + apply IH. cbn [forallb]. now rewrite Hc, Hcur.
Qed.

Lemma head_fails_app (p : ascii -> bool) (a b : list ascii) :
  a <> [] -> Frame.head_fails p a -> Frame.head_fails p (a ++ b).
Proof. destruct a; [congruence | now intros _]. Qed.

Lemma join_words_chars (ws : list (list ascii)) :
  Forall Frame.is_word ws ->
  let t := Str.chars (Str.join " " (map Str.of_chars ws)) in
  forallb (fun c => negb (Str.is_space c) || Ascii.eqb c " ") t = true
  /\ Frame.head_fails Str.is_space t
  /\ Frame.head_fails Str.is_space (rev t)
  /\ (ws <> [] -> t <> []).
Proof.
  induction 1 as [|w ws [Hne Hw] Hws IH]; [now repeat split|].
  assert (Hwq : forallb (fun c => negb (Str.is_space c) || Ascii.eqb c " ") w = true).
  { rewrite forallb_forall in *. intros c Hc. now rewrite (Hw c Hc). }
  assert (Hhead : Frame.head_fails Str.is_space w).
  { destruct w as [|c w]; [exact I|]. cbn in Hw. apply andb_prop in Hw as [Hc _].
    now apply negb_true_iff in Hc. }
  assert (Hlast : Frame.head_fails Str.is_space (rev w)).
  { destruct (rev w) as [|c r] eqn:Hrev; [exact I|].
    assert (Hin : In c w) by (apply in_rev; rewrite Hrev; now left).
    rewrite forallb_forall in Hw. apply negb_true_iff. now apply Hw. }
  cbn [map Str.join]. destruct ws as [|w' ws].
  - cbn [map]. rewrite chars_of_chars. repeat split; try assumption. now intros _.
  - cbn [map] in *. destruct IH as [IHq [IHhead [IHlast IHne]]].
    specialize (IHne ltac:(discriminate)).
    rewrite !chars_append, chars_of_chars. cbn zeta.
    set (rest := Str.chars (Str.join " " (Str.of_chars w' :: map Str.of_chars ws))) in *.
    repeat split.
    + rewrite !forallb_app, Hwq, IHq. reflexivity.
    + now apply head_fails_app.
    + assert (Hrev : rev rest <> []).
      { intros Hnil%(f_equal (@List.length _)). rewrite length_rev in Hnil.
        destruct rest; [congruence | discriminate]. }
      rewrite !rev_app_distr. apply head_fails_app.
      * intros [Hnil _]%app_eq_nil. contradiction.
      * now apply head_fails_app.
    + intros _ Hnil%(f_equal (@List.length _)). rewrite length_app in Hnil.
      destruct w; [congruence | discriminate].
Qed.

Lemma forallb_firstn {A} (q : A -> bool) (n : nat) (l : list A) :
  forallb q l = true -> forallb q (firstn n l) = true.
Proof.
  rewrite !forallb_forall. intros Hl x Hx. apply Hl.
  rewrite <- (firstn_skipn n l). apply in_or_app. now left.
Qed.

Lemma forallb_drop_while (q p : ascii -> bool) (l : list ascii) :
  forallb q l = true -> forallb q (Str.drop_while p l) = true.
Proof.
  rewrite !forallb_forall. intros Hl x Hx%drop_while_incl. now apply Hl.
Qed.

Lemma head_fails_firstn (p : ascii -> bool) (n : nat) (l : list ascii) :
  Frame.head_fails p l -> Frame.head_fails p (firstn n l).
Proof. destruct n, l; simpl; auto. Qed.

Lemma clean_summary_length (s : string) (max_len : nat) :
  (String.length (_clean_summary s max_len) <= max_len)%nat.
Proof.
  unfold _clean_summary, Str.length.
  match goal with |- context [Str.join " " ?ws] => set (t := Str.join " " ws) end.
  destruct (max_len <? String.length t)%nat eqn:Hlen.
  - unfold Str.rstrip. etransitivity; [apply length_rstrip_by | apply length_slice_0].
  - now apply Nat.ltb_ge in Hlen.
Qed.

Lemma clean_summary_shape (s : string) (max_len : nat) :
  Frame.plain_spaces (_clean_summary s max_len) = true
  /\ Str.strip (_clean_summary s max_len) = _clean_summary s max_len.
Proof.
  unfold _clean_summary, Str.length, Str.words.
  match goal with |- context [Str.words_chars [] ?l] =>
    pose proof (join_words_chars _ (words_chars_are_words l [] eq_refl))
      as [Hq [Hhead [Hlast _]]];
    set (t := Str.join " " (map Str.of_chars (Str.words_chars [] l))) in *
  end.
  assert (Hfix : forall r, Frame.head_fails Str.is_space (Str.chars r) ->
                           Frame.head_fails Str.is_space (rev (Str.chars r)) ->
                           Str.strip r = r).
  { intros r H1 H2. unfold Str.strip. rewrite strip_by_chars.
    now rewrite (strip_chars_fixed _ _ H1 H2), of_chars_chars. }
  destruct (max_len <? String.length t)%nat.
  - unfold Frame.plain_spaces, Str.rstrip, Str.rstrip_by, Str.slice.
    rewrite !chars_of_chars. cbn [skipn Z.to_nat].
    set (f := firstn (Z.to_nat (Z.of_nat max_len - 0)) (Str.chars t)).
    assert (Hf : Frame.head_fails Str.is_space f) by now apply head_fails_firstn.
    split.
    + rewrite forallb_rev. apply forallb_drop_while. rewrite forallb_rev.
      now apply forallb_firstn.
    + apply Hfix; rewrite chars_of_chars.
      * now apply rstrip_chars_head.
      * rewrite rev_involutive. apply drop_while_head.
  - split; [exact Hq | now apply Hfix].
Qed.

(** X2: the summary is normalised, whatever the text: it is never longer
    than the cap it is given (30 characters where the code calls it), every
    white-space character in it is a plain space, and it neither starts nor
    ends with white space (stripping it again changes nothing). *)
Theorem clean_summary_is_normalised (s : string) (max_len : nat) :
  (String.length (_clean_summary s max_len) <= max_len)%nat
  /\ Frame.plain_spaces (_clean_summary s max_len) = true
  /\ Str.strip (_clean_summary s max_len) = _clean_summary s max_len.
Proof. split; [apply clean_summary_length | apply clean_summary_shape]. Qed.

End SummaryFacts.

Section LineFacts.

Lemma split_chars_no_sep (sep : ascii) (l cur : list ascii) :
  ~ In sep cur ->
  forall x, In x (Str.split_chars sep cur l) -> ~ In sep x.
Proof.
  revert cur. induction l as [|c l IH]; intros cur Hcur x; cbn [Str.split_chars].
  - intros [<-|[]] Hin%in_rev. contradiction.
  - destruct (Ascii.eqb c sep) eqn:Hc.
    + intros [<-|Hin]; [intros Hin%in_rev; contradiction|].
      now apply (IH [] (fun H => H)).
    + apply IH. intros [->|Hin]; [|contradiction].
      now rewrite Ascii.eqb_refl in Hc.
Qed.

Lemma contains_false (c : ascii) (s : string) :
  ~ In c (Str.chars s) -> Str.contains c s = false.
Proof.
  intros Hnot. unfold Str.contains. apply not_true_is_false.
  intros [d [Hd Heq]]%existsb_exists. apply Ascii.eqb_eq in Heq. now subst d.
Qed.

Lemma stripped_line_shape (text q : string) :
  In q (Spec.stripped_lines text) ->
  Str.contains BedrockAgent.newline q = false /\ Str.strip q = q.
Proof.
  unfold Spec.stripped_lines. intros [Hin _]%filter_In.
  apply in_map_iff in Hin as [l [<- Hl]].
  split; [|apply strip_idempotent].
  apply contains_false. unfold Str.strip. rewrite strip_by_chars, chars_of_chars.
  intros Hin%strip_chars_incl.
  unfold Str.split in Hl. apply in_map_iff in Hl as [x [<- Hx]].
  rewrite chars_of_chars in Hin.
  now apply (split_chars_no_sep _ _ [] (fun H => H) x Hx).
Qed.

(** X3: each question the icebreaker normalisation returns holds no line
    feed, the one character the text is split on, is not empty and has no
    white space around it.  (Another line separator, such as a carriage
    return, stays inside a question when it stands between two words.) *)
Theorem questions_are_single_trimmed_lines (text q : string) :
  In q (BedrockAgent.questions_of_text text) ->
  Str.contains BedrockAgent.newline q = false /\ Str.strip q = q /\ q <> "".
Proof.
  intros Hq%questions_are_lines.
  destruct (stripped_line_shape text q Hq) as [Hnl Hstrip].
  repeat split; try assumption. now apply stripped_line_not_empty in Hq.
Qed.

Lemma questions_are_single_trimmed_lines_witness :
  Str.contains BedrockAgent.newline "2. Tea?" = false
  /\ Str.strip "2. Tea?" = "2. Tea?" /\ "2. Tea?" <> "".
Proof.
  apply (questions_are_single_trimmed_lines
           ("  1. Chess? " +:+ Scenario.nl +:+ Scenario.nl +:+ " 2. Tea?  ") "2. Tea?").
  vm_compute. right. now left.
Defined.

(** A carriage return between two words is kept inside the question. *)
Example carriage_return_stays_in_a_question :
  let cr := String "013"%char EmptyString in
  BedrockAgent.questions_of_text ("1. Tea" +:+ cr +:+ "or coffee?")
  = ["1. Tea" +:+ cr +:+ "or coffee?"].
Proof. vm_compute. reflexivity. Qed.

End LineFacts.

(** ** Base names *)

Section BaseNameFacts.

Import LambdaFunction.

Lemma rfind_from_after (c : ascii) (l : list ascii) (i best : Z) :
  (best < i)%Z ->
  let j := Str.rfind_from c i best l in
  (j = best /\ ~ In c l)
  \/ ((i <= j)%Z /\ ~ In c (skipn (Z.to_nat (j - i + 1)) l)).
Proof.
  revert i best. induction l as [|d l IH]; intros i best Hlt; cbn [Str.rfind_from].
  - left. split; [reflexivity | intros []].
  - cbn zeta.
    destruct (IH (i + 1)%Z (if Ascii.eqb d c then i else best)) as [[Hj Hnot]|[Hle Hnot]].
    { destruct (Ascii.eqb d c); lia. }
    + destruct (Ascii.eqb d c) eqn:Hd.
      * right. rewrite Hj. split; [lia|].
        replace (Z.to_nat (i - i + 1)) with 1%nat by lia. exact Hnot.
      * left. split; [exact Hj|]. intros [->|Hin]; [|contradiction].
        now rewrite Ascii.eqb_refl in Hd.
    + right. split; [lia|].
      set (j := Str.rfind_from c (i + 1) (if Ascii.eqb d c then i else best) l) in *.
      replace (Z.to_nat (j - i + 1)) with (S (Z.to_nat (j - (i + 1) + 1))) by lia.
      exact Hnot.
Qed.

Lemma basename_has_no_slash (p : string) : ~ In "/"%char (Str.chars (basename p)).
Proof.
  unfold basename, Str.slice, Str.rfind. rewrite chars_of_chars.
  intros Hin. assert (Hin' : In "/"%char (skipn (Z.to_nat (Str.rfind_from "/" 0 (-1) (Str.chars p) + 1))
                                              (Str.chars p))).
  { revert Hin. generalize (skipn (Z.to_nat (Str.rfind_from "/" 0 (-1) (Str.chars p) + 1))
                                   (Str.chars p)).
    intros l Hin. rewrite <- (firstn_skipn (Z.to_nat (Z.of_nat (String.length p)
      - (Str.rfind_from "/" 0 (-1) (Str.chars p) + 1))) l). apply in_or_app. now left. }
  clear Hin.
  destruct (rfind_from_after "/" (Str.chars p) 0 (-1) ltac:(lia)) as [[Hj Hnot]|[Hle Hnot]].
  - rewrite Hj in Hin'. cbn in Hin'. contradiction.
  - replace (Str.rfind_from "/" 0 (-1) (Str.chars p) - 0 + 1)%Z
      with (Str.rfind_from "/" 0 (-1) (Str.chars p) + 1)%Z in Hnot by lia.
    contradiction.
Qed.

Lemma splitext_root_incl (p : string) (c : ascii) :
  In c (Str.chars (splitext_root p)) -> In c (Str.chars p).
Proof.
  unfold splitext_root. destruct (_ && _); [|tauto].
  unfold Str.slice. rewrite chars_of_chars. cbn [skipn Z.to_nat].
  intros Hin. rewrite <- (firstn_skipn (Z.to_nat (Str.rfind "." p - 0)) (Str.chars p)).
  apply in_or_app. now left.
Qed.

(** X4: the base name of an object key holds no slash, so the two files of a
    profile always lie directly in the one folder [profiles/<name>/]. *)
Theorem base_name_has_no_slash (key : string) :
  Str.contains "/" (_base_name key) = false.
Proof.
  apply contains_false. unfold _base_name. intros Hin%splitext_root_incl.
  now apply basename_has_no_slash in Hin.
Qed.

End BaseNameFacts.

(** ** What the computations leave of the world *)

Section FrameFacts.

Import Frame.

Lemma reads_only_refl (w : world) : reads_only w w.
Proof. split; [reflexivity|]. exists []. now rewrite app_nil_r. Qed.

Lemma reads_only_trans (w1 w2 w3 : world) :
  reads_only w1 w2 -> reads_only w2 w3 -> reads_only w1 w3.
Proof.
  intros [Ho1 [e1 [Ht1 Hq1]]] [Ho2 [e2 [Ht2 Hq2]]]. split; [congruence|].
  exists (e1 ++ e2). rewrite Ht2, Ht1, app_assoc, forallb_app, Hq1, Hq2. now split.
Qed.

Lemma reads_only_log (e : event) (w : world) : is_put e = false -> reads_only w (log e w).
Proof.
  intros He. split; [reflexivity|]. exists [e]. cbn. now rewrite He.
Qed.

Lemma read_only_ret {A} (a : A) : read_only (ret a).
Proof. intros w. apply reads_only_refl. Qed.

Lemma read_only_raise {A} (e : exn) : read_only (@raise A e).
Proof. intros w. apply reads_only_refl. Qed.

Lemma read_only_lift {A} (r : result A) : read_only (lift r).
Proof. intros w. apply reads_only_refl. Qed.

Lemma read_only_bind {A B} (m : M A) (k : A -> M B) :
  read_only m -> (forall a, read_only (k a)) -> read_only (bind m k).
Proof.
  intros Hm Hk w. unfold bind. specialize (Hm w).
  destruct (m w) as [[a|e] w1]; cbn [snd] in *; [|exact Hm].
  eapply reads_only_trans; [exact Hm | apply Hk].
Qed.

Lemma read_only_try_except {A} (m : M A) (h : exn -> option (M A)) :
  read_only m -> (forall e k, h e = Some k -> read_only k) -> read_only (try_except m h).
Proof.
  intros Hm Hh w. unfold try_except. specialize (Hm w).
  destruct (m w) as [[a|e] w1]; cbn [snd] in *; [exact Hm|].
  destruct (h e) as [k|] eqn:Hk; [|exact Hm].
  eapply reads_only_trans; [exact Hm | now apply (Hh e k)].
Qed.

Lemma read_only_head (bucket key : string) : read_only (S3.head_object bucket key).
Proof.
  intros w. unfold S3.head_object.
  destruct (objects w !! _); now apply reads_only_log.
Qed.

Lemma read_only_get (bucket key : string) : read_only (S3.get_object bucket key).
Proof.
  intros w. unfold S3.get_object.
  destruct (objects w !! _); now apply reads_only_log.
Qed.

Lemma read_only_sleep (seconds : Z) : read_only (Time.sleep seconds).
Proof. intros w. split; [reflexivity|]. exists []. cbn. now rewrite app_nil_r. Qed.

Lemma read_only_time : read_only Time.time.
Proof. intros w. apply reads_only_refl. Qed.

Lemma returns_ret {A} (a : A) (Q : A -> Prop) : Q a -> returns (ret a) Q.
Proof. intros Hq w a' w' [= <- _]. exact Hq. Qed.

Lemma returns_raise {A} (e : exn) (Q : A -> Prop) : returns (raise e) Q.
Proof. intros w a w' [=]. Qed.

Lemma returns_bind {A B} (m : M A) (k : A -> M B) (Q : B -> Prop) :
  (forall a, returns (k a) Q) -> returns (bind m k) Q.
Proof.
  intros Hk w b w'. unfold bind. destruct (m w) as [[a|e] w1]; [|discriminate].
  apply Hk.
Qed.

Lemma returns_bind_with {A B} (m : M A) (k : A -> M B) (P : A -> Prop) (Q : B -> Prop) :
  returns m P -> (forall a, P a -> returns (k a) Q) -> returns (bind m k) Q.
Proof.
  intros Hm Hk w b w'. unfold bind. destruct (m w) as [[a|e] w1] eqn:Hrun; [|discriminate].
  apply Hk. now apply (Hm w a w1).
Qed.

Lemma returns_try_except {A} (m : M A) (h : exn -> option (M A)) (Q : A -> Prop) :
  returns m Q -> (forall e k, h e = Some k -> returns k Q) -> returns (try_except m h) Q.
Proof.
  intros Hm Hh w a w'. unfold try_except.
  destruct (m w) as [[a1|e] w1] eqn:Hrun.
  - intros [= <- <-]. now apply (Hm w a1 w1).
  - destruct (h e) as [k|] eqn:Hk; [|discriminate]. now apply (Hh e k).
Qed.

Context `{Env}.

Lemma read_only_converse (p : prompt) (args : list string) :
  read_only (BedrockProfile.call_converse p args).
Proof. intros w. unfold BedrockProfile.call_converse. now apply reads_only_log. Qed.

Lemma read_only_embed_text (text : string) : read_only (Embeddings.embed_text text).
Proof.
  intros w. unfold Embeddings.embed_text.
  destruct (invoke_model _ _) as [raw|e]; [destruct (json_loads raw)|];
    now apply reads_only_log.
Qed.

Lemma read_only_embed_profile (profile : json) : read_only (Embeddings.embed_profile profile).
Proof.
  unfold Embeddings.embed_profile. apply read_only_bind; [apply read_only_lift|].
  intros text. apply read_only_embed_text.
Qed.

Lemma read_only_build_profile (text : json) :
  read_only (BedrockProfile.build_profile_from_transcript text).
Proof.
  unfold BedrockProfile.build_profile_from_transcript.
  apply read_only_bind; [apply read_only_converse | intros; apply read_only_lift].
Qed.

Lemma read_only_build_sentence (profile : json) :
  read_only (BedrockAgent.build_sentence_from_profile profile).
Proof.
  unfold BedrockAgent.build_sentence_from_profile.
  apply read_only_bind; [apply read_only_converse|]. intros resp.
  apply read_only_bind; [apply read_only_lift | intros; apply read_only_ret].
Qed.

Lemma read_only_build_icebreakers (a b : json) :
  read_only (BedrockAgent.build_icebreakers_between_profiles a b).
Proof.
  unfold BedrockAgent.build_icebreakers_between_profiles.
  apply read_only_bind; [apply read_only_converse|]. intros resp.
  apply read_only_bind; [apply read_only_lift | intros; apply read_only_ret].
Qed.

Import AppSimilarity.

Lemma read_only_head_exists (key : string) : read_only (_head_exists key).
Proof.
  unfold _head_exists. apply read_only_try_except.
  - apply read_only_bind; [apply read_only_head | intros; apply read_only_ret].
  - intros e k [= <-]. apply read_only_ret.
Qed.

Lemma read_only_load_s3_json (key : string) : read_only (_load_s3_json key).
Proof.
  unfold _load_s3_json. apply read_only_bind; [apply read_only_head_exists|].
  intros found. destruct (negb found); [apply read_only_raise|].
  apply read_only_bind; [apply read_only_get|]. intros body0.
  destruct (json_loads body0); [apply read_only_ret | apply read_only_raise].
Qed.

Lemma read_only_load_and_summarise (name : string) : read_only (load_and_summarise name).
Proof.
  unfold load_and_summarise. apply read_only_try_except.
  - apply read_only_bind; [apply read_only_load_s3_json|]. intros prof.
    apply read_only_bind; [apply read_only_build_sentence | intros; apply read_only_ret].
  - intros [] k [= <-]. apply read_only_ret.
Qed.

Lemma read_only_icebreakers_for (a b : json) : read_only (icebreakers_for a b).
Proof.
  unfold icebreakers_for. destruct (_ && _); [|apply read_only_ret].
  apply read_only_try_except.
  - apply read_only_bind; [apply read_only_build_icebreakers | intros; apply read_only_ret].
  - intros e k [= <-]. apply read_only_ret.
Qed.

Lemma read_only_load_vectors (a b : string) : read_only (load_vectors a b).
Proof.
  unfold load_vectors. apply read_only_try_except.
  - apply read_only_bind; [apply read_only_load_s3_json|]. intros v1.
    apply read_only_bind; [apply read_only_load_s3_json | intros; apply read_only_ret].
  - intros [] k [= <-]. apply read_only_ret.
Qed.

(** X5: the similarity handler never writes: whatever the request and the
    bucket, every object of the store is left as it was, and no call the
    handler makes is a write. *)
Theorem handler_never_writes (event : json) (w : world) :
  objects (snd (handler event w)) = objects w
  /\ exists evs, trace (snd (handler event w)) = trace w ++ evs
                 /\ forallb (fun e => negb (is_put e)) evs = true.
Proof.
  revert w. change (read_only (handler event)).
  unfold handler. apply read_only_try_except; [|intros e k [= <-]; apply read_only_ret].
  apply read_only_bind; [apply read_only_lift|]. intros body0.
  destruct (parse_body body0) as [payload|]; [|apply read_only_ret].
  apply read_only_bind; [apply read_only_lift|]. intros pa.
  apply read_only_bind; [apply read_only_lift|]. intros a.
  apply read_only_bind; [apply read_only_lift|]. intros pb.
  apply read_only_bind; [apply read_only_lift|]. intros b.
  destruct (_ || _); [apply read_only_ret|].
  apply read_only_bind; [apply read_only_load_vectors|]. intros [resp|[v1 v2]];
    [apply read_only_ret|].
  apply read_only_bind; [apply read_only_lift|]. intros score.
  apply read_only_bind; [apply read_only_load_and_summarise|]. intros sa.
  apply read_only_bind; [apply read_only_load_and_summarise|]. intros sb.
  apply read_only_bind; [apply read_only_icebreakers_for | intros; apply read_only_ret].
Qed.

Lemma load_vectors_not_found (a b : string) :
  returns (load_vectors a b)
          (fun vs => match vs with inl r => statusCode r = 404%Z | inr _ => True end).
Proof.
  unfold load_vectors. apply returns_try_except.
  - do 2 (apply returns_bind; intros ?). now apply returns_ret.
  - intros [] k [= <-]. now apply returns_ret.
Qed.

(** X6: the similarity handler never raises: every event is answered, and
    the status of the answer is 200, 400, 404 or 500. *)
Theorem handler_always_answers (event : json) (w : world) :
  exists resp, fst (handler event w) = Ok resp
               /\ In (statusCode resp) [200; 400; 404; 500]%Z.
Proof.
  unfold handler, try_except.
  match goal with |- context [match ?inner w with _ => _ end] =>
    assert (Hinner : returns inner (fun r => In (statusCode r) [200; 400; 404; 500]%Z));
    [|destruct (inner w) as [[resp|e] w1] eqn:Hrun]
  end.
  - apply returns_bind. intros body0.
    destruct (parse_body body0) as [payload|]; [|apply returns_ret; cbn; tauto].
    do 4 (apply returns_bind; intros ?).
    destruct (_ || _); [apply returns_ret; cbn; tauto|].
    apply (returns_bind_with _ _ _ _ (load_vectors_not_found _ _)).
    intros [resp|[v1 v2]] Hvs.
    + apply returns_ret. rewrite Hvs. cbn. tauto.
    + do 4 (apply returns_bind; intros ?). apply returns_ret. cbn. tauto.
  - exists resp. split; [reflexivity | now apply (Hinner w resp w1)].
  - eexists. split; [reflexivity|]. cbn. tauto.
Qed.

End FrameFacts.

(** ** Answers of the similarity handler *)

Section HandlerFacts.

Import AppSimilarity.
Context `{Env}.

Lemma head_exists_run (key : string) (w : world) :
  _head_exists key w
  = (Ok (match objects w !! (BUCKET, key) with Some _ => true | None => false end),
     log (S3Head BUCKET key) w).
Proof.
  unfold _head_exists, try_except, bind, S3.head_object, ret.
  now destruct (objects w !! (BUCKET, key)).
Qed.

Lemma load_s3_json_missing (key : string) (w : world) :
  objects w !! (BUCKET, key) = None ->
  _load_s3_json key w = (Raise (FileNotFoundError key), log (S3Head BUCKET key) w).
Proof.
  intros Hnone. unfold _load_s3_json, bind. rewrite head_exists_run, Hnone. reflexivity.
Qed.

Lemma load_s3_json_present (key text : string) (w : world) :
  objects w !! (BUCKET, key) = Some text ->
  _load_s3_json key w
  = (match json_loads text with Some v => Ok v | None => Raise JSONDecodeError end,
     log (S3Get BUCKET key) (log (S3Head BUCKET key) w)).
Proof.
  intros Hsome. unfold _load_s3_json, bind. rewrite head_exists_run, Hsome. cbn [negb].
  unfold S3.get_object. cbn [objects log]. rewrite Hsome.
  now destruct (json_loads text).
Qed.

Lemma load_s3_json_ok (key : string) (w w' : world) (v : json) :
  _load_s3_json key w = (Ok v, w') ->
  exists text, objects w !! (BUCKET, key) = Some text /\ json_loads text = Some v
               /\ w' = log (S3Get BUCKET key) (log (S3Head BUCKET key) w).
Proof.
  destruct (objects w !! (BUCKET, key)) as [text|] eqn:Hobj.
  - rewrite (load_s3_json_present key text w Hobj).
    destruct (json_loads text) as [v'|] eqn:Hloads; [|discriminate].
    intros [= <- <-]. now exists text.
  - rewrite (load_s3_json_missing key w Hobj). discriminate.
Qed.

Lemma names_of_event_inv (event : json) (a b : string) :
  Frame.names_of_event event = Some (a, b) ->
  exists body0 payload pa pb,
    decode_body event = Ok body0 /\ parse_body body0 = Some payload
    /\ Py.get payload "profileA" JNull = Ok pa /\ _sanitize pa = Ok a
    /\ Py.get payload "profileB" JNull = Ok pb /\ _sanitize pb = Ok b.
Proof.
  unfold Frame.names_of_event.
  destruct (decode_body event) as [body0|] eqn:Hbody; [|discriminate].
  destruct (parse_body body0) as [payload|] eqn:Hparse; [|discriminate].
  destruct (Py.get payload "profileA" JNull) as [pa|] eqn:Hpa; [|discriminate].
  destruct (Py.get payload "profileB" JNull) as [pb|] eqn:Hpb; [|discriminate].
  destruct (_sanitize pa) as [a'|] eqn:Ha; [|discriminate].
  destruct (_sanitize pb) as [b'|] eqn:Hb; [|discriminate].
  intros [= <- <-]. now exists body0, payload, pa, pb.
Qed.

(** The rest of [handler] once the two names are known and not empty. *)
Lemma handler_with_names (event : json) (a b : string) (w : world) :
  Frame.names_of_event event = Some (a, b) ->
  Str.is_empty a || Str.is_empty b = false ->
  handler event w
  = try_except
      (vs <- load_vectors a b ;;
       match vs with
       | inl not_found => ret not_found
       | inr (v1, v2) =>
           score <- lift (cosine_json v1 v2) ;;
           sa <- load_and_summarise a ;;
           sb <- load_and_summarise b ;;
           icebreakers <- icebreakers_for (fst sa) (fst sb) ;;
           ret (_json (JObj [("ok", JBool true);
                             ("similarity", JNum score);
                             ("summaries", JObj (Py.store b (snd sb) [(a, snd sa)]));
                             ("icebreakers", icebreakers)]) 200)
       end)%M
      (fun e => Some (ret (_json (error_body (str_of_exn e)) 500))) w.
Proof.
  intros (body0 & payload & pa & pb & Hbody & Hparse & Hpa & Ha & Hpb & Hb)%names_of_event_inv
         Hne.
  unfold handler, try_except, bind at 1 2 3 4 5, lift, ret.
  now rewrite Hbody, Hparse, Hpa, Ha, Hpb, Hb, Hne.
Qed.

(** X7: an answer with status 400 is always given before anything outside
    the process is touched: the world is exactly as the handler found it. *)
Theorem bad_request_touches_nothing (event : json) (w : world) (resp : response) :
  fst (handler event w) = Ok resp ->
  statusCode resp = 400%Z ->
  snd (handler event w) = w.
Proof.
  unfold handler, try_except, bind, lift, ret.
  destruct (decode_body event) as [body0|e]; [|intros [= <-]; discriminate].
  destruct (parse_body body0) as [payload|]; [|reflexivity].
  destruct (Py.get payload "profileA" JNull) as [pa|e]; [|intros [= <-]; discriminate].
  destruct (_sanitize pa) as [a|e]; [|intros [= <-]; discriminate].
  destruct (Py.get payload "profileB" JNull) as [pb|e]; [|intros [= <-]; discriminate].
  destruct (_sanitize pb) as [b|e]; [|intros [= <-]; discriminate].
  destruct (_ || _); [reflexivity|].
  pose proof (load_vectors_not_found a b w) as Hnf.
  destruct (load_vectors a b w) as [[[r|[v1 v2]]|e] w1]; [| |intros [= <-]; discriminate].
  - specialize (Hnf _ _ eq_refl). cbn in Hnf. intros [= <-] Hst. congruence.
  - destruct (cosine_json v1 v2); [|intros [= <-]; discriminate].
    destruct (load_and_summarise a w1) as [[sa|e] w2]; [|intros [= <-]; discriminate].
    destruct (load_and_summarise b w2) as [[sb|e] w3]; [|intros [= <-]; discriminate].
    destruct (icebreakers_for _ _ w3) as [[ice|e] w4]; intros [= <-]; discriminate.
Qed.

(** X8: a body that is flagged as base64 and does not decode is answered
    500, not 400, and nothing outside the process is touched: the decoding
    runs outside the [try] that guards the parsing. *)
Theorem undecodable_body_is_a_500 (event flag : json) (s : string) (w : world) :
  Py.get event "body" (JStr "") = Ok (JStr s) ->
  Py.get event "isBase64Encoded" JNull = Ok flag ->
  Py.truthy flag = true ->
  b64decode_utf8 s = None ->
  Frame.statusCode_of (handler event w) = Some 500%Z /\ snd (handler event w) = w.
Proof.
  intros Hbody Hflag Htruthy Hdecode.
  unfold Frame.statusCode_of, handler, try_except, bind, lift, ret, decode_body, rbind.
  rewrite Hbody, Hflag, Htruthy, Hdecode. now split.
Qed.

(** X9: a vector file that is missing is answered 404 with the key of the
    first missing file in the message: the file of the first name if it is
    missing, else (when that one parses) the file of the second.  No profile
    is read and no service is called. *)
Theorem missing_vector_is_a_404 (event : json) (a b : string) (w : world) :
  Frame.names_of_event event = Some (a, b) ->
  a <> "" -> b <> "" ->
  objects w !! (BUCKET, Frame.vector_key a) = None
  \/ (exists text v, objects w !! (BUCKET, Frame.vector_key a) = Some text
                     /\ json_loads text = Some v
                     /\ objects w !! (BUCKET, Frame.vector_key b) = None) ->
  let missing := match objects w !! (BUCKET, Frame.vector_key a) with
                 | None => Frame.vector_key a
                 | Some _ => Frame.vector_key b
                 end in
  fst (handler event w)
  = Ok (_json (error_body ("Vector file not found: " +:+ missing)) 404)
  /\ forallb (fun e => match e with
                       | S3Head _ k | S3Get _ k =>
                           String.eqb k (Frame.vector_key a) || String.eqb k (Frame.vector_key b)
                       | _ => false
                       end)
             (skipn (List.length (trace w)) (trace (snd (handler event w)))) = true.
Proof.
  intros Hnames Ha Hb Hmissing missing.
  assert (Hne : Str.is_empty a || Str.is_empty b = false).
  { destruct a; [congruence|]. destruct b; [congruence | reflexivity]. }
  assert (Hrun : exists evs,
             handler event w
             = (Ok (_json (error_body ("Vector file not found: " +:+ missing)) 404),
                mkWorld (objects w) (now w) (trace w ++ evs))
             /\ forallb (fun e => match e with
                                  | S3Head _ k | S3Get _ k =>
                                      String.eqb k (Frame.vector_key a)
                                      || String.eqb k (Frame.vector_key b)
                                  | _ => false
                                  end) evs = true).
  { rewrite (handler_with_names event a b w Hnames Hne).
    unfold try_except, bind at 1, load_vectors, try_except, bind at 1, _load_vector.
    fold (Frame.vector_key a). fold (Frame.vector_key b). subst missing.
    destruct Hmissing as [Hnone | (text & v & Hsome & Hloads & Hnone)].
    - rewrite (load_s3_json_missing _ w Hnone), Hnone.
      exists [S3Head BUCKET (Frame.vector_key a)]. split; [reflexivity|].
      cbn. now rewrite String.eqb_refl.
    - rewrite (load_s3_json_present _ text w Hsome), Hloads, Hsome. unfold bind at 1.
      rewrite load_s3_json_missing by exact Hnone.
      exists [S3Head BUCKET (Frame.vector_key a); S3Get BUCKET (Frame.vector_key a);
              S3Head BUCKET (Frame.vector_key b)].
      split; [unfold log, ret; cbn; now rewrite <- !app_assoc|].
      cbn. now rewrite !String.eqb_refl, !orb_true_r. }
  destruct Hrun as [evs [-> Hevs]]. cbn [fst snd trace].
  split; [reflexivity|]. now rewrite drop_app_length.
Qed.

End HandlerFacts.

Section HandlerAnswers.

Import AppSimilarity.
Context `{Env}.

Lemma load_vectors_ok (a b : string) (w w' : world) (v1 v2 : json) :
  load_vectors a b w = (Ok (inr (v1, v2)), w') ->
  exists t1 t2,
    objects w !! (BUCKET, Frame.vector_key a) = Some t1 /\ json_loads t1 = Some v1
    /\ objects w !! (BUCKET, Frame.vector_key b) = Some t2 /\ json_loads t2 = Some v2
    /\ objects w' = objects w.
Proof.
  unfold load_vectors, try_except, bind at 1, _load_vector.
  fold (Frame.vector_key a). fold (Frame.vector_key b).
  destruct (_load_s3_json (Frame.vector_key a) w) as [[u1|e] w1] eqn:H1.
  - apply load_s3_json_ok in H1 as (t1 & Ht1 & Hl1 & ->).
    unfold bind at 1.
    destruct (_load_s3_json (Frame.vector_key b) _) as [[u2|e] w2] eqn:H2.
    + apply load_s3_json_ok in H2 as (t2 & Ht2 & Hl2 & ->).
      unfold ret. intros [= <- <- <-]. now exists t1, t2.
    + destruct e; cbn; discriminate.
  - destruct e; cbn; discriminate.
Qed.

(** X10: an answer with status 200 reports the cosine of the two stored
    vectors: the two names of the request each have a vector file that
    parses, and the [similarity] field is [_cosine] of the two parsed
    vectors, whatever the enrichment steps did. *)
Theorem success_reports_cosine_of_stored_vectors (event : json) (w : world) (resp : response) :
  fst (handler event w) = Ok resp ->
  statusCode resp = 200%Z ->
  exists a b t1 t2 v1 v2 score summaries icebreakers,
    Frame.names_of_event event = Some (a, b)
    /\ objects w !! (BUCKET, Frame.vector_key a) = Some t1 /\ json_loads t1 = Some v1
    /\ objects w !! (BUCKET, Frame.vector_key b) = Some t2 /\ json_loads t2 = Some v2
    /\ cosine_json v1 v2 = Ok score
    /\ body resp = JObj [("ok", JBool true); ("similarity", JNum score);
                         ("summaries", summaries); ("icebreakers", icebreakers)].
Proof.
  unfold handler, try_except, bind at 1, lift, ret.
  destruct (decode_body event) as [body0|e] eqn:Hbody; [|intros [= <-]; discriminate].
  destruct (parse_body body0) as [payload|] eqn:Hparse; [|intros [= <-]; discriminate].
  unfold bind at 1.
  destruct (Py.get payload "profileA" JNull) as [pa|e] eqn:Hpa; [|intros [= <-]; discriminate].
  unfold bind at 1.
  destruct (_sanitize pa) as [a|e] eqn:Ha; [|intros [= <-]; discriminate].
  unfold bind at 1.
  destruct (Py.get payload "profileB" JNull) as [pb|e] eqn:Hpb; [|intros [= <-]; discriminate].
  unfold bind at 1.
  destruct (_sanitize pb) as [b|e] eqn:Hb; [|intros [= <-]; discriminate].
  destruct (_ || _); [intros [= <-]; discriminate|].
  unfold bind at 1.
  pose proof (load_vectors_not_found a b w) as Hnf.
  destruct (load_vectors a b w) as [[[r|[v1 v2]]|e] w1] eqn:Hvs;
    [| |intros [= <-]; discriminate].
  - specialize (Hnf _ _ eq_refl). cbn in Hnf. intros [= <-] Hst. congruence.
  - apply load_vectors_ok in Hvs as (t1 & t2 & Ht1 & Hl1 & Ht2 & Hl2 & _).
    unfold bind at 1.
    destruct (cosine_json v1 v2) as [score|e] eqn:Hscore; [|intros [= <-]; discriminate].
    unfold bind at 1.
    destruct (load_and_summarise a w1) as [[sa|e] w2]; [|intros [= <-]; discriminate].
    unfold bind at 1.
    destruct (load_and_summarise b w2) as [[sb|e] w3]; [|intros [= <-]; discriminate].
    unfold bind at 1.
    destruct (icebreakers_for _ _ w3) as [[ice|e] w4]; [|intros [= <-]; discriminate].
    intros [= <-] _.
    exists a, b, t1, t2, v1, v2, score, (JObj (Py.store b (snd sb) [(a, snd sa)])), ice.
    repeat split; try assumption.
    unfold Frame.names_of_event. now rewrite Hbody, Hparse, Hpa, Hpb, Ha, Hb.
Qed.

(** X12: the icebreaker step never raises: it gives null, or a list of at
    most two strings; and when either profile is missing or empty it gives
    null without calling the service. *)
Theorem icebreakers_step_never_raises (prof_a prof_b : json) (w : world) :
  (exists v, fst (icebreakers_for prof_a prof_b w) = Ok v
             /\ (v = JNull
                 \/ exists qs, v = JArr (map JStr qs) /\ (List.length qs <= 2)%nat))
  /\ (Py.truthy prof_a && Py.truthy prof_b = false ->
      icebreakers_for prof_a prof_b w = (Ok JNull, w)).
Proof.
  unfold icebreakers_for. destruct (_ && _).
  - split; [|discriminate]. unfold try_except, bind.
    destruct (BedrockAgent.build_icebreakers_between_profiles prof_a prof_b w)
      as [[qs|e] w1] eqn:Hrun.
    + exists (JArr (map JStr qs)). split; [reflexivity|]. right. exists qs.
      split; [reflexivity|].
      unfold BedrockAgent.build_icebreakers_between_profiles, bind,
        BedrockProfile.call_converse, lift, ret in Hrun.
      destruct (converse _ _ _); [|discriminate].
      destruct (BedrockAgent.response_text _); [|discriminate].
      injection Hrun as <- _. apply questions_at_most_two.
    + exists JNull. split; [reflexivity | now left].
  - split; [|reflexivity]. exists JNull. split; [reflexivity | now left].
Qed.



(** X14: the answer is 400 exactly when the decoded body does not parse as
    JSON, or when it parses, both names sanitize and one of them is empty. *)
Theorem bad_request_characterised (event : json) (w : world) :
  Frame.statusCode_of (handler event w) = Some 400%Z
  <-> (exists body0, decode_body event = Ok body0 /\ parse_body body0 = None)
      \/ (exists a b, Frame.names_of_event event = Some (a, b) /\ (a = "" \/ b = "")).
Proof.
  unfold Frame.statusCode_of, Frame.names_of_event. split.
  - unfold handler, try_except, bind at 1, lift, ret.
    destruct (decode_body event) as [body0|e] eqn:Hbody; [|discriminate].
    destruct (parse_body body0) as [payload|] eqn:Hparse; [|intros _; left; eauto].
    unfold bind at 1.
    destruct (Py.get payload "profileA" JNull) as [pa|e] eqn:Hpa; [|discriminate].
    unfold bind at 1.
    destruct (_sanitize pa) as [a|e] eqn:Ha; [|discriminate].
    unfold bind at 1.
    destruct (Py.get payload "profileB" JNull) as [pb|e] eqn:Hpb; [|discriminate].
    unfold bind at 1.
    destruct (_sanitize pb) as [b|e] eqn:Hb; [|discriminate].
    destruct (Str.is_empty a || Str.is_empty b) eqn:Hempty.
    + intros _. right. exists a, b. split; [reflexivity|].
      destruct a; [now left|]. destruct b; [now right | discriminate].
    + unfold bind at 1.
      pose proof (load_vectors_not_found a b w) as Hnf.
      destruct (load_vectors a b w) as [[[r|[v1 v2]]|e] w1]; [| |discriminate].
      * specialize (Hnf _ _ eq_refl). cbn in *. congruence.
      * unfold bind at 1. destruct (cosine_json v1 v2); [|discriminate].
        unfold bind at 1.
        destruct (load_and_summarise a w1) as [[sa|e] w2]; [|discriminate].
        unfold bind at 1.
        destruct (load_and_summarise b w2) as [[sb|e] w3]; [|discriminate].
        unfold bind at 1.
        destruct (icebreakers_for _ _ w3) as [[ice|e] w4]; discriminate.
  - unfold handler, try_except, bind, lift, ret.
    intros [(body0 & -> & ->) | (a & b & Hnames & Hempty)]; [reflexivity|].
    destruct (decode_body event) as [body0|]; [|discriminate].
    destruct (parse_body body0) as [payload|]; [|discriminate].
    destruct (Py.get payload "profileA" JNull) as [pa|]; [|discriminate].
    destruct (Py.get payload "profileB" JNull) as [pb|]; [|discriminate].
    destruct (_sanitize pa) as [a'|]; [|discriminate].
    destruct (_sanitize pb) as [b'|]; [|discriminate].
    injection Hnames as -> ->.
    destruct Hempty as [-> | ->]; [reflexivity | now rewrite orb_true_r].
Qed.

End HandlerAnswers.

(** ** Waiting for an object *)

Section WaitingFacts.

Import LambdaFunction.

Lemma wait_loop_missing_rounds (polls : nat) (bucket key : string)
      (start timeout interval : Z) (w : world) :
  objects w !! (bucket, key) = None ->
  (0 < interval)%Z ->
  (timeout <= now w - start + Z.of_nat polls * interval)%Z ->
  exists k : nat,
    wait_loop polls bucket key start timeout interval w
    = (Ok false, mkWorld (objects w) (now w + Z.of_nat k * interval)
                         (trace w ++ repeat (S3Head bucket key) k))
    /\ (timeout <= now w - start + Z.of_nat k * interval)%Z
    /\ (k = 0%nat \/ (now w - start + Z.of_nat k * interval < timeout + interval)%Z).
Proof.
  intros Hnone Hpos. revert w Hnone.
  induction polls as [|n IH]; intros w Hnone Hfuel; cbn [wait_loop].
  - replace (now w - start <? timeout)%Z with false by (symmetry; apply Z.ltb_ge; lia).
    exists 0%nat. cbn [repeat]. rewrite app_nil_r, Z.mul_0_l, Z.add_0_r.
    repeat split; [now destruct w | lia | now left].
  - destruct (now w - start <? timeout)%Z eqn:Hlt.
    + apply Z.ltb_lt in Hlt. unfold S3.head_object. rewrite Hnone.
      cbn [not_found_code String.eqb Ascii.eqb Bool.eqb orb].
      unfold bind, Time.sleep.
      match goal with |- context [wait_loop n _ _ _ _ _ ?w1] =>
        destruct (IH w1) as (k & Hrun & Hlo & Hhi); [exact Hnone | cbn [now log]; lia |]
      end.
      exists (S k). rewrite Hrun. cbn [now log objects trace] in *.
      repeat split.
      * f_equal. f_equal; [lia|]. now rewrite <- app_assoc.
      * lia.
      * right. destruct Hhi as [-> | Hhi]; lia.
    + apply Z.ltb_ge in Hlt. exists 0%nat. cbn [repeat].
      rewrite app_nil_r, Z.mul_0_l, Z.add_0_r.
      repeat split; [now destruct w | lia | now left].
Qed.

(** X15: waiting for a key that never appears is bounded.  On a clock that
    advances only while the program sleeps, and with a positive interval,
    [wait_for_s3_key] answers False after [k] look-ups and [k] sleeps, where
    [k * interval] is the first multiple of the interval that reaches the
    timeout; it reads nothing and writes nothing. *)
Theorem waiting_gives_up_after_the_timeout
        (bucket key : string) (timeout interval : Z) (w : world) :
  objects w !! (bucket, key) = None ->
  (0 < interval)%Z -> (0 <= timeout)%Z ->
  exists k : nat,
    wait_for_s3_key bucket key timeout interval w
    = (Ok false, mkWorld (objects w) (now w + Z.of_nat k * interval)
                         (trace w ++ repeat (S3Head bucket key) k))
    /\ (timeout <= Z.of_nat k * interval < timeout + interval)%Z.
Proof.
  intros Hnone Hpos Hnonneg. unfold wait_for_s3_key, bind, Time.time.
  destruct (wait_loop_missing_rounds (Z.to_nat (timeout / interval) + 1) bucket key
              (now w) timeout interval w Hnone Hpos) as (k & Hrun & Hlo & Hhi).
  { pose proof (Z.div_pos timeout interval Hnonneg Hpos).
    pose proof (Z.mul_succ_div_gt timeout interval Hpos). nia. }
  exists k. split; [exact Hrun|]. destruct Hhi as [-> | Hhi]; lia.
Qed.

Lemma waiting_gives_up_after_the_timeout_witness :
  exists k : nat,
    wait_for_s3_key "bond-audio-uploads" "transcripts/a.txt" 5 1 (Scenario.bucket_of [])
    = (Ok false,
       mkWorld (objects (Scenario.bucket_of [])) (now (Scenario.bucket_of []) + Z.of_nat k * 1)
               (trace (Scenario.bucket_of [])
                ++ repeat (S3Head "bond-audio-uploads" "transcripts/a.txt") k))
    /\ (5 <= Z.of_nat k * 1 < 5 + 1)%Z.
Proof.
  apply (waiting_gives_up_after_the_timeout "bond-audio-uploads" "transcripts/a.txt" 5 1
           (Scenario.bucket_of [])); [reflexivity | lia | lia].
Defined.

End WaitingFacts.

(** ** More on transcript resolution *)

Section TranscriptFacts.

Import LambdaFunction.
Context `{Env}.

Lemma referenced_without_file (bucket : string) (vpm_result : json) (w : world) :
  Spec.names_no_file vpm_result = true ->
  referenced_transcript bucket vpm_result w = (Ok None, w).
Proof.
  unfold referenced_transcript, Spec.names_no_file.
  destruct vpm_result as [| | | | |kv]; try reflexivity.
  destruct (Py.lookup "transcriptKey" kv) as [v|]; [|reflexivity].
  intros Hfalsy%negb_true_iff. now rewrite Hfalsy.
Qed.

Lemma wait_missing_rounds (bucket key : string) (timeout interval : Z) (w : world) :
  objects w !! (bucket, key) = None ->
  (0 < interval)%Z -> (0 <= timeout)%Z ->
  exists k : nat,
    wait_for_s3_key bucket key timeout interval w
    = (Ok false, mkWorld (objects w) (now w + Z.of_nat k * interval)
                         (trace w ++ repeat (S3Head bucket key) k))
    /\ (timeout <= Z.of_nat k * interval < timeout + interval)%Z.
Proof.
  intros Hnone Hpos Hnonneg. unfold wait_for_s3_key, bind, Time.time.
  destruct (wait_loop_missing_rounds (Z.to_nat (timeout / interval) + 1) bucket key
              (now w) timeout interval w Hnone Hpos) as (k & Hrun & Hlo & Hhi).
  { pose proof (Z.div_pos timeout interval Hnonneg Hpos).
    pose proof (Z.mul_succ_div_gt timeout interval Hpos). nia. }
  exists k. split; [exact Hrun|]. destruct Hhi as [-> | Hhi]; lia.
Qed.

(** X16: when the job result gives no usable inline text and names no file,
    and neither conventional file exists, resolution fails with the
    [RuntimeError] of the source after 5 look-ups of the text file and 40 of
    the JSON file, 125 seconds of sleeping in all (on a clock that advances
    only while the program sleeps); nothing is read. *)
Theorem no_transcript_is_a_runtime_error
        (bucket orig_key : string) (vpm_result : json) (w : world) :
  inline_transcript vpm_result = None ->
  Spec.names_no_file vpm_result = true ->
  let txt_key := "transcripts/" +:+ _base_name orig_key +:+ ".txt" in
  let json_key := "transcripts/" +:+ _base_name orig_key +:+ ".json" in
  objects w !! (bucket, txt_key) = None ->
  objects w !! (bucket, json_key) = None ->
  _load_transcript_text bucket orig_key vpm_result w
  = (Raise (RuntimeError ("Transcript not found in time: s3://" +:+ bucket
                          +:+ "/" +:+ txt_key +:+ " or " +:+ json_key)),
     mkWorld (objects w) (now w + 125)
             (trace w ++ repeat (S3Head bucket txt_key) 5
                      ++ repeat (S3Head bucket json_key) 40)).
Proof.
  intros Hinline Hnofile txt_key json_key Htxt Hjson.
  unfold _load_transcript_text. rewrite Hinline. unfold bind at 1.
  rewrite (referenced_without_file bucket vpm_result w Hnofile).
  unfold conventional_transcript. fold txt_key. fold json_key. unfold bind at 1.
  destruct (wait_missing_rounds bucket txt_key 5 1 w Htxt) as (k1 & -> & Hk1); [lia | lia |].
  assert (k1 = 5%nat) as -> by lia. unfold bind at 1.
  match goal with |- context [wait_for_s3_key bucket json_key 120 3 ?w1] =>
    destruct (wait_missing_rounds bucket json_key 120 3 w1 Hjson) as (k2 & -> & Hk2);
      [lia | lia |]
  end.
  assert (k2 = 40%nat) as -> by lia.
  cbn [negb raise objects now trace]. f_equal. f_equal; [lia|].
  now rewrite <- app_assoc.
Qed.

(** X17: the plain-text file of the recording wins over its JSON file: when
    the job result gives no usable inline text and names no file and
    [transcripts/<base>.txt] exists, its content is returned as it is (not
    stripped), after one look-up and one read; the JSON file is not touched. *)
Theorem conventional_text_file_is_returned_whole
        (bucket orig_key : string) (vpm_result : json) (content : string) (w : world) :
  inline_transcript vpm_result = None ->
  Spec.names_no_file vpm_result = true ->
  let txt_key := "transcripts/" +:+ _base_name orig_key +:+ ".txt" in
  objects w !! (bucket, txt_key) = Some content ->
  _load_transcript_text bucket orig_key vpm_result w
  = (Ok (JStr content), log (S3Get bucket txt_key) (log (S3Head bucket txt_key) w)).
Proof.
  intros Hinline Hnofile txt_key Htxt.
  unfold _load_transcript_text. rewrite Hinline. unfold bind at 1.
  rewrite (referenced_without_file bucket vpm_result w Hnofile).
  unfold conventional_transcript. fold txt_key. unfold bind at 1.
  rewrite (wait_present bucket txt_key content 5 1 w Htxt) by lia.
  unfold bind at 1, ret at 1. cbn [negb].
  unfold try_except, bind, S3.get_object. cbn [objects log]. now rewrite Htxt.
Qed.

(** X18: the usual path.  When the job result has no usable inline text and
    names a file that exists and whose stripped content does not start with
    a brace or a bracket, the stripped content is the transcript, after one
    look-up and one read of that file. *)
Theorem named_text_file_is_returned_stripped
        (bucket orig_key key content : string) (kv : list (string * json)) (w : world) :
  inline_transcript (JObj kv) = None ->
  Py.lookup "transcriptKey" kv = Some (JStr key) ->
  key <> "" ->
  objects w !! (bucket, key) = Some content ->
  plain_text (Str.strip content) = true ->
  _load_transcript_text bucket orig_key (JObj kv) w
  = (Ok (JStr (Str.strip content)), log (S3Get bucket key) (log (S3Head bucket key) w)).
Proof.
  intros Hinline Hkey Hne Hobj Hplain.
  unfold _load_transcript_text. rewrite Hinline. unfold bind at 1.
  unfold referenced_transcript. rewrite Hkey.
  destruct key as [|c key]; [congruence|]. cbn [Py.truthy Str.is_empty negb as_key].
  unfold bind at 1, lift at 1. unfold bind at 1.
  rewrite (wait_present bucket _ content 60 2 w Hobj) by lia.
  unfold bind at 1, S3.get_object. cbn [objects log]. rewrite Hobj, Hplain. reflexivity.
Qed.

(** X19: a named file that does not exist is fatal.  When the job result
    names a file that is missing, resolution sleeps 60 seconds for it (30
    look-ups, on a clock that advances only while the program sleeps), then
    raises the store's [NoSuchKey] error from the read; the conventional
    files are never consulted, whether they exist or not. *)
Theorem named_missing_file_is_fatal
        (bucket orig_key key : string) (kv : list (string * json)) (w : world) :
  inline_transcript (JObj kv) = None ->
  Py.lookup "transcriptKey" kv = Some (JStr key) ->
  key <> "" ->
  objects w !! (bucket, key) = None ->
  _load_transcript_text bucket orig_key (JObj kv) w
  = (Raise (ClientError "NoSuchKey"),
     mkWorld (objects w) (now w + 60)
             (trace w ++ repeat (S3Head bucket key) 30 ++ [S3Get bucket key])).
Proof.
  intros Hinline Hkey Hne Hobj.
  unfold _load_transcript_text. rewrite Hinline. unfold bind at 1.
  unfold referenced_transcript. rewrite Hkey.
  destruct key as [|c key]; [congruence|]. cbn [Py.truthy Str.is_empty negb as_key].
  unfold bind at 1, lift at 1. unfold bind at 1.
  destruct (wait_missing_rounds bucket _ 60 2 w Hobj) as (k & -> & Hk); [lia | lia |].
  assert (k = 30%nat) as -> by lia.
  unfold bind at 1, S3.get_object. cbn [objects log now trace]. rewrite Hobj.
  unfold log. cbn [objects now trace]. rewrite <- app_assoc. do 2 f_equal; lia.
Qed.

End TranscriptFacts.

(** ** The ingestion run as a whole *)

Section IngestionFacts.

Import Frame LambdaFunction.
Context `{Env}.

Lemma read_only_wait_loop (polls : nat) (bucket key : string) (start timeout interval : Z) :
  read_only (wait_loop polls bucket key start timeout interval).
Proof.
  induction polls as [|n IH]; intros w; cbn [wait_loop].
  - destruct (_ <? _)%Z; apply reads_only_refl.
  - destruct (_ <? _)%Z; [|apply reads_only_refl].
    pose proof (read_only_head bucket key w) as Hhead.
    destruct (S3.head_object bucket key w) as [[[]|e] w1]; cbn [snd] in *; [exact Hhead|].
    destruct e; try exact Hhead.
    destruct (not_found_code code); [|exact Hhead].
    eapply reads_only_trans; [exact Hhead|].
    apply (read_only_bind (Time.sleep interval)); [apply read_only_sleep | intros; apply IH].
Qed.

Lemma read_only_wait (bucket key : string) (timeout interval : Z) :
  read_only (wait_for_s3_key bucket key timeout interval).
Proof.
  unfold wait_for_s3_key. apply read_only_bind; [apply read_only_time|].
  intros start. apply read_only_wait_loop.
Qed.

Lemma read_only_referenced (bucket : string) (vpm_result : json) :
  read_only (referenced_transcript bucket vpm_result).
Proof.
  unfold referenced_transcript. destruct vpm_result; try apply read_only_ret.
  destruct (Py.truthy _); [|apply read_only_ret].
  apply read_only_bind; [apply read_only_lift|]. intros k.
  apply read_only_bind; [apply read_only_wait|]. intros _.
  apply read_only_bind; [apply read_only_get|]. intros content.
  destruct (plain_text _); [apply read_only_ret|].
  apply read_only_try_except.
  - apply read_only_bind; [apply read_only_lift|]. intros payload.
    apply read_only_bind; [apply read_only_lift | intros; apply read_only_ret].
  - intros e k0 [= <-]. apply read_only_ret.
Qed.

Lemma read_only_conventional (bucket base : string) :
  read_only (conventional_transcript bucket base).
Proof.
  unfold conventional_transcript.
  apply read_only_bind; [apply read_only_wait|]. intros found_txt.
  apply read_only_bind; [destruct found_txt; [apply read_only_ret | apply read_only_wait]|].
  intros found. destruct (negb found); [apply read_only_raise|].
  apply read_only_try_except.
  - apply read_only_bind; [apply read_only_get | intros; apply read_only_ret].
  - intros e k [= <-].
    apply read_only_bind; [apply read_only_get|]. intros content.
    apply read_only_bind; apply read_only_lift || (intros; apply read_only_lift).
Qed.

Lemma read_only_load_transcript (bucket orig_key : string) (vpm_result : json) :
  read_only (_load_transcript_text bucket orig_key vpm_result).
Proof.
  unfold _load_transcript_text. destruct (inline_transcript _); [apply read_only_ret|].
  apply read_only_bind; [apply read_only_referenced|].
  intros [t|]; [apply read_only_ret | apply read_only_conventional].
Qed.

(** X20: a failed ingestion run never stores a vector.  When
    [lambda_handler] raises, either the event was malformed and nothing ran
    (the world is as it was), or the run was for the bucket and the key of
    the event and, compared with the bucket as the transcription run left
    it, either no object has changed, or the one file [profile.json] of this
    recording has been written and nothing else: the case of a store that
    refuses the second write.  The two writes are not atomic. *)
Theorem failed_run_stores_no_vector (event : json) (w w' : world) (e : exn) :
  lambda_handler event w = (Raise e, w') ->
  w' = w
  \/ exists bucket key,
       record_of_event event = Ok (JStr bucket, JStr key)
       /\ let after := snd (run_vpm bucket (unquote_plus key) w) in
          let folder := "profiles/" +:+ _base_name (unquote_plus key) +:+ "/" in
          objects w' = objects after
          \/ exists profile,
               objects w'
               = <[(bucket, folder +:+ "profile.json") := json_dumps_indent profile]>
                   (objects after).
Proof.
  unfold lambda_handler, bind at 1, lift at 1.
  destruct (record_of_event event) as [[vb vk]|e0] eqn:Hrec; [|intros [= _ <-]; now left].
  cbn [fst snd]. unfold bind at 1, lift at 1.
  destruct vk as [| | |key| |]; try (intros [= _ <-]; now left).
  unfold bind at 1, lift at 1.
  destruct vb as [| | |bucket| |]; try (intros [= _ <-]; now left).
  intros Hrun. right. exists bucket, key. split; [reflexivity|]. cbn zeta.
  revert Hrun. unfold bind at 1.
  destruct (run_vpm bucket (unquote_plus key) w) as [[vpm_result|e0] w1];
    [|intros [= _ <-]; now left].
  cbn [snd]. unfold bind at 1.
  pose proof (read_only_load_transcript bucket (unquote_plus key) vpm_result w1) as [H1 _].
  destruct (_load_transcript_text _ _ vpm_result w1) as [[text|e1] w2]; cbn [snd] in H1;
    [|intros [= _ <-]; now left].
  unfold bind at 1, lift at 1.
  destruct (len text); [|intros [= _ <-]; now left].
  unfold bind at 1.
  pose proof (read_only_build_profile text w2) as [H2 _].
  destruct (BedrockProfile.build_profile_from_transcript text w2) as [[profile|e2] w3];
    cbn [snd] in H2; [|intros [= _ <-]; left; congruence].
  unfold bind at 1.
  pose proof (read_only_embed_profile profile w3) as [H3 _].
  destruct (Embeddings.embed_profile profile w3) as [[vector|e3] w4];
    cbn [snd] in H3; [|intros [= _ <-]; left; congruence].
  unfold bind at 1, _save_profile_and_vector, bind, S3.put_object, S3.put_object_with, ret.
  destruct (put_error (trace w4) _ _); [intros [= _ <-]; left; cbn [log objects]; congruence|].
  cbn [trace].
  destruct (put_error _ _ _); [|discriminate].
  intros [= _ <-]. right. exists profile. cbn [log objects]. congruence.
Qed.

Lemma append_assoc (a b c : string) : (a +:+ b) +:+ c = a +:+ (b +:+ c).
Proof.
  induction a as [|x a IH]; [reflexivity|].
  change (String x ((a +:+ b) +:+ c) = String x (a +:+ (b +:+ c))). now rewrite IH.
Qed.

(** X21: what one side writes the other reads.  For the service's own bucket
    and any name, and when [json.loads] reads back what [json.dumps] wrote
    for this profile and this vector, the profile and the vector stored by a
    run of [_save_profile_and_vector] that returned are the ones
    [_load_profile] and [_load_vector] return for that name: writer and
    reader build the same two keys. *)
Theorem stored_profile_and_vector_are_read_back
        (name : string) (profile : json) (vector : list float) (w w' : world) (saved : json) :
  json_loads (json_dumps_indent profile) = Some profile ->
  json_loads (json_dumps (JArr (map JNum vector))) = Some (JArr (map JNum vector)) ->
  _save_profile_and_vector BUCKET name profile vector w = (Ok saved, w') ->
  fst (AppSimilarity._load_profile name w') = Ok profile
  /\ fst (AppSimilarity._load_vector name w') = Ok (JArr (map JNum vector)).
Proof.
  intros Hprofile Hvector Hsave.
  destruct (save_stores_both _ _ _ _ _ _ _ Hsave) as (_ & Hp & Hv).
  rewrite !append_assoc in Hp, Hv.
  change ("/" +:+ "profile.json") with "/profile.json" in Hp.
  change ("/" +:+ "vector.json") with "/vector.json" in Hv.
  unfold AppSimilarity._load_profile, AppSimilarity._load_vector. split.
  - rewrite (load_s3_json_present _ _ w' Hp), Hprofile. reflexivity.
  - rewrite (load_s3_json_present _ _ w' Hv), Hvector. reflexivity.
Qed.

End IngestionFacts.

Lemma stored_profile_and_vector_are_read_back_witness :
  let E := Scenario.env Scenario.summary_ok Scenario.icebreakers_ok in
  let w' := snd (@LambdaFunction._save_profile_and_vector E (@BUCKET E) "alice"
                   Scenario.profile0 [1%float; 0%float] (Scenario.bucket_of [])) in
  fst (@AppSimilarity._load_profile E "alice" w') = Ok Scenario.profile0
  /\ fst (@AppSimilarity._load_vector E "alice" w')
     = Ok (JArr (map JNum [1%float; 0%float])).
Proof.
  intros E w'.
  apply (@stored_profile_and_vector_are_read_back E "alice" Scenario.profile0
           [1%float; 0%float] (Scenario.bucket_of []) w'
           (JObj [("profile_key", JStr "profiles/alice/profile.json");
                  ("vector_key", JStr "profiles/alice/vector.json")])); reflexivity.
Defined.

(** ** The name a recording is stored under *)

Section StemFacts.

Import LambdaFunction.

Lemma rfind_from_absent (c : ascii) (l : list ascii) (i best : Z) :
  ~ In c l -> Str.rfind_from c i best l = best.
Proof.
  revert i best. induction l as [|d l IH]; intros i best Hnot; cbn [Str.rfind_from];
    [reflexivity|].
  destruct (Ascii.eqb d c) eqn:Hd.
  - apply Ascii.eqb_eq in Hd. subst d. exfalso. apply Hnot. now left.
  - apply IH. intros Hin. apply Hnot. now right.
Qed.

Lemma rfind_from_last (c : ascii) (a b : list ascii) (i best : Z) :
  ~ In c b -> Str.rfind_from c i best (a ++ c :: b) = (i + Z.of_nat (List.length a))%Z.
Proof.
  intros Hnot. revert i best. induction a as [|d a IH]; intros i best.
  - cbn [app Str.rfind_from List.length]. rewrite Ascii.eqb_refl.
    rewrite rfind_from_absent by exact Hnot. lia.
  - cbn [app Str.rfind_from List.length]. rewrite IH. lia.
Qed.

Lemma slice_middle (a b : list ascii) (c : ascii) :
  Str.slice (Z.of_nat (List.length a) + 1)
            (Z.of_nat (String.length (Str.of_chars (a ++ c :: b))))
            (Str.of_chars (a ++ c :: b))
  = Str.of_chars b.
Proof.
  unfold Str.slice. rewrite chars_of_chars, length_of_chars, length_app. cbn [List.length].
  replace (Z.to_nat (Z.of_nat (List.length a) + 1)) with (List.length a + 1)%nat by lia.
  replace (a ++ c :: b) with ((a ++ [c]) ++ b) by now rewrite <- app_assoc.
  rewrite skipn_app, skipn_all2 by (rewrite length_app; cbn; lia).
  rewrite length_app. cbn [List.length app].
  replace (List.length a + 1 - (List.length a + 1))%nat with 0%nat by lia.
  cbn [skipn]. f_equal. apply firstn_all2. lia.
Qed.

Lemma slice_prefix (a b : list ascii) :
  Str.slice 0 (Z.of_nat (List.length a)) (Str.of_chars (a ++ b)) = Str.of_chars a.
Proof.
  unfold Str.slice. rewrite chars_of_chars. cbn [Z.to_nat skipn].
  replace (Z.to_nat (Z.of_nat (List.length a) - 0)) with (List.length a) by lia.
  f_equal. apply take_app_length.
Qed.

Lemma stem_of_file (name ext : list ascii) :
  name <> [] -> ~ In "/"%char name -> ~ In "."%char name ->
  ~ In "/"%char ext -> ~ In "."%char ext ->
  splitext_root (Str.of_chars (name ++ "."%char :: ext)) = Str.of_chars name.
Proof.
  intros Hne Hns Hnd Hes Hed. unfold splitext_root, Str.rfind. rewrite chars_of_chars.
  rewrite (rfind_from_absent "/").
  2:{ intros [Hin|[Heq|Hin]]%in_app_or; [contradiction | discriminate | contradiction]. }
  rewrite (rfind_from_last "." name ext 0 (-1) Hed).
  replace (-1 + 1)%Z with 0%Z by lia. rewrite Z.add_0_l, slice_prefix, chars_of_chars.
  replace (-1 <? Z.of_nat (List.length name))%Z with true by (symmetry; apply Z.ltb_lt; lia).
  destruct name as [|c name]; [congruence|]. cbn [existsb andb].
  destruct (Ascii.eqb c ".") eqn:Hc; [|reflexivity].
  apply Ascii.eqb_eq in Hc. subst c. exfalso. apply Hnd. now left.
Qed.

(** X22: the name a recording is stored under is the stem of its file name.
    For an object key [<dir>/<name>.<ext>], where the name is not empty and
    neither name nor extension holds a slash or a dot, the base name is
    exactly [<name>]: the folder and the extension are dropped and the
    letters are kept as they are, in their case. *)
Theorem base_name_is_the_stem (dir name ext : string) :
  name <> "" ->
  Str.contains "/" name = false -> Str.contains "." name = false ->
  Str.contains "/" ext = false -> Str.contains "." ext = false ->
  _base_name (dir +:+ "/" +:+ name +:+ "." +:+ ext) = name
  /\ _base_name (name +:+ "." +:+ ext) = name.
Proof.
  intros Hne Hns Hnd Hes Hed.
  assert (Hin : forall c s, Str.contains c s = false -> ~ In c (Str.chars s)).
  { intros c s Hc Hin. unfold Str.contains in Hc.
    assert (existsb (Ascii.eqb c) (Str.chars s) = true); [|congruence].
    apply existsb_exists. exists c. split; [exact Hin | apply Ascii.eqb_refl]. }
  apply Hin in Hns, Hnd, Hes, Hed.
  assert (Hne' : Str.chars name <> []) by (destruct name; [congruence | discriminate]).
  assert (Hfile : name +:+ "." +:+ ext
                  = Str.of_chars (Str.chars name ++ "."%char :: Str.chars ext)).
  { rewrite <- (of_chars_chars (name +:+ "." +:+ ext)). now rewrite !chars_append. }
  assert (Hstem : splitext_root (name +:+ "." +:+ ext) = name).
  { rewrite Hfile, stem_of_file by assumption. apply of_chars_chars. }
  assert (Hfree : ~ In "/"%char (Str.chars name ++ "."%char :: Str.chars ext)).
  { intros [H1|[Heq|H1]]%in_app_or; [contradiction | discriminate | contradiction]. }
  unfold _base_name. split.
  - replace (basename (dir +:+ "/" +:+ name +:+ "." +:+ ext)) with (name +:+ "." +:+ ext);
      [exact Hstem|].
    assert (Hkey : dir +:+ "/" +:+ name +:+ "." +:+ ext
                   = Str.of_chars (Str.chars dir ++ "/"%char
                                     :: (Str.chars name ++ "."%char :: Str.chars ext))).
    { rewrite <- (of_chars_chars (dir +:+ _)). now rewrite !chars_append. }
    unfold basename, Str.rfind. rewrite Hkey, chars_of_chars.
    rewrite (rfind_from_last "/" _ _ 0 (-1) Hfree), Z.add_0_l, slice_middle.
    now rewrite Hfile.
  - replace (basename (name +:+ "." +:+ ext)) with (name +:+ "." +:+ ext); [exact Hstem|].
    unfold basename, Str.rfind. rewrite Hfile at 2 3 4. rewrite chars_of_chars.
    rewrite (rfind_from_absent "/" _ 0 (-1) Hfree). unfold Str.slice.
    rewrite chars_of_chars, length_of_chars. cbn [Z.to_nat skipn].
    replace (Z.to_nat (Z.of_nat _ - (-1 + 1))) with
      (List.length (Str.chars name ++ "."%char :: Str.chars ext)) by lia.
    now rewrite firstn_all.
Qed.

Lemma base_name_is_the_stem_witness :
  _base_name ("uploads/2024" +:+ "/" +:+ "Alice" +:+ "." +:+ "mp3") = "Alice"
  /\ _base_name ("Alice" +:+ "." +:+ "mp3") = "Alice".
Proof.
  apply (base_name_is_the_stem "uploads/2024" "Alice" "mp3"); [discriminate | reflexivity..].
Defined.

End StemFacts.

(** ** More on embeddings *)

Section EmbeddingFacts.

Import Embeddings.

Lemma part_nil (label : string) (entries : list string) :
  part label entries = [] <-> entries = [].
Proof. destruct entries; cbn; split; congruence. Qed.

Lemma join_not_empty (sep p : string) (rest : list string) :
  p <> "" -> Str.join sep (p :: rest) <> "".
Proof.
  intros Hp. cbn [Str.join]. destruct rest; [exact Hp|].
  destruct p; [congruence | discriminate].
Qed.

Lemma part_not_empty (label : string) (entries : list string) (p : string) :
  label <> "" -> In p (part label entries) -> p <> "".
Proof.
  intros Hl. destruct entries as [|e entries]; [intros []|].
  intros [<-|[]]. destruct label; [congruence | discriminate].
Qed.

(** X23: [_flatten_profile] returns the empty string exactly when each of
    the three categories is left with no entry (after the blank ones are
    dropped); so [embed_profile] sends the sentinel in that case and in no
    other. *)
Theorem flatten_is_empty_iff_no_entry (profile : json) :
  _flatten_profile profile = Ok ""
  <-> category profile "hobbies" = Ok []
      /\ category profile "personality traits" = Ok []
      /\ category profile "traits looking for " = Ok [].
Proof.
  unfold _flatten_profile, rbind. split.
  - destruct (category profile "hobbies") as [h|]; [|discriminate].
    destruct (category profile "personality traits") as [t|]; [|discriminate].
    destruct (category profile "traits looking for ") as [l|]; [|discriminate].
    destruct (part "hobbies: " h ++ part "personality: " t ++ part "looking_for: " l)
      as [|p parts] eqn:Hparts.
    + intros _. apply app_eq_nil in Hparts as [Hh [Ht Hl]%app_eq_nil].
      apply part_nil in Hh, Ht, Hl. now subst.
    + intros [= Hjoin]. exfalso. revert Hjoin. apply join_not_empty.
      assert (Hin : In p (part "hobbies: " h ++ part "personality: " t
                          ++ part "looking_for: " l)) by (rewrite Hparts; now left).
      apply in_app_or in Hin as [Hin|[Hin|Hin]%in_app_or];
        eapply part_not_empty; try exact Hin; discriminate.
  - now intros (-> & -> & ->).
Qed.

Context `{Env}.

(** X24: the two parsers of the embedding answer agree.  On a dict without
    an [embedding] field, whenever the batch parser returns a non-empty list
    of vectors, the single parser returns the first of them. *)
Theorem single_parser_takes_first_of_batch
        (kv : list (string * json)) (v : list float) (vs : list (list float)) :
  Py.lookup "embedding" kv = None ->
  _parse_titan_embeddings (JObj kv) = Ok (v :: vs) ->
  _parse_titan_embedding (JObj kv) = Ok v.
Proof.
  intros Hnone. unfold _parse_titan_embeddings, _parse_titan_embedding, rbind, contains_key.
  rewrite Hnone. cbn [Py.getitem_key].
  destruct (Py.lookup "embeddings" kv) as [many|]; [|discriminate].
  destruct many as [| | | |vecs|]; cbn [is_list andb]; try discriminate.
  cbn [Py.iter]. destruct vecs as [|x xs]; [discriminate|].
  cbn [rmap_list Py.truthy andb Py.getitem_0].
  destruct (floats x) as [fx|]; [|discriminate].
  destruct (rmap_list floats xs); [|discriminate].
  now intros [= -> _].
Qed.

(** X25: the batch parser accepts a single answer as a batch of one.  On a
    dict with an [embedding] field and no [embeddings] field it returns the
    one-element list of what the single parser returns, or raises as the
    single parser does. *)
Theorem batch_parser_wraps_single (kv : list (string * json)) (item : json) :
  Py.lookup "embedding" kv = Some item ->
  Py.lookup "embeddings" kv = None ->
  _parse_titan_embeddings (JObj kv)
  = match _parse_titan_embedding (JObj kv) with
    | Ok v => Ok [v]
    | Raise e => Raise e
    end.
Proof.
  intros Hsome Hnone.
  unfold _parse_titan_embeddings, _parse_titan_embedding, rbind, contains_key.
  rewrite Hsome, Hnone. cbn [Py.getitem_key andb]. rewrite Hsome.
  now destruct (floats item).
Qed.

End EmbeddingFacts.

Lemma single_parser_takes_first_of_batch_witness :
  let E := Scenario.env Scenario.summary_ok Scenario.icebreakers_ok in
  @Embeddings._parse_titan_embedding E
    (JObj [("embeddings", JArr [JArr [JNum 1; JNum 0]; JArr [JNum 0; JNum 1]])])
  = Ok [1%float; 0%float].
Proof.
  intros E.
  apply (@single_parser_takes_first_of_batch E
           [("embeddings", JArr [JArr [JNum 1; JNum 0]; JArr [JNum 0; JNum 1]])]
           [1%float; 0%float] [[0%float; 1%float]]); reflexivity.
Defined.

Lemma batch_parser_wraps_single_witness :
  let E := Scenario.env Scenario.summary_ok Scenario.icebreakers_ok in
  @Embeddings._parse_titan_embeddings E (JObj [("embedding", JArr [JNum 1; JNum 0])])
  = match @Embeddings._parse_titan_embedding E (JObj [("embedding", JArr [JNum 1; JNum 0])]) with
    | Ok v => Ok [v]
    | Raise e => Raise e
    end.
Proof.
  intros E.
  apply (@batch_parser_wraps_single E [("embedding", JArr [JNum 1; JNum 0])]
           (JArr [JNum 1; JNum 0])); reflexivity.
Defined.

(** ** Symmetry of the similarity *)

Section SymmetryFacts.

Import Cosine.
Local Open Scope float_scope.

Lemma SFmul_comm (a b : spec_float) : SF64mul a b = SF64mul b a.
Proof.
  destruct a as [sa|sa| |sa ma ea], b as [sb|sb| |sb mb eb]; cbn;
    rewrite ?(xorb_comm sa sb); try reflexivity.
  now rewrite (Pos.mul_comm ma mb), (Z.add_comm ea eb).
Qed.

Lemma float_mul_comm (a b : float) : a * b = b * a.
Proof. apply Prim2SF_inj. now rewrite !mul_spec, SFmul_comm. Qed.

Lemma dot_comm (x y : list float) : dot x y = dot y x.
Proof.
  unfold dot. f_equal. revert y. induction x as [|a x IH]; intros [|b y]; cbn;
    try reflexivity.
  now rewrite IH, float_mul_comm.
Qed.

(** X26: the similarity is symmetric: [_cosine x y] and [_cosine y x] are
    the same binary64 value, with no rounding difference, for vectors of any
    lengths (when one is not a number, so is the other). *)
Theorem cosine_is_symmetric (x y : list float) : _cosine x y = _cosine y x.
Proof.
  rewrite !cosine_unfolded, (dot_comm x y), (float_mul_comm (Spec.norm x) (Spec.norm y)).
  now rewrite orb_comm.
Qed.

End SymmetryFacts.

(** ** The summary sentence *)

Section SentenceFacts.

Import BedrockAgent.
Context `{Env}.

(** X27: every summary [build_sentence_from_profile] returns is a label of
    at most 30 characters, on one line, in which white space is single plain
    spaces and none stands at either end. *)
Theorem summary_is_a_short_label (profile : json) (w w' : world) (sentence : string) :
  build_sentence_from_profile profile w = (Ok sentence, w') ->
  (String.length sentence <= 30)%nat
  /\ Frame.plain_spaces sentence = true
  /\ Str.strip sentence = sentence.
Proof.
  unfold build_sentence_from_profile, bind, BedrockProfile.call_converse, lift, ret.
  destruct (converse _ _ _); [|discriminate].
  destruct (response_text _) as [text|]; [|discriminate].
  intros [= <- _]. split; [apply clean_summary_length | apply clean_summary_shape].
Qed.

End SentenceFacts.

(** ** The properties on the scenarios *)

Lemma bad_request_touches_nothing_witness :
  let E := Scenario.env Scenario.summary_ok Scenario.icebreakers_ok in
  snd (@AppSimilarity.handler E (Scenario.api_event (Scenario.request "alice" " "))
         Scenario.stored)
  = Scenario.stored.
Proof.
  intros E.
  apply (@bad_request_touches_nothing E (Scenario.api_event (Scenario.request "alice" " "))
           Scenario.stored
           (AppSimilarity._json
              (AppSimilarity.error_body "profileA and profileB are required") 400));
    vm_compute; reflexivity.
Defined.

Lemma undecodable_body_is_a_500_witness :
  let E := Scenario.env Scenario.summary_ok Scenario.icebreakers_ok in
  Frame.statusCode_of (@AppSimilarity.handler E Cases.base64_event Scenario.stored)
  = Some 500%Z
  /\ snd (@AppSimilarity.handler E Cases.base64_event Scenario.stored) = Scenario.stored.
Proof.
  intros E.
  apply (@undecodable_body_is_a_500 E Cases.base64_event (JBool true) "abc" Scenario.stored);
    reflexivity.
Defined.

Lemma missing_vector_is_a_404_witness :
  let E := Scenario.env Scenario.summary_ok Scenario.icebreakers_ok in
  fst (@AppSimilarity.handler E (Scenario.api_event (Scenario.request "alice" "bob"))
         (Scenario.bucket_of [("profiles/alice/vector.json", Scenario.dumps Scenario.vector0)]))
  = Ok (AppSimilarity._json
          (AppSimilarity.error_body "Vector file not found: profiles/bob/vector.json") 404).
Proof.
  intros E.
  apply (proj1 (@missing_vector_is_a_404 E
                  (Scenario.api_event (Scenario.request "alice" "bob")) "alice" "bob"
                  (Scenario.bucket_of
                     [("profiles/alice/vector.json", Scenario.dumps Scenario.vector0)])
                  eq_refl ltac:(discriminate) ltac:(discriminate)
                  (or_intror (ex_intro _ (Scenario.dumps Scenario.vector0)
                                (ex_intro _ Scenario.vector0
                                   (conj eq_refl (conj eq_refl eq_refl))))))).
Defined.

Lemma success_reports_cosine_of_stored_vectors_witness :
  let E := Scenario.env Scenario.summary_ok Scenario.icebreakers_ok in
  exists a b t1 t2 v1 v2 score summaries icebreakers,
    @Frame.names_of_event E (Scenario.api_event (Scenario.request "alice" "bob")) = Some (a, b)
    /\ objects Cases.vectors_only !! (@BUCKET E, Frame.vector_key a) = Some t1
    /\ @json_loads E t1 = Some v1
    /\ objects Cases.vectors_only !! (@BUCKET E, Frame.vector_key b) = Some t2
    /\ @json_loads E t2 = Some v2
    /\ AppSimilarity.cosine_json v1 v2 = Ok score
    /\ body (AppSimilarity._json
               (JObj [("ok", JBool true); ("similarity", JNum 0);
                      ("summaries", JObj [("alice", JNull); ("bob", JNull)]);
                      ("icebreakers", JNull)]) 200)
       = JObj [("ok", JBool true); ("similarity", JNum score);
               ("summaries", summaries); ("icebreakers", icebreakers)].
Proof.
  intros E.
  apply (@success_reports_cosine_of_stored_vectors E
           (Scenario.api_event (Scenario.request "alice" "bob")) Cases.vectors_only);
    vm_compute; reflexivity.
Defined.


Lemma no_transcript_is_a_runtime_error_witness :
  let E := Scenario.env Scenario.summary_ok Scenario.icebreakers_ok in
  let w := Scenario.bucket_of [] in
  @LambdaFunction._load_transcript_text E "bond-audio-uploads" "uploads/a.mp3"
    Cases.silent_result w
  = (Raise (RuntimeError ("Transcript not found in time: s3://bond-audio-uploads/"
                          +:+ "transcripts/a.txt or transcripts/a.json")),
     mkWorld (objects w) 125
             (repeat (S3Head "bond-audio-uploads" "transcripts/a.txt") 5
              ++ repeat (S3Head "bond-audio-uploads" "transcripts/a.json") 40)).
Proof.
  intros E w.
  apply (@no_transcript_is_a_runtime_error E "bond-audio-uploads" "uploads/a.mp3"
           Cases.silent_result w); reflexivity.
Defined.

Lemma conventional_text_file_is_returned_whole_witness :
  let E := Scenario.env Scenario.summary_ok Scenario.icebreakers_ok in
  let w := Scenario.bucket_of [("transcripts/a.txt", " I like chess ")] in
  @LambdaFunction._load_transcript_text E "bond-audio-uploads" "uploads/a.mp3"
    Cases.silent_result w
  = (Ok (JStr " I like chess "),
     log (S3Get "bond-audio-uploads" "transcripts/a.txt")
         (log (S3Head "bond-audio-uploads" "transcripts/a.txt") w)).
Proof.
  intros E w.
  apply (@conventional_text_file_is_returned_whole E "bond-audio-uploads" "uploads/a.mp3"
           Cases.silent_result " I like chess " w); reflexivity.
Defined.

Lemma named_text_file_is_returned_stripped_witness :
  let E := Scenario.env Scenario.summary_ok Scenario.icebreakers_ok in
  let w := Scenario.bucket_of [("out/a.txt", " I like chess ")] in
  @LambdaFunction._load_transcript_text E "bond-audio-uploads" "uploads/a.mp3"
    (JObj [("transcriptKey", JStr "out/a.txt")]) w
  = (Ok (JStr "I like chess"),
     log (S3Get "bond-audio-uploads" "out/a.txt")
         (log (S3Head "bond-audio-uploads" "out/a.txt") w)).
Proof.
  intros E w.
  apply (@named_text_file_is_returned_stripped E "bond-audio-uploads" "uploads/a.mp3"
           "out/a.txt" " I like chess " [("transcriptKey", JStr "out/a.txt")] w);
    [reflexivity | reflexivity | discriminate | reflexivity | reflexivity].
Defined.

Lemma named_missing_file_is_fatal_witness :
  let E := Scenario.env Scenario.summary_ok Scenario.icebreakers_ok in
  let w := Scenario.bucket_of [("transcripts/a.txt", "I like chess")] in
  @LambdaFunction._load_transcript_text E "bond-audio-uploads" "uploads/a.mp3"
    (JObj [("transcriptKey", JStr "out/a.txt")]) w
  = (Raise (ClientError "NoSuchKey"),
     mkWorld (objects w) 60
             (repeat (S3Head "bond-audio-uploads" "out/a.txt") 30
              ++ [S3Get "bond-audio-uploads" "out/a.txt"])).
Proof.
  intros E w.
  apply (@named_missing_file_is_fatal E "bond-audio-uploads" "uploads/a.mp3"
           "out/a.txt" [("transcriptKey", JStr "out/a.txt")] w);
    [reflexivity | reflexivity | discriminate | reflexivity].
Defined.

Lemma failed_run_stores_no_vector_witness :
  let E := Cases.half_written_env in
  let w := Scenario.bucket_of [] in
  let w' := snd (@LambdaFunction.lambda_handler E (Scenario.upload_event "uploads/a.mp3") w) in
  w' = w
  \/ exists bucket key,
       LambdaFunction.record_of_event (Scenario.upload_event "uploads/a.mp3")
       = Ok (JStr bucket, JStr key)
       /\ let after := snd (@run_vpm E bucket (@unquote_plus E key) w) in
          let folder := "profiles/" +:+ LambdaFunction._base_name (@unquote_plus E key)
                        +:+ "/" in
          objects w' = objects after
          \/ exists profile,
               objects w'
               = <[(bucket, folder +:+ "profile.json") := @json_dumps_indent E profile]>
                   (objects after).
Proof.
  intros E w w'.
  apply (@failed_run_stores_no_vector E (Scenario.upload_event "uploads/a.mp3") w w'
           (ClientError "SlowDown")).
  vm_compute. reflexivity.
Defined.

(** The second case happens: when the store refuses the vector, the run
    fails and leaves a profile without a vector, for which the similarity
    service then answers 404. *)
Example refused_vector_write_leaves_the_profile :
  let E := Cases.half_written_env in
  let run := @LambdaFunction.lambda_handler E (Scenario.upload_event "uploads/alice.mp3")
               (Scenario.bucket_of []) in
  fst run = Raise (ClientError "SlowDown")
  /\ objects (snd run) !! ("bond-audio-uploads", "profiles/alice/profile.json")
     = Some (Scenario.dumps_indent 0 Scenario.profile0)
  /\ objects (snd run) !! ("bond-audio-uploads", "profiles/alice/vector.json") = None
  /\ Frame.statusCode_of
       (@AppSimilarity.handler E (Scenario.api_event (Scenario.request "alice" "bob"))
          (snd run))
     = Some 404%Z.
Proof. repeat split; vm_compute; reflexivity. Qed.

Lemma summary_is_a_short_label_witness :
  let E := Scenario.env Cases.wordy_summary Scenario.icebreakers_ok in
  (String.length "Adventurous, outgoing and very" <= 30)%nat
  /\ Frame.plain_spaces "Adventurous, outgoing and very" = true
  /\ Str.strip "Adventurous, outgoing and very" = "Adventurous, outgoing and very".
Proof.
  intros E.
  apply (@summary_is_a_short_label E Scenario.profile0 Scenario.stored
           (snd (@BedrockAgent.build_sentence_from_profile E Scenario.profile0 Scenario.stored))
           "Adventurous, outgoing and very").
  vm_compute. reflexivity.
Defined.

(** ** The batch call *)

Section BatchFacts.

Import Embeddings.
Context `{Env}.

(** X28: [embed_texts] makes one call for the whole batch and does not
    compare the number of vectors with the number of texts: when the service
    answers in the single form (an [embedding] field, no [embeddings]
    field), the result holds one vector, whatever the number of texts. *)
Theorem embed_texts_single_answer
        (texts : list string) (raw : string) (kv : list (string * json)) (item : json)
        (v : list float) (w : world) :
  (forall body, invoke_model (trace w) body = Ok raw) ->
  json_loads raw = Some (JObj kv) ->
  Py.lookup "embedding" kv = Some item ->
  Py.lookup "embeddings" kv = None ->
  floats item = Ok v ->
  fst (embed_texts texts w) = Ok [v]
  /\ exists body, snd (embed_texts texts w) = log (InvokeModel body) w.
Proof.
  intros Hcall Hloads Hsome Hnone Hfloats. unfold embed_texts.
  rewrite Hcall, Hloads. split; [|eexists; reflexivity]. cbn [fst].
  unfold _parse_titan_embeddings, rbind, contains_key.
  rewrite Hnone, Hsome. cbn [andb Py.getitem_key]. now rewrite Hsome, Hfloats.
Qed.

End BatchFacts.

Lemma embed_texts_single_answer_witness :
  let E := Scenario.env Scenario.summary_ok Scenario.icebreakers_ok in
  fst (@Embeddings.embed_texts E ["chess"; "tea"; "hiking"] Scenario.stored)
  = Ok [[1%float; 0%float]]
  /\ exists body,
       snd (@Embeddings.embed_texts E ["chess"; "tea"; "hiking"] Scenario.stored)
       = log (InvokeModel body) Scenario.stored.
Proof.
  intros E.
  apply (@embed_texts_single_answer E ["chess"; "tea"; "hiking"]
           (Scenario.dumps (JObj [("embedding", Scenario.vector0)]))
           [("embedding", Scenario.vector0)] Scenario.vector0 [1%float; 0%float]
           Scenario.stored); reflexivity.
Defined.
